(** * NetTask: the datagram core of the Agent/Server protocol

    A shallow embedding of [NetTask] and its datagram variants (the header
    layout, the variant constructors, [serialize] and the static
    [deserialize] of every variant), followed by the properties of the
    protocol specification that concern them.

    Conventions.
    - A [Buffer] is a list of bytes.  Unsigned 32-bit fields are kept as [N];
      [Buffer.writeUInt32BE] throws on a value that does not fit 32 bits.
    - A JavaScript string is the list of its UTF-16 code units.
    - A JavaScript object that the module builds or enumerates is the [gmap]
      of its own properties; an object that the module reads by key is a
      [JSObject], whose prototype chain is searched as well.
    - A thrown [Error] is a value of [NTError]; a function that can throw
      returns a [result].
    - The two collaborators of the datagram core, the ECDHE session and the
      SPACK codec, are interfaces ([ECDHE_API], [SPACK_API]); a call of theirs
      that throws is [None]. *)

From Stdlib Require Import NArith ZArith List Lia Bool.
From Stdlib.Strings Require Import Byte.
From stdpp Require Import base option list gmap.
Import ListNotations.

Local Open Scope N_scope.

(** ** Bytes and buffers *)

Definition Buffer := list byte.

#[global] Instance byte_eq_dec : EqDecision byte := Byte.byte_eq_dec.

(** [buf.byteLength] *)
Definition byteLength (b : Buffer) : N := N.of_nat (length b).

(** The byte holding the low eight bits of [n]. *)
Definition byte_of_N (n : N) : byte :=
  match Byte.of_N (n mod 256) with
  | Some b => b
  | None => x00
  end.

(** [Buffer.from(s, "utf8")] for the ASCII literals of the module. *)
Definition NET_TASK_VERSION : N := 1.
Definition NET_TASK_SIGNATURE : Buffer := [x4e; x54; x54; x4b].  (* "NTTK" *)
Definition NET_TASK_CRYPTO : Buffer := [x43; x43].               (* "CC" *)
Definition NET_TASK_NOCRYPTO : Buffer := [x4e; x43].             (* "NC" *)

(** [a.equals(b)] on buffers: same length and same bytes. *)
Definition Buffer_equals (a b : Buffer) : bool :=
  bool_decide (a = b).

(** ** Errors

    The module throws plain [Error] objects that differ by their message.
    The constructors below name the throw sites after the error taxonomy of
    the protocol; [UnknownTask] and [InvalidSignature] are kinds of that
    taxonomy for which the module has no throw site. *)

Inductive NTError : Type :=
| InvalidSignature
| TruncatedFrame      (* a reader runs past the end of its buffer *)
| InvalidCryptoMark   (* "[NT] Deserialization Error: Invalid crypto mark." *)
| InvalidVersion      (* "[NT] Deserialization Error: Invalid Version." *)
| WrongType           (* "Deserialization Error: Not a ... datagram." *)
| CryptoFailure       (* an ECDHE call throws, "Serialization Error: Crypto error:" *)
| MalformedPayload    (* "Malformed ... packet: Malformed schema payload." *)
| UnknownTask
| NotLinked           (* "Serialization Error: Datagram not linked against an ECDHE instance." *)
| SPACKFailure        (* a SPACK serializer throws outside any try block *)
| OutOfRange.         (* the [RangeError] of [Buffer.writeUInt32BE], outside any try block *)

#[global] Instance NTError_eq_dec : EqDecision NTError.
Proof. solve_decision. Defined.

Inductive result (A : Type) : Type :=
| Ok (a : A)
| Err (e : NTError).
Arguments Ok {A} a.
Arguments Err {A} e.

(** ** Buffer codec

    [BufferWriter] and [BufferReader] come from [$common/util/buffer.js],
    which is not part of the module; they follow section 4.1 of the
    specification: a writer appends and [finish] returns the accumulated
    bytes; a positional reader advances a cursor, [read(n)] returns the next
    [n] bytes, integers are big-endian, and a read past the end fails with
    [TruncatedFrame]. *)

(** The four big-endian bytes of [n mod 2^32]. *)
Definition writeUInt32BE (n : N) : Buffer :=
  [ byte_of_N (N.shiftr n 24); byte_of_N (N.shiftr n 16);
    byte_of_N (N.shiftr n 8); byte_of_N n ].

(** [buf.writeUInt32BE(n)] on a fresh [Buffer.alloc(4)], the method of Node's
    [Buffer]: the four big-endian bytes of [n], and a [RangeError] when [n]
    does not fit 32 bits. *)
Definition Buffer_writeUInt32BE (n : N) : result Buffer :=
  if n <? 2 ^ 32 then Ok (writeUInt32BE n) else Err OutOfRange.

(** The unsigned big-endian value of a byte string. *)
Definition uintBE (b : Buffer) : N :=
  fold_left (fun acc x => acc * 256 + Byte.to_N x) b 0.

(** The signed value of a byte, in [-128, 127]. *)
Definition int8_of (u : N) : Z :=
  if (Z.of_N u <? 128)%Z then Z.of_N u else (Z.of_N u - 256)%Z.

Module BufferWriter.
(** Modelled from the spec: the [BufferWriter] class; a writer is the byte
    string accumulated so far. *)
Definition t := Buffer.

(** Modelled from the spec: [new BufferWriter()], with nothing written. *)
Definition new : t := [].

(** Modelled from the spec: [writer.write(b)] appends the bytes of [b]. *)
Definition write (w : t) (b : Buffer) : t := w ++ b.

(** Modelled from the spec: [writer.writeUInt32(n)] appends [n] as four
    big-endian bytes. *)
Definition writeUInt32 (w : t) (n : N) : t := w ++ writeUInt32BE n.

(** Modelled from the spec: [writer.writeUInt8(n)] appends one byte. *)
Definition writeUInt8 (w : t) (n : N) : t := w ++ [byte_of_N n].

(** Modelled from the spec: [writer.finish()] returns the accumulated bytes. *)
Definition finish (w : t) : Buffer := w.
End BufferWriter.

Module BufferReader.
(** Modelled from the spec: the [BufferReader] class; a reader is the part of
    its buffer that lies after the cursor. *)
Definition t := Buffer.

(** Modelled from the spec: [new BufferReader(b)], with the cursor at 0. *)
Definition new (b : Buffer) : t := b.

(** Modelled from the spec: [reader.read(n)] returns the next [n] bytes and
    advances by [n]; it fails with [TruncatedFrame] past the end. *)
Definition read (n : N) (r : t) : result (Buffer * t) :=
  if n <=? byteLength r
  then Ok (firstn (N.to_nat n) r, skipn (N.to_nat n) r)
  else Err TruncatedFrame.

(** Modelled from the spec: [reader.readUInt32()] reads four bytes as an
    unsigned big-endian integer. *)
Definition readUInt32 (r : t) : result (N * t) :=
  match read 4 r with
  | Ok (b, r') => Ok (uintBE b, r')
  | Err e => Err e
  end.

(** Modelled from the spec: [reader.readInt8()] reads one byte as a signed
    integer. *)
Definition readInt8 (r : t) : result (Z * t) :=
  match read 1 r with
  | Ok (b, r') => Ok (int8_of (uintBE b), r')
  | Err e => Err e
  end.
End BufferReader.

(** Code that reads from a reader: the reader is threaded, an error stops. *)
Definition Parser (A : Type) : Type := BufferReader.t -> result (A * BufferReader.t).

Definition pret {A} (a : A) : Parser A := fun r => Ok (a, r).
Definition pthrow {A} (e : NTError) : Parser A := fun _ => Err e.
Definition pbind {A B} (p : Parser A) (f : A -> Parser B) : Parser B :=
  fun r => match p r with
           | Ok (a, r') => f a r'
           | Err e => Err e
           end.

Declare Scope parser_scope.
Delimit Scope parser_scope with parser.
Notation "x <- p ;; q" := (pbind p (fun x => q))
  (at level 100, p at next level, right associativity) : parser_scope.

(** ** JavaScript strings and their UTF-8 form

    [s.length] is the number of UTF-16 code units; [Buffer.from(s, "utf8")]
    and [buf.toString("utf8")] are the platform's UTF-8 encoder and decoder
    (an unpaired surrogate is encoded as U+FFFD, and an ill-formed byte
    sequence is decoded to U+FFFD, one per maximal ill-formed prefix). *)

Definition JSString := list N.

Definition REPLACEMENT : N := 0xFFFD.

Definition is_high_surrogate (c : N) : bool := (0xD800 <=? c) && (c <=? 0xDBFF).
Definition is_low_surrogate (c : N) : bool := (0xDC00 <=? c) && (c <=? 0xDFFF).

Definition utf8_cont (x : N) : byte := byte_of_N (N.lor 0x80 (N.land x 0x3F)).

Definition utf8_of_code_point (cp : N) : Buffer :=
  if cp <? 0x80 then [byte_of_N cp]
  else if cp <? 0x800 then
    [byte_of_N (N.lor 0xC0 (N.shiftr cp 6)); utf8_cont cp]
  else if cp <? 0x10000 then
    [byte_of_N (N.lor 0xE0 (N.shiftr cp 12)); utf8_cont (N.shiftr cp 6); utf8_cont cp]
  else
    [byte_of_N (N.lor 0xF0 (N.shiftr cp 18)); utf8_cont (N.shiftr cp 12);
     utf8_cont (N.shiftr cp 6); utf8_cont cp].

(** [Buffer.from(s, "utf8")] *)
Fixpoint utf8_encode (s : JSString) : Buffer :=
  match s with
  | [] => []
  | c :: rest =>
      if is_high_surrogate c then
        match rest with
        | lo :: rest' =>
            if is_low_surrogate lo
            then utf8_of_code_point (0x10000 + (c - 0xD800) * 0x400 + (lo - 0xDC00))
                   ++ utf8_encode rest'
            else utf8_of_code_point REPLACEMENT ++ utf8_encode rest
        | [] => utf8_of_code_point REPLACEMENT
        end
      else if is_low_surrogate c then utf8_of_code_point REPLACEMENT ++ utf8_encode rest
      else utf8_of_code_point c ++ utf8_encode rest
  end.

Inductive Utf8State : Type :=
| Utf8Start
| Utf8Cont (cp : N) (remaining : nat) (lower upper : N).

Definition utf8_lead (b : N) : list N * Utf8State :=
  if b <=? 0x7F then ([b], Utf8Start)
  else if (0xC2 <=? b) && (b <=? 0xDF) then
    ([], Utf8Cont (N.land b 0x1F) 1 0x80 0xBF)
  else if (0xE0 <=? b) && (b <=? 0xEF) then
    ([], Utf8Cont (N.land b 0xF) 2
           (if b =? 0xE0 then 0xA0 else 0x80) (if b =? 0xED then 0x9F else 0xBF))
  else if (0xF0 <=? b) && (b <=? 0xF4) then
    ([], Utf8Cont (N.land b 0x7) 3
           (if b =? 0xF0 then 0x90 else 0x80) (if b =? 0xF4 then 0x8F else 0xBF))
  else ([REPLACEMENT], Utf8Start).

Definition utf8_step (st : Utf8State) (b : N) : list N * Utf8State :=
  match st with
  | Utf8Start => utf8_lead b
  | Utf8Cont cp k lo hi =>
      if (lo <=? b) && (b <=? hi) then
        let cp' := N.lor (N.shiftl cp 6) (N.land b 0x3F) in
        match k with
        | S (S k') => ([], Utf8Cont cp' (S k') 0x80 0xBF)
        | _ => ([cp'], Utf8Start)
        end
      else
        let '(out, st') := utf8_lead b in (REPLACEMENT :: out, st')
  end.

(** The code points decoded from [bs], starting in state [st]. *)
Fixpoint utf8_decode_from (st : Utf8State) (bs : Buffer) : list N :=
  match bs with
  | [] => match st with Utf8Start => [] | Utf8Cont _ _ _ _ => [REPLACEMENT] end
  | b :: rest =>
      let '(out, st') := utf8_step st (Byte.to_N b) in
      out ++ utf8_decode_from st' rest
  end.

Definition utf16_of_code_point (cp : N) : list N :=
  if cp <? 0x10000 then [cp]
  else [0xD800 + (cp - 0x10000) / 0x400; 0xDC00 + (cp - 0x10000) mod 0x400].

(** [buf.toString("utf8")] *)
Definition toString_utf8 (b : Buffer) : JSString :=
  flat_map utf16_of_code_point (utf8_decode_from Utf8Start b).

(** Every code unit is an ASCII character. *)
Definition ascii_only (s : JSString) : Prop := Forall (fun c => c < 0x80) s.

(** ** JavaScript objects read by key

    [NetTaskMetric.deserialize] receives [configTasks: object] and reads
    [configTasks[taskId]].  A property read finds the own property of that
    name, or else the first property of that name along the prototype chain
    of the object, or else gives [undefined].  An object written as a
    literal has [Object.prototype] as its prototype, so that ["constructor"],
    ["toString"] and the other member names of [Object.prototype] are found
    on it although they are not keys of the dictionary. *)

(** The values that such a read can give where a task descriptor is
    expected: [undefined], a task descriptor, or what [Object.prototype]
    holds under one of its member names ([Object] under ["constructor"], the
    prototype itself under ["__proto__"], a built-in function under the
    others). *)
Inductive JSValue (T : Type) : Type :=
| JSUndefined
| JSTask (t : T)
| JSBuiltin (name : JSString).
Arguments JSUndefined {T}.
Arguments JSTask {T} t.
Arguments JSBuiltin {T} name.

(** An object: its own properties, and the own properties of the objects of
    its prototype chain, nearest first. *)
Record JSObject (T : Type) : Type := mkJSObject {
  own : gmap JSString (JSValue T);
  prototypes : list (gmap JSString (JSValue T))
}.
Arguments mkJSObject {T} own prototypes.
Arguments own {T} _.
Arguments prototypes {T} _.

(** The first property named [k] along a prototype chain. *)
Fixpoint prototype_get {T} (chain : list (gmap JSString (JSValue T))) (k : JSString)
    : option (JSValue T) :=
  match chain with
  | [] => None
  | props :: chain' =>
      match props !! k with
      | Some v => Some v
      | None => prototype_get chain' k
      end
  end.

(** [o[k]] *)
Definition JSObject_get {T} (o : JSObject T) (k : JSString) : JSValue T :=
  match own o !! k with
  | Some v => v
  | None =>
      match prototype_get (prototypes o) k with
      | Some v => v
      | None => JSUndefined
      end
  end.

(** The code units of an ASCII name. *)
Definition JSString_of_bytes (name : list byte) : JSString := Byte.to_N <$> name.

(** The member names of [Object.prototype]. *)
Definition Object_prototype_names : list JSString :=
  JSString_of_bytes <$>
    [ [x63; x6f; x6e; x73; x74; x72; x75; x63; x74; x6f; x72];  (* "constructor" *)
      [x5f; x5f; x70; x72; x6f; x74; x6f; x5f; x5f];            (* "__proto__" *)
      [x68; x61; x73; x4f; x77; x6e; x50; x72; x6f; x70; x65; x72; x74; x79];
                                                                (* "hasOwnProperty" *)
      [x69; x73; x50; x72; x6f; x74; x6f; x74; x79; x70; x65; x4f; x66];
                                                                (* "isPrototypeOf" *)
      [x70; x72; x6f; x70; x65; x72; x74; x79; x49; x73; x45; x6e; x75; x6d; x65;
       x72; x61; x62; x6c; x65];                                (* "propertyIsEnumerable" *)
      [x74; x6f; x4c; x6f; x63; x61; x6c; x65; x53; x74; x72; x69; x6e; x67];
                                                                (* "toLocaleString" *)
      [x74; x6f; x53; x74; x72; x69; x6e; x67];                 (* "toString" *)
      [x76; x61; x6c; x75; x65; x4f; x66];                      (* "valueOf" *)
      [x5f; x5f; x64; x65; x66; x69; x6e; x65; x47; x65; x74; x74; x65; x72; x5f; x5f];
                                                                (* "__defineGetter__" *)
      [x5f; x5f; x64; x65; x66; x69; x6e; x65; x53; x65; x74; x74; x65; x72; x5f; x5f];
                                                                (* "__defineSetter__" *)
      [x5f; x5f; x6c; x6f; x6f; x6b; x75; x70; x47; x65; x74; x74; x65; x72; x5f; x5f];
                                                                (* "__lookupGetter__" *)
      [x5f; x5f; x6c; x6f; x6f; x6b; x75; x70; x53; x65; x74; x74; x65; x72; x5f; x5f]
                                                                (* "__lookupSetter__" *) ].

(** [Object.prototype], by what a read under each member name gives. *)
Definition Object_prototype {T} : gmap JSString (JSValue T) :=
  list_to_map ((fun name => (name, JSBuiltin name)) <$> Object_prototype_names).

(** An ordinary object with the own properties [props] and [Object.prototype]
    as its prototype: what a literal [{ k1: t1, ... }] or [JSON.parse]
    gives. *)
Definition object_literal {T} (props : gmap JSString T) : JSObject T :=
  {| own := JSTask <$> props; prototypes := [Object_prototype] |}.

(** ** The collaborators *)

(** The ECDHE session of [$common/protocol/ecdhe.js], by its interface: the
    hash length, the instance methods and the two static record codecs. *)
Class ECDHE_API : Type := {
  HASH_LEN : N;
  ECDHE : Type;
  EncryptedMessage : Type;
  encrypt : ECDHE -> Buffer -> option EncryptedMessage;
  decrypt : ECDHE -> EncryptedMessage -> option Buffer;
  envelope : ECDHE -> Buffer -> option EncryptedMessage;
  openEnvelope : ECDHE -> EncryptedMessage -> option Buffer;
  serializeEncryptedMessage : EncryptedMessage -> option Buffer;
  deserializeEncryptedMessage : Buffer -> option EncryptedMessage
}.

(** The SPACK codec of [./spack.js], by its interface.  The metric codec is
    handed whatever the caller holds as task descriptor ([task: object] in
    [NetTaskMetric], the result of a property read in its [deserialize]). *)
Class SPACK_API : Type := {
  SPACKPacked : Type;
  SPACKTask : Type;
  SPACKTaskMetric : Type;
  Task : Type;
  getUnpacked : SPACKTask -> Task;
  packTaskSchemas : gmap JSString Task -> option SPACKPacked;
  unpackTaskSchemas : SPACKPacked -> option (gmap JSString SPACKTask);
  serializeSPACK : SPACKPacked -> option Buffer;
  deserializeSPACK : Buffer -> option SPACKPacked;
  serializeTaskMetric : SPACKTaskMetric -> JSValue Task -> option Buffer;
  deserializeTaskMetric : Buffer -> JSValue Task -> option SPACKTaskMetric
}.

(** ** Constants and the public header *)

Inductive NetTaskDatagramType : Type :=
| REQUEST_REGISTER
| REGISTER_CHALLENGE
| REGISTER_CHALLENGE2
| CONNECTION_REJECTED
| PUSH_SCHEMAS
| SEND_METRICS.

(** The number a member of the enumeration stands for. *)
Definition type_code (ty : NetTaskDatagramType) : N :=
  match ty with
  | REQUEST_REGISTER => 0
  | REGISTER_CHALLENGE => 1
  | REGISTER_CHALLENGE2 => 2
  | CONNECTION_REJECTED => 3
  | PUSH_SCHEMAS => 4
  | SEND_METRICS => 5
  end.

Module NetTaskPublicHeader.
Record t : Type := mk {
  cryptoMark : Buffer;
  sessionId : Buffer;
  payloadSize : N
}.
End NetTaskPublicHeader.

(** ** Calls into the ECDHE session

    [serialize] of a linked variant is written over a log of the calls it
    makes to its ECDHE instance, so that "no encryption was performed" is a
    statement about its result. *)

Inductive CryptoCall : Type :=
| CallEncrypt (plain : Buffer)
| CallEnvelope (plain : Buffer).

Definition Traced (A : Type) : Type := (list CryptoCall * result A)%type.

Definition tret {A} (a : A) : Traced A := ([], Ok a).
Definition tthrow {A} (e : NTError) : Traced A := ([], Err e).
Definition tbind {A B} (m : Traced A) (f : A -> Traced B) : Traced B :=
  match m with
  | (l, Ok a) => let '(l', r) := f a in (l ++ l', r)
  | (l, Err e) => (l, Err e)
  end.

(** [try { m } catch (e) { throw new Error(...) }] with the error [e']. *)
Definition tcatch {A} (m : Traced A) (e' : NTError) : Traced A :=
  match m with
  | (l, Ok a) => (l, Ok a)
  | (l, Err _) => (l, Err e')
  end.

(** A collaborator call that throws when it answers [None]. *)
Definition orThrow {A} (o : option A) (e : NTError) : result A :=
  match o with
  | Some a => Ok a
  | None => Err e
  end.

Declare Scope traced_scope.
Delimit Scope traced_scope with traced.
Notation "x <- m ;; k" := (tbind m (fun x => k))
  (at level 100, m at next level, right associativity) : traced_scope.

(** ** The base class *)

Module NetTask.
Record t : Type := mk {
  sessionId : Buffer;
  cryptoMark : Buffer;
  version : N;
  sequenceNumber : N;
  fragmented : bool;
  acknowledgementNumber : N;
  type : N;
  payloadSize : N
}.

(** The constructor. *)
Definition new (sessionId cryptoMark : Buffer) (sequenceNumber acknowledgementNumber : N)
    (fragmented : bool) (type : N) (payloadSize : N) : t :=
  {| sessionId := sessionId;
     cryptoMark := cryptoMark;
     version := NET_TASK_VERSION;
     sequenceNumber := sequenceNumber;
     acknowledgementNumber := acknowledgementNumber;
     fragmented := fragmented;
     type := type;
     payloadSize := payloadSize |}.

(** [this.payloadSize = n] *)
Definition set_payloadSize (this : t) (n : N) : t :=
  {| sessionId := sessionId this;
     cryptoMark := cryptoMark this;
     version := version this;
     sequenceNumber := sequenceNumber this;
     acknowledgementNumber := acknowledgementNumber this;
     fragmented := fragmented this;
     type := type this;
     payloadSize := n |}.

Definition getSessionId (this : t) : Buffer := sessionId this.
Definition getCryptoMark (this : t) : Buffer := cryptoMark this.
Definition getVersion (this : t) : N := version this.
Definition getSequenceNumber (this : t) : N := sequenceNumber this.
Definition getAcknowledgementNumber (this : t) : N := acknowledgementNumber this.
Definition getFragmentedFlag (this : t) : bool := fragmented this.
Definition getType (this : t) : N := type this.
Definition getPayloadSize (this : t) : N := payloadSize this.

Definition isEncrypted (nt : t) : bool := Buffer_equals NET_TASK_CRYPTO (cryptoMark nt).

Definition verifySignature : Parser bool :=
  (sig <- BufferReader.read 4 ;;
   pret (Buffer_equals NET_TASK_SIGNATURE sig))%parser.

Definition serializePublicHeader (this : t) : Buffer :=
  let writer := BufferWriter.new in
  let writer := BufferWriter.write writer NET_TASK_SIGNATURE in
  let writer := BufferWriter.write writer (sessionId this) in
  let writer := BufferWriter.write writer (cryptoMark this) in
  let writer := BufferWriter.writeUInt32 writer (payloadSize this) in
  BufferWriter.finish writer.

Definition serializePrivateHeader (this : t) : Buffer :=
  let writer := BufferWriter.new in
  let writer := BufferWriter.writeUInt32 writer (version this) in
  let writer := BufferWriter.writeUInt32 writer (sequenceNumber this) in
  let writer := BufferWriter.writeUInt32 writer (acknowledgementNumber this) in
  let writer := BufferWriter.writeUInt8 writer (if fragmented this then 1 else 0) in
  let writer := BufferWriter.writeUInt32 writer (type this) in
  BufferWriter.finish writer.

Definition deserializePublicHeader `{ECDHE_API} : Parser NetTaskPublicHeader.t :=
  (sessionId <- BufferReader.read HASH_LEN ;;
   cryptoMark <- BufferReader.read (byteLength NET_TASK_CRYPTO) ;;
   if negb (Buffer_equals NET_TASK_CRYPTO cryptoMark)
      && negb (Buffer_equals NET_TASK_NOCRYPTO cryptoMark)
   then pthrow InvalidCryptoMark
   else
     payloadSize <- BufferReader.readUInt32 ;;
     pret (NetTaskPublicHeader.mk cryptoMark sessionId payloadSize))%parser.

Definition deserializePrivateHeader (partialHeader : NetTaskPublicHeader.t) : Parser t :=
  (version <- BufferReader.readUInt32 ;;
   if negb (version =? NET_TASK_VERSION)
   then pthrow InvalidVersion
   else
     sequenceNumber <- BufferReader.readUInt32 ;;
     acknowledgementNumber <- BufferReader.readUInt32 ;;
     fragmentedBool <- BufferReader.readInt8 ;;
     type <- BufferReader.readUInt32 ;;
     pret (new (NetTaskPublicHeader.sessionId partialHeader)
               (NetTaskPublicHeader.cryptoMark partialHeader)
               sequenceNumber
               acknowledgementNumber
               (negb (fragmentedBool =? 0)%Z)
               type
               (NetTaskPublicHeader.payloadSize partialHeader)))%parser.
End NetTask.

Module NetTaskRejected.
Record t : Type := mk { base : NetTask.t }.

Definition new (sessionId : Buffer) (sequenceNumber acknowledgementNumber : N) : t :=
  {| base := NetTask.new sessionId NET_TASK_NOCRYPTO sequenceNumber acknowledgementNumber
               false (type_code CONNECTION_REJECTED) 0 |}.

(** Returns the datagram as [serialize] leaves it, and the bytes. *)
Definition serialize (this : t) : t * Buffer :=
  let privHeader := NetTask.serializePrivateHeader (base this) in
  let this := {| base := NetTask.set_payloadSize (base this) (byteLength privHeader) |} in
  let pubHeader := NetTask.serializePublicHeader (base this) in
  let newWriter := BufferWriter.new in
  let newWriter := BufferWriter.write newWriter pubHeader in
  let newWriter := BufferWriter.write newWriter privHeader in
  (this, BufferWriter.finish newWriter).
End NetTaskRejected.

(** ** The registration variants *)

Module NetTaskRegister.
Record t : Type := mk { base : NetTask.t; _publicKey : Buffer }.

Definition new (sessionId : Buffer) (sequenceNumber acknowledgementNumber : N)
    (fragmented : bool) (publicKey : Buffer) : t :=
  {| base := NetTask.new sessionId NET_TASK_NOCRYPTO sequenceNumber acknowledgementNumber
               fragmented (type_code REQUEST_REGISTER) 0;
     _publicKey := publicKey |}.

Definition publicKey (this : t) : Buffer := _publicKey this.

Definition serialize (this : t) : t * Buffer :=
  let privHeader := NetTask.serializePrivateHeader (base this) in
  let this :=
    {| base := NetTask.set_payloadSize (base this)
                 (byteLength privHeader + 4 + byteLength (_publicKey this));
       _publicKey := _publicKey this |} in
  let pubHeader := NetTask.serializePublicHeader (base this) in
  let newWriter := BufferWriter.new in
  let newWriter := BufferWriter.write newWriter pubHeader in
  let newWriter := BufferWriter.write newWriter privHeader in
  let newWriter := BufferWriter.writeUInt32 newWriter (byteLength (_publicKey this)) in
  let newWriter := BufferWriter.write newWriter (_publicKey this) in
  (this, BufferWriter.finish newWriter).

Definition deserialize (dg : NetTask.t) : Parser t :=
  if negb (NetTask.getType dg =? type_code REQUEST_REGISTER)
  then pthrow WrongType
  else
    (publicKeyLen <- BufferReader.readUInt32 ;;
     publicKey <- BufferReader.read publicKeyLen ;;
     pret (new (NetTask.getSessionId dg)
               (NetTask.getSequenceNumber dg)
               (NetTask.getAcknowledgementNumber dg)
               (NetTask.getFragmentedFlag dg)
               publicKey))%parser.
End NetTaskRegister.

Module NetTaskRegisterChallenge.
Record t : Type := mk {
  base : NetTask.t;
  _publicKey : Buffer;
  _challenge : Buffer;
  _salt : Buffer
}.

Definition new (sessionId : Buffer) (sequenceNumber acknowledgementNumber : N)
    (fragmented : bool) (publicKey challenge salt : Buffer) : t :=
  {| base := NetTask.new sessionId NET_TASK_NOCRYPTO sequenceNumber acknowledgementNumber
               fragmented (type_code REGISTER_CHALLENGE) 0;
     _publicKey := publicKey;
     _challenge := challenge;
     _salt := salt |}.

Definition publicKey (this : t) : Buffer := _publicKey this.
Definition salt (this : t) : Buffer := _salt this.
Definition challenge (this : t) : Buffer := _challenge this.

Definition serialize (this : t) : t * Buffer :=
  let privHeader := NetTask.serializePrivateHeader (base this) in
  let this :=
    {| base := NetTask.set_payloadSize (base this)
                 (byteLength privHeader
                  + byteLength (_publicKey this)
                  + byteLength (_challenge this)
                  + byteLength (_salt this)
                  + 4 * 3);
       _publicKey := _publicKey this;
       _challenge := _challenge this;
       _salt := _salt this |} in
  let pubHeader := NetTask.serializePublicHeader (base this) in
  let newWriter := BufferWriter.new in
  let newWriter := BufferWriter.write newWriter pubHeader in
  let newWriter := BufferWriter.write newWriter privHeader in
  let newWriter := BufferWriter.writeUInt32 newWriter (byteLength (_publicKey this)) in
  let newWriter := BufferWriter.write newWriter (_publicKey this) in
  let newWriter := BufferWriter.writeUInt32 newWriter (byteLength (_challenge this)) in
  let newWriter := BufferWriter.write newWriter (_challenge this) in
  let newWriter := BufferWriter.writeUInt32 newWriter (byteLength (_salt this)) in
  let newWriter := BufferWriter.write newWriter (_salt this) in
  (this, BufferWriter.finish newWriter).

Definition deserialize (dg : NetTask.t) : Parser t :=
  if negb (NetTask.getType dg =? type_code REGISTER_CHALLENGE)
  then pthrow WrongType
  else
    (publicKeyLen <- BufferReader.readUInt32 ;;
     publicKey <- BufferReader.read publicKeyLen ;;
     challengeLen <- BufferReader.readUInt32 ;;
     challenge <- BufferReader.read challengeLen ;;
     saltLen <- BufferReader.readUInt32 ;;
     salt <- BufferReader.read saltLen ;;
     pret (new (NetTask.getSessionId dg)
               (NetTask.getSequenceNumber dg)
               (NetTask.getAcknowledgementNumber dg)
               (NetTask.getFragmentedFlag dg)
               publicKey
               challenge
               salt))%parser.
End NetTaskRegisterChallenge.

(** A call of [ecdhe.encrypt] or [ecdhe.envelope], logged. *)
Definition call_encrypt `{ECDHE_API} (ecdhe : ECDHE) (plain : Buffer) : Traced EncryptedMessage :=
  ([CallEncrypt plain], orThrow (encrypt ecdhe plain) CryptoFailure).

Definition call_envelope `{ECDHE_API} (ecdhe : ECDHE) (plain : Buffer) : Traced EncryptedMessage :=
  ([CallEnvelope plain], orThrow (envelope ecdhe plain) CryptoFailure).

(** A computation that makes no ECDHE call. *)
Definition tlift {A} (r : result A) : Traced A := ([], r).

(** A computation that does not touch the reader. *)
Definition plift {A} (r : result A) : Parser A :=
  fun rd => match r with
            | Ok a => Ok (a, rd)
            | Err e => Err e
            end.

(** [buf.readUInt32BE()] at offset 0; it throws on fewer than four bytes. *)
Definition Buffer_readUInt32BE (b : Buffer) : option N :=
  if (4 <=? length b)%nat then Some (uintBE (firstn 4 b)) else None.

(** [buf.subarray(start, end)]; both bounds are clamped to the buffer. *)
Definition Buffer_subarray (b : Buffer) (start end_ : N) : Buffer :=
  let start := N.min start (byteLength b) in
  let end_ := N.min end_ (byteLength b) in
  firstn (N.to_nat (end_ - start)) (skipn (N.to_nat start) b).

Module NetTaskRegisterChallenge2.
Section WithECDHE.
Context `{ECDHE_API}.

Record t : Type := mk {
  base : NetTask.t;
  _challenge : Buffer;
  ecdhe : option ECDHE
}.

Definition new (sessionId : Buffer) (sequenceNumber acknowledgementNumber : N)
    (fragmented : bool) (challenge : Buffer) : t :=
  {| base := NetTask.new sessionId NET_TASK_NOCRYPTO sequenceNumber acknowledgementNumber
               fragmented (type_code REGISTER_CHALLENGE2) 0;
     _challenge := challenge;
     ecdhe := None |}.

Definition challenge (this : t) : Buffer := _challenge this.

Definition link (this : t) (e : ECDHE) : t :=
  {| base := base this; _challenge := _challenge this; ecdhe := Some e |}.

Definition serialize (this : t) : Traced (t * Buffer) :=
  match ecdhe this with
  | None => tthrow NotLinked
  | Some _ =>
      let privHeader := NetTask.serializePrivateHeader (base this) in
      let this :=
        {| base := NetTask.set_payloadSize (base this)
                     (byteLength privHeader + byteLength (challenge this) + 4);
           _challenge := _challenge this;
           ecdhe := ecdhe this |} in
      let pubHeader := NetTask.serializePublicHeader (base this) in
      let dgramWriter := BufferWriter.new in
      let dgramWriter := BufferWriter.write dgramWriter pubHeader in
      let dgramWriter := BufferWriter.write dgramWriter privHeader in
      let dgramWriter := BufferWriter.writeUInt32 dgramWriter (byteLength (_challenge this)) in
      let dgramWriter := BufferWriter.write dgramWriter (_challenge this) in
      tret (this, BufferWriter.finish dgramWriter)
  end.

Definition deserialize (dg : NetTask.t) : Parser t :=
  if negb (NetTask.getType dg =? type_code REGISTER_CHALLENGE2)
  then pthrow WrongType
  else
    (challengeLen <- BufferReader.readUInt32 ;;
     challenge <- BufferReader.read challengeLen ;;
     pret (new (NetTask.getSessionId dg)
               (NetTask.getSequenceNumber dg)
               (NetTask.getAcknowledgementNumber dg)
               (NetTask.getFragmentedFlag dg)
               challenge))%parser.
End WithECDHE.
End NetTaskRegisterChallenge2.

(** ** The encrypted variants *)

(** What a PushSchemas datagram carries, [SPACKPacked | { [key: string]:
    SPACKTask }]: a packed SPACK object, or a collection of tasks still to be
    packed.  [isSPACKTaskCollection] tells the second case from the first. *)
Inductive Schemas `{SPACK_API} : Type :=
| Packed (p : SPACKPacked)
| TaskCollection (tasks : gmap JSString SPACKTask).

Module NetTaskPushSchemas.
Section WithCollaborators.
Context `{ECDHE_API} `{SPACK_API}.

Record t : Type := mk {
  base : NetTask.t;
  spack : Schemas;
  ecdhe : option ECDHE
}.

Definition new (sessionId : Buffer) (sequenceNumber acknowledgementNumber : N)
    (fragmented : bool) (spack : Schemas) : t :=
  {| base := NetTask.new sessionId NET_TASK_CRYPTO sequenceNumber acknowledgementNumber
               fragmented (type_code PUSH_SCHEMAS) 0;
     spack := spack;
     ecdhe := None |}.

Definition getSchemas (this : t) : Schemas := spack this.

Definition link (this : t) (e : ECDHE) : t :=
  {| base := base this; spack := spack this; ecdhe := Some e |}.

(** [pack]: the bytes of the schemas.  The first case is the branch
    [isSPACKTaskCollection(this.spack)], where every task is unpacked, the
    collection packed and the result serialized. *)
Definition pack_of (s : Schemas) : option Buffer :=
  match s with
  | TaskCollection tasks =>
      match packTaskSchemas (getUnpacked <$> tasks) with
      | Some p => serializeSPACK p
      | None => None
      end
  | Packed p => serializeSPACK p
  end.

Definition serialize (this : t) : Traced (t * Buffer) :=
  match ecdhe this with
  | None => tthrow NotLinked
  | Some ecdhe_ =>
      (pack <- tlift (orThrow (pack_of (spack this)) SPACKFailure) ;;
       packLen <- tlift (Buffer_writeUInt32BE (byteLength pack)) ;;
       let packCompound := packLen ++ pack in
       enc <- call_encrypt ecdhe_ packCompound ;;
       serENC <- tlift (orThrow (serializeEncryptedMessage enc) CryptoFailure) ;;
       let payloadWriter := BufferWriter.new in
       let privHeader := NetTask.serializePrivateHeader (base this) in
       let payloadWriter := BufferWriter.write payloadWriter privHeader in
       let payloadWriter := BufferWriter.writeUInt32 payloadWriter (byteLength serENC) in
       let payloadWriter := BufferWriter.write payloadWriter serENC in
       envelope <- tcatch
         (msg <- call_envelope ecdhe_ (BufferWriter.finish payloadWriter) ;;
          tlift (orThrow (serializeEncryptedMessage msg) CryptoFailure))
         CryptoFailure ;;
       let this :=
         {| base := NetTask.set_payloadSize (base this) (byteLength envelope);
            spack := spack this;
            ecdhe := ecdhe this |} in
       let pubHeader := NetTask.serializePublicHeader (base this) in
       let dgramWriter := BufferWriter.new in
       let dgramWriter := BufferWriter.write dgramWriter pubHeader in
       let dgramWriter := BufferWriter.write dgramWriter envelope in
       tret (this, BufferWriter.finish dgramWriter))%traced
  end.

(** The [try] block of [deserialize]: anything thrown in it is caught. *)
Definition parse_schemas (message : Buffer) : option (gmap JSString SPACKTask) :=
  match Buffer_readUInt32BE message with
  | None => None
  | Some spackLen =>
      let rawSpack := Buffer_subarray message 4 (spackLen + 4) in
      match deserializeSPACK rawSpack with
      | None => None
      | Some spack => unpackTaskSchemas spack
      end
  end.

Definition deserialize (ecdhe_ : ECDHE) (dg : NetTask.t) : Parser t :=
  if negb (NetTask.getType dg =? type_code PUSH_SCHEMAS)
  then pthrow WrongType
  else
    (serEncLen <- BufferReader.readUInt32 ;;
     serEnc <- BufferReader.read serEncLen ;;
     desMessage <- plift (orThrow (deserializeEncryptedMessage serEnc) CryptoFailure) ;;
     message <- plift (orThrow (decrypt ecdhe_ desMessage) CryptoFailure) ;;
     tasks <- plift (orThrow (parse_schemas message) MalformedPayload) ;;
     pret (new (NetTask.getSessionId dg) 123123 123123 true (TaskCollection tasks)))%parser.
End WithCollaborators.
End NetTaskPushSchemas.

Module NetTaskMetric.
Section WithCollaborators.
Context `{ECDHE_API} `{SPACK_API}.

Record t : Type := mk {
  base : NetTask.t;
  spack : SPACKTaskMetric;
  ecdhe : option ECDHE;
  taskId : JSString;
  task : JSValue Task
}.

Definition new (sessionId : Buffer) (sequenceNumber acknowledgementNumber : N)
    (fragmented : bool) (spack : SPACKTaskMetric) (taskId : JSString)
    (task : JSValue Task) : t :=
  {| base := NetTask.new sessionId NET_TASK_CRYPTO sequenceNumber acknowledgementNumber
               fragmented (type_code SEND_METRICS) 0;
     spack := spack;
     ecdhe := None;
     taskId := taskId;
     task := task |}.

Definition getMetrics (this : t) : SPACKTaskMetric := spack this.

Definition link (this : t) (e : ECDHE) : t :=
  {| base := base this; spack := spack this; ecdhe := Some e;
     taskId := taskId this; task := task this |}.

(** [packCompound], the plaintext handed to [ecdhe.encrypt]: the two
    lengths are written by [Buffer.writeUInt32BE], which throws on a length
    that does not fit 32 bits. *)
Definition packCompound_of (taskId : JSString) (pack : Buffer) : result Buffer :=
  match Buffer_writeUInt32BE (N.of_nat (length taskId)) with
  | Ok taskLen =>
      match Buffer_writeUInt32BE (byteLength pack) with
      | Ok packLen => Ok (taskLen ++ utf8_encode taskId ++ packLen ++ pack)
      | Err e => Err e
      end
  | Err e => Err e
  end.

Definition serialize (this : t) : Traced (t * Buffer) :=
  match ecdhe this with
  | None => tthrow NotLinked
  | Some ecdhe_ =>
      (pack <- tlift (orThrow (serializeTaskMetric (spack this) (task this)) SPACKFailure) ;;
       packCompound <- tlift (packCompound_of (taskId this) pack) ;;
       enc <- call_encrypt ecdhe_ packCompound ;;
       serENC <- tlift (orThrow (serializeEncryptedMessage enc) CryptoFailure) ;;
       let payloadWriter := BufferWriter.new in
       let privHeader := NetTask.serializePrivateHeader (base this) in
       let payloadWriter := BufferWriter.write payloadWriter privHeader in
       let payloadWriter := BufferWriter.writeUInt32 payloadWriter (byteLength serENC) in
       let payloadWriter := BufferWriter.write payloadWriter serENC in
       envelope <- tcatch
         (msg <- call_envelope ecdhe_ (BufferWriter.finish payloadWriter) ;;
          tlift (orThrow (serializeEncryptedMessage msg) CryptoFailure))
         CryptoFailure ;;
       let this :=
         {| base := NetTask.set_payloadSize (base this) (byteLength envelope);
            spack := spack this;
            ecdhe := ecdhe this;
            taskId := taskId this;
            task := task this |} in
       let pubHeader := NetTask.serializePublicHeader (base this) in
       let dgramWriter := BufferWriter.new in
       let dgramWriter := BufferWriter.write dgramWriter pubHeader in
       let dgramWriter := BufferWriter.write dgramWriter envelope in
       tret (this, BufferWriter.finish dgramWriter))%traced
  end.

(** The [try] block of [deserialize], run on [messageReader]; the
    descriptor is [configTasks[metric.taskId]], a property read. *)
Definition parse_metric (configTasks : JSObject Task)
    : Parser (JSString * SPACKTaskMetric) :=
  (taskIdLen <- BufferReader.readUInt32 ;;
   taskIdBytes <- BufferReader.read taskIdLen ;;
   let taskId := toString_utf8 taskIdBytes in
   spackLen <- BufferReader.readUInt32 ;;
   rawSpack <- BufferReader.read spackLen ;;
   metrics <- plift (orThrow (deserializeTaskMetric rawSpack
                                (JSObject_get configTasks taskId))
                             MalformedPayload) ;;
   pret (taskId, metrics))%parser.

Definition deserialize (ecdhe_ : ECDHE) (dg : NetTask.t)
    (configTasks : JSObject Task) : Parser t :=
  if negb (NetTask.getType dg =? type_code SEND_METRICS)
  then pthrow WrongType
  else
    (serEncLen <- BufferReader.readUInt32 ;;
     serEnc <- BufferReader.read serEncLen ;;
     desMessage <- plift (orThrow (deserializeEncryptedMessage serEnc) CryptoFailure) ;;
     message <- plift (orThrow (decrypt ecdhe_ desMessage) CryptoFailure) ;;
     let messageReader := BufferReader.new message in
     metric <- plift (match parse_metric configTasks messageReader with
                      | Ok (metric, _) => Ok metric
                      | Err _ => Err MalformedPayload
                      end) ;;
     pret (new (NetTask.getSessionId dg)
               (NetTask.getSequenceNumber dg)
               (NetTask.getAcknowledgementNumber dg)
               true
               (snd metric)
               (fst metric)
               (JSObject_get configTasks (fst metric))))%parser.
End WithCollaborators.
End NetTaskMetric.

(** ** Every variant at once *)

Section Datagrams.
Context `{ECDHE_API} `{SPACK_API}.

(** A datagram of any of the six classes. *)
Inductive Datagram : Type :=
| DRejected (d : NetTaskRejected.t)
| DRegister (d : NetTaskRegister.t)
| DRegisterChallenge (d : NetTaskRegisterChallenge.t)
| DRegisterChallenge2 (d : NetTaskRegisterChallenge2.t)
| DPushSchemas (d : NetTaskPushSchemas.t)
| DMetric (d : NetTaskMetric.t).

(** The inherited [NetTask] part. *)
Definition Datagram_base (d : Datagram) : NetTask.t :=
  match d with
  | DRejected d => NetTaskRejected.base d
  | DRegister d => NetTaskRegister.base d
  | DRegisterChallenge d => NetTaskRegisterChallenge.base d
  | DRegisterChallenge2 d => NetTaskRegisterChallenge2.base d
  | DPushSchemas d => NetTaskPushSchemas.base d
  | DMetric d => NetTaskMetric.base d
  end.

(** [d.serialize()], by dynamic dispatch. *)
Definition Datagram_serialize (d : Datagram) : Traced (Datagram * Buffer) :=
  match d with
  | DRejected d =>
      let '(d', out) := NetTaskRejected.serialize d in tret (DRejected d', out)
  | DRegister d =>
      let '(d', out) := NetTaskRegister.serialize d in tret (DRegister d', out)
  | DRegisterChallenge d =>
      let '(d', out) := NetTaskRegisterChallenge.serialize d in
      tret (DRegisterChallenge d', out)
  | DRegisterChallenge2 d =>
      (r <- NetTaskRegisterChallenge2.serialize d ;;
       tret (DRegisterChallenge2 (fst r), snd r))%traced
  | DPushSchemas d =>
      (r <- NetTaskPushSchemas.serialize d ;;
       tret (DPushSchemas (fst r), snd r))%traced
  | DMetric d =>
      (r <- NetTaskMetric.serialize d ;;
       tret (DMetric (fst r), snd r))%traced
  end.

(** The datagrams a program can hold: built by the constructor of a
    variant, then linked or serialized any number of times. *)
Inductive constructed : Datagram -> Prop :=
| new_Rejected sid seq ack :
    constructed (DRejected (NetTaskRejected.new sid seq ack))
| new_Register sid seq ack frag pk :
    constructed (DRegister (NetTaskRegister.new sid seq ack frag pk))
| new_RegisterChallenge sid seq ack frag pk ch salt :
    constructed (DRegisterChallenge (NetTaskRegisterChallenge.new sid seq ack frag pk ch salt))
| new_RegisterChallenge2 sid seq ack frag ch :
    constructed (DRegisterChallenge2 (NetTaskRegisterChallenge2.new sid seq ack frag ch))
| new_PushSchemas sid seq ack frag sp :
    constructed (DPushSchemas (NetTaskPushSchemas.new sid seq ack frag sp))
| new_Metric sid seq ack frag sp tid tk :
    constructed (DMetric (NetTaskMetric.new sid seq ack frag sp tid tk))
| link_RegisterChallenge2 d e :
    constructed (DRegisterChallenge2 d) ->
    constructed (DRegisterChallenge2 (NetTaskRegisterChallenge2.link d e))
| link_PushSchemas d e :
    constructed (DPushSchemas d) ->
    constructed (DPushSchemas (NetTaskPushSchemas.link d e))
| link_Metric d e :
    constructed (DMetric d) ->
    constructed (DMetric (NetTaskMetric.link d e))
| after_serialize d calls d' out :
    constructed d ->
    Datagram_serialize d = (calls, Ok (d', out)) ->
    constructed d'.

(** The fields of a header that a receiver can rely on: a session id of
    [HASH_LEN] bytes and one of the two crypto marks. *)
Definition valid_header (b : NetTask.t) : Prop :=
  byteLength (NetTask.sessionId b) = HASH_LEN
  /\ (NetTask.cryptoMark b = NET_TASK_CRYPTO \/ NetTask.cryptoMark b = NET_TASK_NOCRYPTO).

(** The four fields of a private header fit their width. *)
Definition valid_private (b : NetTask.t) : Prop :=
  NetTask.version b = NET_TASK_VERSION
  /\ NetTask.sequenceNumber b < 2 ^ 32
  /\ NetTask.acknowledgementNumber b < 2 ^ 32
  /\ NetTask.type b < 2 ^ 32.

(** The length of a public header, [4 + HASH_LEN + 2 + 4]. *)
Definition PUBLIC_HEADER_LEN : N := 4 + HASH_LEN + 2 + 4.

(** The [payloadSize] field as it stands in the bytes of a datagram. *)
Definition wire_payloadSize (out : Buffer) : N :=
  uintBE (firstn 4 (skipn (N.to_nat (4 + HASH_LEN + 2)) out)).

(** The layout of an encrypted datagram: [out] is the public header of
    [base'] followed by [outerEnc], the serialized envelope of the private
    header, the length of [innerEnc] and [innerEnc], which is the
    serialized encryption of [inner]; [calls] are the two ECDHE calls made,
    and [base'] is [base] with the length of [outerEnc] as payload size. *)
Definition encrypted_layout (e : ECDHE) (base : NetTask.t) (inner : Buffer)
    (calls : list CryptoCall) (base' : NetTask.t) (out : Buffer) : Prop :=
  exists (enc env : EncryptedMessage) (innerEnc outerEnc : Buffer),
    encrypt e inner = Some enc
    /\ serializeEncryptedMessage enc = Some innerEnc
    /\ envelope e (NetTask.serializePrivateHeader base
                   ++ writeUInt32BE (byteLength innerEnc) ++ innerEnc) = Some env
    /\ serializeEncryptedMessage env = Some outerEnc
    /\ calls = [CallEncrypt inner;
                CallEnvelope (NetTask.serializePrivateHeader base
                              ++ writeUInt32BE (byteLength innerEnc) ++ innerEnc)]
    /\ base' = NetTask.set_payloadSize base (byteLength outerEnc)
    /\ NetTask.payloadSize base' = byteLength outerEnc
    /\ out = NetTask.serializePublicHeader base' ++ outerEnc.

(** The crypto mark as it stands in a reader placed after the signature. *)
Definition mark_in (r : Buffer) : Buffer :=
  firstn 2 (skipn (N.to_nat HASH_LEN) r).

(** *** The receiving side

    The caller of the module is not part of it.  Section 5 of the
    specification has it hand the bytes to [verifySignature],
    [deserializePublicHeader], [deserializePrivateHeader] and then dispatch
    on the type; by section 4.4, for an encrypted datagram the outer envelope
    is opened first and the private header is read from its plaintext. *)

(** Modelled from the spec: the caller checks the signature and reads the
    public header; a frame with another signature is not one of ours. *)
Definition receive_publicHeader : Parser NetTaskPublicHeader.t :=
  (ok <- NetTask.verifySignature ;;
   if ok : bool then NetTask.deserializePublicHeader else pthrow InvalidSignature)%parser.

(** Modelled from the spec: the caller's pipeline for a cleartext datagram,
    ending in the [deserialize] of the variant. *)
Definition receive_cleartext {A} (deserialize : NetTask.t -> Parser A) : Parser A :=
  (header <- receive_publicHeader ;;
   dg <- NetTask.deserializePrivateHeader header ;;
   deserialize dg)%parser.

(** Modelled from the spec: the caller's pipeline for an encrypted datagram;
    the [payloadSize] bytes after the public header are the serialized
    envelope, and the private header and the body are read from what it
    opens to. *)
Definition receive_encrypted {A} (ecdhe_ : ECDHE) (deserialize : NetTask.t -> Parser A)
    : Parser A :=
  (header <- receive_publicHeader ;;
   outerEnc <- BufferReader.read (NetTaskPublicHeader.payloadSize header) ;;
   record <- plift (orThrow (deserializeEncryptedMessage outerEnc) CryptoFailure) ;;
   plain <- plift (orThrow (openEnvelope ecdhe_ record) CryptoFailure) ;;
   plift (match (dg <- NetTask.deserializePrivateHeader header ;; deserialize dg)
                  (BufferReader.new plain) with
          | Ok (a, _) => Ok a
          | Err e => Err e
          end))%parser.
End Datagrams.

(** ** What the collaborators promise

    Decoding is a left inverse of encoding, for every call that succeeds. *)

Class ECDHE_Laws `{ECDHE_API} : Prop := {
  decrypt_encrypt : forall e plain msg,
    encrypt e plain = Some msg -> decrypt e msg = Some plain;
  openEnvelope_envelope : forall e plain msg,
    envelope e plain = Some msg -> openEnvelope e msg = Some plain;
  deserialize_serializeEncryptedMessage : forall msg b,
    serializeEncryptedMessage msg = Some b -> deserializeEncryptedMessage b = Some msg
}.

Class SPACK_Laws `{SPACK_API} : Prop := {
  deserialize_serializeSPACK : forall p b,
    serializeSPACK p = Some b -> deserializeSPACK b = Some p;
  unpack_packTaskSchemas : forall (tasks : gmap JSString SPACKTask) p,
    packTaskSchemas (getUnpacked <$> tasks) = Some p ->
    exists tasks', unpackTaskSchemas p = Some tasks'
                   /\ getUnpacked <$> tasks' = getUnpacked <$> tasks;
  deserialize_serializeTaskMetric : forall m (tk : Task) b,
    serializeTaskMetric m (JSTask tk) = Some b -> deserializeTaskMetric b (JSTask tk) = Some m
}.

(** ** A small instance of the collaborators

    An ECDHE session whose records are byte strings ([encrypt] reverses the
    plaintext, [envelope] prefixes it with a marker byte) and a SPACK codec
    over byte strings that knows the empty schema collection and, as code
    that reads fields of the descriptor it is given, throws on [undefined]
    and on nothing else.  It is used to run the definitions on concrete
    datagrams. *)

Module Small.
Definition open_marked (m : Buffer) : option Buffer :=
  match m with
  | b :: plain => if bool_decide (b = xee) then Some plain else None
  | [] => None
  end.

#[export] Instance ecdhe_api : ECDHE_API := {|
  HASH_LEN := 32;
  ECDHE := unit;
  EncryptedMessage := Buffer;
  encrypt := fun _ plain => Some (rev plain);
  decrypt := fun _ msg => Some (rev msg);
  envelope := fun _ plain => Some (xee :: plain);
  openEnvelope := fun _ msg => open_marked msg;
  serializeEncryptedMessage := fun msg => Some msg;
  deserializeEncryptedMessage := fun b => Some b
|}.

Definition pack_empty (tasks : gmap JSString N) : option Buffer :=
  if bool_decide (tasks = ∅) then Some [] else None.

Definition unpack_empty (p : Buffer) : option (gmap JSString N) :=
  match p with
  | [] => Some ∅
  | _ :: _ => None
  end.

Definition with_descriptor (b : Buffer) (tk : JSValue N) : option Buffer :=
  match tk with
  | JSUndefined => None
  | JSTask _ | JSBuiltin _ => Some b
  end.

#[export] Instance spack_api : SPACK_API := {|
  SPACKPacked := Buffer;
  SPACKTask := N;
  SPACKTaskMetric := Buffer;
  Task := N;
  getUnpacked := fun t => t;
  packTaskSchemas := pack_empty;
  unpackTaskSchemas := unpack_empty;
  serializeSPACK := fun p => Some p;
  deserializeSPACK := fun b => Some b;
  serializeTaskMetric := with_descriptor;
  deserializeTaskMetric := with_descriptor
|}.

(** Thirty-two zero bytes. *)
Definition zero_session : Buffer := repeat x00 32.

(** The task name ["cpu"] and the one-task configuration of a receiver,
    the object literal [{ cpu: 7 }]. *)
Definition cpu : JSString := [0x63; 0x70; 0x75].
Definition config : JSObject N := object_literal {[ cpu := 7 ]}.

(** The task name ["é"], one code unit and two UTF-8 bytes. *)
Definition e_acute : JSString := [0xE9].

(** A receiver that knows the task ["é"]. *)
Definition config_e : JSObject N := object_literal {[ e_acute := 7 ]}.

(** ["mem"], a task the receiver does not know. *)
Definition mem : JSString := [0x6D; 0x65; 0x6D].

(** ["constructor"], not a task of the receiver either, and a member name of
    [Object.prototype]. *)
Definition constructor_name : JSString :=
  JSString_of_bytes [x63; x6f; x6e; x73; x74; x72; x75; x63; x74; x6f; x72].

Definition a_push : NetTaskPushSchemas.t :=
  NetTaskPushSchemas.link
    (NetTaskPushSchemas.new zero_session 1 0 false (TaskCollection ∅)) tt.

Definition a_metric (taskId : JSString) : NetTaskMetric.t :=
  NetTaskMetric.link
    (NetTaskMetric.new zero_session 1 0 false [x2a] taskId (JSTask 7)) tt.

(** The plaintext that [a_metric taskId] hands to [encrypt]: the length of
    the task id, its UTF-8 form, the length of the pack and the pack. *)
Definition plaintext_of (taskId : JSString) : Buffer :=
  writeUInt32BE (N.of_nat (length taskId)) ++ utf8_encode taskId
  ++ writeUInt32BE 1 ++ [x2a].

(** What the two are read back as. *)
Definition a_push_read : NetTaskPushSchemas.t :=
  NetTaskPushSchemas.new zero_session 123123 123123 true (TaskCollection ∅).

Definition a_metric_read (taskId : JSString) : NetTaskMetric.t :=
  NetTaskMetric.new zero_session 1 0 true [x2a] taskId (JSTask 7).

(** The bytes that [serialize] returns, if any. *)
Definition bytes_of {A} (r : Traced (A * Buffer)) : Buffer :=
  match r with
  | (_, Ok (_, out)) => out
  | (_, Err _) => []
  end.

(** The datagram as [serialize] leaves it ([d] itself when it throws). *)
Definition left_by {A} (d : A) (r : Traced (A * Buffer)) : A :=
  match r with
  | (_, Ok (d', _)) => d'
  | (_, Err _) => d
  end.

(** The plaintext of the last [envelope] call of a [serialize]. *)
Definition enveloped {A} (r : Traced A) : Buffer :=
  match last (fst r) with
  | Some (CallEnvelope plain) => plain
  | _ => []
  end.

(** What the receiver of [a_metric taskId] holds once the envelope is
    open: the base datagram it parsed, and the reader behind the private
    header. *)
Definition received_base (taskId : JSString) : NetTask.t :=
  NetTask.new zero_session NET_TASK_CRYPTO 1 0 false (type_code SEND_METRICS)
    (NetTask.payloadSize
       (NetTaskMetric.base
          (left_by (a_metric taskId) (NetTaskMetric.serialize (a_metric taskId))))).

Definition received_body (taskId : JSString) : BufferReader.t :=
  skipn 17 (enveloped (NetTaskMetric.serialize (a_metric taskId))).
End Small.

(** ** The public header on its own *)

(** [NetTask.isEncrypted(pheader)], the overload on a public header. *)
Definition isEncrypted_header (pheader : NetTaskPublicHeader.t) : bool :=
  Buffer_equals NET_TASK_CRYPTO (NetTaskPublicHeader.cryptoMark pheader).

(** The packed object that [NetTaskPushSchemas.serialize] hands to
    [serializeSPACK]: the schemas themselves, or the task collection packed
    by [packTaskSchemas] after every task is unpacked. *)
Definition packed_of `{SPACK_API} (s : Schemas) : option SPACKPacked :=
  match s with
  | TaskCollection tasks => packTaskSchemas (getUnpacked <$> tasks)
  | Packed p => Some p
  end.

(** Whether a datagram is of one of the two classes that encrypt their
    payload. *)
Definition Datagram_is_encrypted `{ECDHE_API} `{SPACK_API} (d : Datagram) : bool :=
  match d with
  | DPushSchemas _ | DMetric _ => true
  | DRejected _ | DRegister _ | DRegisterChallenge _ | DRegisterChallenge2 _ => false
  end.

(** The member of [NetTaskDatagramType] that the constructor of the class of
    a datagram passes to [super]. *)
Definition Datagram_type `{ECDHE_API} `{SPACK_API} (d : Datagram) : NetTaskDatagramType :=
  match d with
  | DRejected _ => CONNECTION_REJECTED
  | DRegister _ => REQUEST_REGISTER
  | DRegisterChallenge _ => REGISTER_CHALLENGE
  | DRegisterChallenge2 _ => REGISTER_CHALLENGE2
  | DPushSchemas _ => PUSH_SCHEMAS
  | DMetric _ => SEND_METRICS
  end.

(** * Properties *)

(** ** The buffer codec *)

(** Division and remainder by a constant are linear for [lia]. *)
Ltac Zify.zify_post_hook ::= Z.to_euclidean_division_equations.

Lemma to_N_byte_of_N (n : N) : Byte.to_N (byte_of_N n) = n mod 256.
Proof.
  unfold byte_of_N.
  destruct (Byte.of_N (n mod 256)) as [b|] eqn:E.
  - now apply Byte.to_of_N.
  - apply Byte.of_N_None_iff in E.
    pose proof (N.mod_upper_bound n 256). lia.
Qed.

Lemma byte_of_to_N (b : byte) : byte_of_N (Byte.to_N b) = b.
Proof.
  unfold byte_of_N.
  rewrite N.mod_small by (pose proof (Byte.to_N_bounded b); lia).
  now rewrite Byte.of_to_N.
Qed.

Lemma length_writeUInt32BE (n : N) : length (writeUInt32BE n) = 4%nat.
Proof. reflexivity. Qed.

Lemma uintBE_writeUInt32BE (n : N) : n < 2 ^ 32 -> uintBE (writeUInt32BE n) = n.
Proof.
  intros Hn. unfold uintBE, writeUInt32BE. cbn [fold_left].
  rewrite !to_N_byte_of_N, !N.shiftr_div_pow2.
  change (2 ^ 24) with 16777216. change (2 ^ 16) with 65536. change (2 ^ 8) with 256.
  change (2 ^ 32) with 4294967296 in Hn.
  lia.
Qed.

Lemma byteLength_app (a b : Buffer) : byteLength (a ++ b) = byteLength a + byteLength b.
Proof. unfold byteLength. rewrite length_app. lia. Qed.

Lemma byteLength_writeUInt32BE (n : N) : byteLength (writeUInt32BE n) = 4.
Proof. reflexivity. Qed.

Lemma read_app (b r : Buffer) :
  BufferReader.read (byteLength b) (b ++ r) = Ok (b, r).
Proof.
  unfold BufferReader.read.
  rewrite byteLength_app.
  destruct (N.leb_spec (byteLength b) (byteLength b + byteLength r)) as [_|Hlt]; [|lia].
  unfold byteLength. rewrite Nat2N.id.
  now rewrite take_app_length, drop_app_length.
Qed.

Lemma read_all (b : Buffer) : BufferReader.read (byteLength b) b = Ok (b, []).
Proof. rewrite <- (app_nil_r b) at 2. apply read_app. Qed.

Lemma read_app_len (n : N) (b r : Buffer) :
  byteLength b = n -> BufferReader.read n (b ++ r) = Ok (b, r).
Proof. intros <-. apply read_app. Qed.

Lemma read_short (n : N) (r : Buffer) :
  byteLength r < n -> BufferReader.read n r = Err TruncatedFrame.
Proof.
  intros Hlt. unfold BufferReader.read.
  destruct (N.leb_spec n (byteLength r)); [lia | reflexivity].
Qed.

Lemma read_enough (n : N) (r : Buffer) :
  n <= byteLength r ->
  BufferReader.read n r = Ok (firstn (N.to_nat n) r, skipn (N.to_nat n) r).
Proof.
  intros Hle. unfold BufferReader.read.
  destruct (N.leb_spec n (byteLength r)); [reflexivity | lia].
Qed.

Lemma readUInt32_write (n : N) (r : Buffer) :
  n < 2 ^ 32 -> BufferReader.readUInt32 (writeUInt32BE n ++ r) = Ok (n, r).
Proof.
  intros Hn. unfold BufferReader.readUInt32.
  rewrite (read_app_len 4 (writeUInt32BE n) r) by reflexivity.
  now rewrite uintBE_writeUInt32BE.
Qed.

Lemma readInt8_flag (f : bool) (r : Buffer) :
  BufferReader.readInt8 (byte_of_N (if f then 1 else 0) :: r)
  = Ok (if f then 1%Z else 0%Z, r).
Proof.
  unfold BufferReader.readInt8.
  change (byte_of_N (if f then 1 else 0) :: r)
    with ([byte_of_N (if f then 1 else 0)] ++ r).
  rewrite (read_app_len 1) by reflexivity.
  now destruct f.
Qed.

(** Running a parser step whose outcome is known. *)
Lemma pbind_ok {A B} (p : Parser A) (f : A -> Parser B) r a r' :
  p r = Ok (a, r') -> pbind p f r = f a r'.
Proof. unfold pbind. now intros ->. Qed.

Lemma pbind_err {A B} (p : Parser A) (f : A -> Parser B) r e :
  p r = Err e -> pbind p f r = Err e.
Proof. unfold pbind. now intros ->. Qed.

Lemma byteLength_skipn (n : nat) (r : Buffer) :
  byteLength (skipn n r) = byteLength r - N.of_nat n.
Proof. unfold byteLength. rewrite length_skipn. lia. Qed.

Lemma byteLength_firstn (n : nat) (r : Buffer) :
  N.of_nat n <= byteLength r -> byteLength (firstn n r) = N.of_nat n.
Proof. unfold byteLength. intros Hn. rewrite length_firstn. lia. Qed.

Lemma readUInt32_enough (r : Buffer) :
  4 <= byteLength r ->
  BufferReader.readUInt32 r = Ok (uintBE (firstn 4 r), skipn 4 r).
Proof.
  intros Hr. unfold BufferReader.readUInt32. now rewrite read_enough.
Qed.

Lemma readUInt32_short (r : Buffer) :
  byteLength r < 4 -> BufferReader.readUInt32 r = Err TruncatedFrame.
Proof.
  intros Hr. unfold BufferReader.readUInt32. now rewrite read_short.
Qed.

Lemma readInt8_enough (r : Buffer) :
  1 <= byteLength r ->
  BufferReader.readInt8 r = Ok (int8_of (uintBE (firstn 1 r)), skipn 1 r).
Proof.
  intros Hr. unfold BufferReader.readInt8. now rewrite read_enough.
Qed.

Lemma uintBE_one_byte (r : Buffer) : uintBE (firstn 1 r) <= 255.
Proof.
  destruct r as [|b r]; cbn; [lia|].
  apply Byte.to_N_bounded.
Qed.

Lemma int8_of_zero (u : N) : u <= 255 -> (int8_of u =? 0)%Z = (u =? 0).
Proof.
  intros Hu. unfold int8_of.
  destruct (N.eqb_spec u 0) as [->|Hne]; [reflexivity|].
  destruct (Z.ltb_spec (Z.of_N u) 128); apply Z.eqb_neq; lia.
Qed.

(** ** The two headers *)

Lemma serializePrivateHeader_bytes (b : NetTask.t) :
  NetTask.serializePrivateHeader b
  = writeUInt32BE (NetTask.version b)
    ++ writeUInt32BE (NetTask.sequenceNumber b)
    ++ writeUInt32BE (NetTask.acknowledgementNumber b)
    ++ [byte_of_N (if NetTask.fragmented b then 1 else 0)]
    ++ writeUInt32BE (NetTask.type b).
Proof. reflexivity. Qed.

Lemma byteLength_serializePrivateHeader (b : NetTask.t) :
  byteLength (NetTask.serializePrivateHeader b) = 17.
Proof. reflexivity. Qed.


Lemma serializePublicHeader_bytes (b : NetTask.t) :
  NetTask.serializePublicHeader b
  = NET_TASK_SIGNATURE ++ NetTask.sessionId b ++ NetTask.cryptoMark b
    ++ writeUInt32BE (NetTask.payloadSize b).
Proof.
  unfold NetTask.serializePublicHeader, BufferWriter.finish, BufferWriter.writeUInt32,
    BufferWriter.write, BufferWriter.new.
  now rewrite app_nil_l, <- !app_assoc.
Qed.

(** Reading a private header from the front of a reader with at least
    seventeen bytes. *)
Lemma deserializePrivateHeader_enough (ph : NetTaskPublicHeader.t) (r : Buffer) :
  17 <= byteLength r ->
  uintBE (firstn 4 r) = NET_TASK_VERSION ->
  NetTask.deserializePrivateHeader ph r
  = Ok (NetTask.new (NetTaskPublicHeader.sessionId ph)
                    (NetTaskPublicHeader.cryptoMark ph)
                    (uintBE (firstn 4 (skipn 4 r)))
                    (uintBE (firstn 4 (skipn 8 r)))
                    (negb (uintBE (firstn 1 (skipn 12 r)) =? 0))
                    (uintBE (firstn 4 (skipn 13 r)))
                    (NetTaskPublicHeader.payloadSize ph),
        skipn 17 r).
Proof.
  intros Hr Hv. unfold NetTask.deserializePrivateHeader.
  rewrite (pbind_ok _ _ _ _ _ (readUInt32_enough r ltac:(lia))).
  rewrite Hv. cbn [negb N.eqb NET_TASK_VERSION Pos.eqb].
  rewrite (pbind_ok _ _ _ _ _ (readUInt32_enough (skipn 4 r)
             ltac:(rewrite byteLength_skipn; lia))).
  rewrite !skipn_skipn. cbn [Nat.add].
  rewrite (pbind_ok _ _ _ _ _ (readUInt32_enough (skipn 8 r)
             ltac:(rewrite byteLength_skipn; lia))).
  rewrite !skipn_skipn. cbn [Nat.add].
  rewrite (pbind_ok _ _ _ _ _ (readInt8_enough (skipn 12 r)
             ltac:(rewrite byteLength_skipn; lia))).
  rewrite !skipn_skipn. cbn [Nat.add].
  rewrite (pbind_ok _ _ _ _ _ (readUInt32_enough (skipn 13 r)
             ltac:(rewrite byteLength_skipn; lia))).
  rewrite !skipn_skipn. cbn [Nat.add].
  unfold pret. now rewrite int8_of_zero by apply uintBE_one_byte.
Qed.

(** C6. [deserializePrivateHeader] throws the invalid-version error exactly
    when the 32-bit version it reads is not 1 (the reader holding at least
    the four bytes of the version); when the version is 1 and the seventeen
    bytes of a private header are there, it returns a base datagram that
    carries the session id, the crypto mark and the payload size of the
    public header, and the sequence number, the acknowledgement number, the
    fragmented flag and the type that it parsed. *)
Theorem deserializePrivateHeader_version (ph : NetTaskPublicHeader.t) (r : BufferReader.t) :
  (4 <= byteLength r ->
   (NetTask.deserializePrivateHeader ph r = Err InvalidVersion
    <-> uintBE (firstn 4 r) <> 1))
  /\ (17 <= byteLength r ->
      uintBE (firstn 4 r) = 1 ->
      exists dg,
        NetTask.deserializePrivateHeader ph r = Ok (dg, skipn 17 r)
        /\ NetTask.sessionId dg = NetTaskPublicHeader.sessionId ph
        /\ NetTask.cryptoMark dg = NetTaskPublicHeader.cryptoMark ph
        /\ NetTask.payloadSize dg = NetTaskPublicHeader.payloadSize ph
        /\ NetTask.version dg = 1
        /\ NetTask.sequenceNumber dg = uintBE (firstn 4 (skipn 4 r))
        /\ NetTask.acknowledgementNumber dg = uintBE (firstn 4 (skipn 8 r))
        /\ NetTask.fragmented dg = negb (uintBE (firstn 1 (skipn 12 r)) =? 0)
        /\ NetTask.type dg = uintBE (firstn 4 (skipn 13 r))).
Proof.
  split.
  - intros Hr. unfold NetTask.deserializePrivateHeader.
    rewrite (pbind_ok _ _ _ _ _ (readUInt32_enough r Hr)).
    unfold NET_TASK_VERSION.
    destruct (N.eqb_spec (uintBE (firstn 4 r)) 1) as [Hv|Hv]; cbn [negb].
    + split; [|congruence]. intros Hres. exfalso.
      unfold pbind in Hres.
      repeat match type of Hres with
             | match ?p with _ => _ end = _ => destruct p as [[? ?]|?] eqn:?
             end; try discriminate.
      all: match goal with
           | E : BufferReader.readUInt32 _ = Err _ |- _ =>
               unfold BufferReader.readUInt32, BufferReader.read in E;
               destruct (_ <=? _) in E; congruence
           | E : BufferReader.readInt8 _ = Err _ |- _ =>
               unfold BufferReader.readInt8, BufferReader.read in E;
               destruct (_ <=? _) in E; congruence
           end.
    + split; [intros _; exact Hv | reflexivity].
  - intros Hr Hv. eexists. split.
    + now apply deserializePrivateHeader_enough.
    + cbn. repeat split; reflexivity.
Qed.

Section PublicHeader.
Context `{ECDHE_API}.

Lemma deserializePublicHeader_mark (r : Buffer) :
  HASH_LEN + 2 <= byteLength r ->
  NetTask.deserializePublicHeader r
  = if negb (Buffer_equals NET_TASK_CRYPTO (mark_in r))
       && negb (Buffer_equals NET_TASK_NOCRYPTO (mark_in r))
    then Err InvalidCryptoMark
    else match BufferReader.readUInt32 (skipn (N.to_nat (HASH_LEN + 2)) r) with
         | Ok (payloadSize, r') =>
             Ok (NetTaskPublicHeader.mk (mark_in r) (firstn (N.to_nat HASH_LEN) r)
                   payloadSize, r')
         | Err e => Err e
         end.
Proof.
  intros Hr. unfold NetTask.deserializePublicHeader.
  rewrite (pbind_ok _ _ _ _ _ (read_enough HASH_LEN r ltac:(lia))).
  rewrite (pbind_ok _ _ _ _ _ (read_enough (byteLength NET_TASK_CRYPTO)
             (skipn (N.to_nat HASH_LEN) r)
             ltac:(rewrite byteLength_skipn; change (byteLength NET_TASK_CRYPTO) with 2; lia))).
  change (N.to_nat (byteLength NET_TASK_CRYPTO)) with 2%nat.
  fold (mark_in r).
  destruct (negb _ && negb _); [reflexivity|].
  rewrite skipn_skipn.
  replace (2 + N.to_nat HASH_LEN)%nat with (N.to_nat (HASH_LEN + 2)) by lia.
  reflexivity.
Qed.

(** C7. [deserializePublicHeader] throws the invalid-crypto-mark error
    exactly when the two bytes that follow the [HASH_LEN] bytes of the
    session id are neither "CC" nor "NC"; when they are one of the two and
    the four bytes of the payload size are there, it returns the record of
    the session id, the mark and the payload size. *)
Theorem deserializePublicHeader_cryptoMark (r : BufferReader.t) :
  (HASH_LEN + 2 <= byteLength r ->
   (NetTask.deserializePublicHeader r = Err InvalidCryptoMark
    <-> mark_in r <> NET_TASK_CRYPTO /\ mark_in r <> NET_TASK_NOCRYPTO))
  /\ (HASH_LEN + 2 + 4 <= byteLength r ->
      mark_in r = NET_TASK_CRYPTO \/ mark_in r = NET_TASK_NOCRYPTO ->
      NetTask.deserializePublicHeader r
      = Ok ({| NetTaskPublicHeader.sessionId := firstn (N.to_nat HASH_LEN) r;
               NetTaskPublicHeader.cryptoMark := mark_in r;
               NetTaskPublicHeader.payloadSize :=
                 uintBE (firstn 4 (skipn (N.to_nat (HASH_LEN + 2)) r)) |},
            skipn (N.to_nat (HASH_LEN + 2 + 4)) r)).
Proof.
  split.
  - intros Hr. rewrite deserializePublicHeader_mark by exact Hr.
    unfold Buffer_equals.
    destruct (decide (NET_TASK_CRYPTO = mark_in r)) as [Hc|Hc];
      destruct (decide (NET_TASK_NOCRYPTO = mark_in r)) as [Hn|Hn];
      rewrite ?(bool_decide_eq_true_2 _ Hc), ?(bool_decide_eq_false_2 _ Hc),
        ?(bool_decide_eq_true_2 _ Hn), ?(bool_decide_eq_false_2 _ Hn);
      cbn [negb andb].
    4: { split; [intros _; split; congruence | reflexivity]. }
    all: split; [|intros [? ?]; congruence].
    all: intros Hres; exfalso;
      unfold BufferReader.readUInt32, BufferReader.read in Hres;
      destruct (_ <=? _) in Hres; discriminate.
  - intros Hr Hmark. rewrite deserializePublicHeader_mark by lia.
    replace (negb (Buffer_equals NET_TASK_CRYPTO (mark_in r))
             && negb (Buffer_equals NET_TASK_NOCRYPTO (mark_in r))) with false.
    + rewrite readUInt32_enough by (rewrite byteLength_skipn; lia).
      rewrite skipn_skipn.
      replace (4 + N.to_nat (HASH_LEN + 2))%nat with (N.to_nat (HASH_LEN + 2 + 4)) by lia.
      reflexivity.
    + unfold Buffer_equals. destruct Hmark as [-> | ->]; reflexivity.
Qed.
End PublicHeader.

(** ** Serialization of the encrypted variants *)

Ltac unfold_writer :=
  cbv beta iota zeta delta
    [BufferWriter.finish BufferWriter.write BufferWriter.writeUInt32
     BufferWriter.writeUInt8 BufferWriter.new];
  rewrite ?app_nil_l.

Ltac unfold_traced :=
  cbv beta iota zeta delta
    [tbind tlift tret tthrow tcatch orThrow call_encrypt call_envelope fst snd].

Lemma Buffer_writeUInt32BE_ok (n : N) :
  n < 2 ^ 32 -> Buffer_writeUInt32BE n = Ok (writeUInt32BE n).
Proof.
  intros Hn. unfold Buffer_writeUInt32BE.
  destruct (N.ltb_spec n (2 ^ 32)); [reflexivity | lia].
Qed.

Lemma Buffer_writeUInt32BE_inv (n : N) (b : Buffer) :
  Buffer_writeUInt32BE n = Ok b -> n < 2 ^ 32 /\ b = writeUInt32BE n.
Proof.
  unfold Buffer_writeUInt32BE.
  destruct (N.ltb_spec n (2 ^ 32)); [|discriminate].
  intros [= <-]. auto.
Qed.

Lemma Buffer_writeUInt32BE_err (n : N) (e : NTError) :
  Buffer_writeUInt32BE n = Err e -> 2 ^ 32 <= n /\ e = OutOfRange.
Proof.
  unfold Buffer_writeUInt32BE.
  destruct (N.ltb_spec n (2 ^ 32)); [discriminate|].
  intros [= <-]. auto.
Qed.

(** The plaintext of a Metric datagram whose two lengths fit 32 bits. *)
Lemma packCompound_of_ok (taskId : JSString) (pack : Buffer) :
  N.of_nat (length taskId) < 2 ^ 32 ->
  byteLength pack < 2 ^ 32 ->
  NetTaskMetric.packCompound_of taskId pack
  = Ok (writeUInt32BE (N.of_nat (length taskId)) ++ utf8_encode taskId
        ++ writeUInt32BE (byteLength pack) ++ pack).
Proof.
  intros Hid Hpack. unfold NetTaskMetric.packCompound_of.
  now rewrite (Buffer_writeUInt32BE_ok _ Hid), (Buffer_writeUInt32BE_ok _ Hpack).
Qed.

Lemma packCompound_of_inv (taskId : JSString) (pack inner : Buffer) :
  NetTaskMetric.packCompound_of taskId pack = Ok inner ->
  N.of_nat (length taskId) < 2 ^ 32
  /\ byteLength pack < 2 ^ 32
  /\ inner = writeUInt32BE (N.of_nat (length taskId)) ++ utf8_encode taskId
             ++ writeUInt32BE (byteLength pack) ++ pack.
Proof.
  unfold NetTaskMetric.packCompound_of.
  destruct (Buffer_writeUInt32BE (N.of_nat (length taskId))) as [taskLen|] eqn:Hid;
    [|discriminate].
  destruct (Buffer_writeUInt32BE (byteLength pack)) as [packLen|] eqn:Hpack;
    [|discriminate].
  apply Buffer_writeUInt32BE_inv in Hid as [Hid ->].
  apply Buffer_writeUInt32BE_inv in Hpack as [Hpack ->].
  intros [= <-]. auto.
Qed.

Lemma packCompound_of_err (taskId : JSString) (pack : Buffer) (e : NTError) :
  NetTaskMetric.packCompound_of taskId pack = Err e ->
  e = OutOfRange
  /\ (2 ^ 32 <= N.of_nat (length taskId) \/ 2 ^ 32 <= byteLength pack).
Proof.
  unfold NetTaskMetric.packCompound_of.
  destruct (Buffer_writeUInt32BE (N.of_nat (length taskId))) as [taskLen|e1] eqn:Hid.
  - destruct (Buffer_writeUInt32BE (byteLength pack)) as [packLen|e2] eqn:Hpack;
      [discriminate|].
    apply Buffer_writeUInt32BE_err in Hpack as [Hpack ->]. intros [= <-]. auto.
  - apply Buffer_writeUInt32BE_err in Hid as [Hid ->]. intros [= <-]. auto.
Qed.

Section EncryptedVariants.
Context `{ECDHE_API} `{SPACK_API}.

Lemma PushSchemas_serialize_linked (this : NetTaskPushSchemas.t) (e : ECDHE)
    (pack : Buffer) (enc env : EncryptedMessage) (innerEnc outerEnc : Buffer) :
  NetTaskPushSchemas.ecdhe this = Some e ->
  NetTaskPushSchemas.pack_of (NetTaskPushSchemas.spack this) = Some pack ->
  byteLength pack < 2 ^ 32 ->
  encrypt e (writeUInt32BE (byteLength pack) ++ pack) = Some enc ->
  serializeEncryptedMessage enc = Some innerEnc ->
  envelope e (NetTask.serializePrivateHeader (NetTaskPushSchemas.base this)
              ++ writeUInt32BE (byteLength innerEnc) ++ innerEnc) = Some env ->
  serializeEncryptedMessage env = Some outerEnc ->
  NetTaskPushSchemas.serialize this
  = ([CallEncrypt (writeUInt32BE (byteLength pack) ++ pack);
      CallEnvelope (NetTask.serializePrivateHeader (NetTaskPushSchemas.base this)
                    ++ writeUInt32BE (byteLength innerEnc) ++ innerEnc)],
     Ok ({| NetTaskPushSchemas.base :=
              NetTask.set_payloadSize (NetTaskPushSchemas.base this) (byteLength outerEnc);
            NetTaskPushSchemas.spack := NetTaskPushSchemas.spack this;
            NetTaskPushSchemas.ecdhe := Some e |},
         NetTask.serializePublicHeader
           (NetTask.set_payloadSize (NetTaskPushSchemas.base this) (byteLength outerEnc))
         ++ outerEnc)).
Proof.
  intros Hlink Hpack Hsize Henc HserE Henv HserV.
  unfold NetTaskPushSchemas.serialize. rewrite Hlink, Hpack.
  unfold_writer. unfold_traced.
  rewrite (Buffer_writeUInt32BE_ok _ Hsize). cbv beta iota.
  rewrite Henc, HserE. rewrite <- app_assoc. rewrite Henv, HserV.
  reflexivity.
Qed.

Lemma Metric_serialize_linked (this : NetTaskMetric.t) (e : ECDHE)
    (pack : Buffer) (enc env : EncryptedMessage) (innerEnc outerEnc : Buffer) :
  NetTaskMetric.ecdhe this = Some e ->
  serializeTaskMetric (NetTaskMetric.spack this) (NetTaskMetric.task this) = Some pack ->
  N.of_nat (length (NetTaskMetric.taskId this)) < 2 ^ 32 ->
  byteLength pack < 2 ^ 32 ->
  encrypt e (writeUInt32BE (N.of_nat (length (NetTaskMetric.taskId this)))
             ++ utf8_encode (NetTaskMetric.taskId this)
             ++ writeUInt32BE (byteLength pack) ++ pack) = Some enc ->
  serializeEncryptedMessage enc = Some innerEnc ->
  envelope e (NetTask.serializePrivateHeader (NetTaskMetric.base this)
              ++ writeUInt32BE (byteLength innerEnc) ++ innerEnc) = Some env ->
  serializeEncryptedMessage env = Some outerEnc ->
  NetTaskMetric.serialize this
  = ([CallEncrypt (writeUInt32BE (N.of_nat (length (NetTaskMetric.taskId this)))
                   ++ utf8_encode (NetTaskMetric.taskId this)
                   ++ writeUInt32BE (byteLength pack) ++ pack);
      CallEnvelope (NetTask.serializePrivateHeader (NetTaskMetric.base this)
                    ++ writeUInt32BE (byteLength innerEnc) ++ innerEnc)],
     Ok ({| NetTaskMetric.base :=
              NetTask.set_payloadSize (NetTaskMetric.base this) (byteLength outerEnc);
            NetTaskMetric.spack := NetTaskMetric.spack this;
            NetTaskMetric.ecdhe := Some e;
            NetTaskMetric.taskId := NetTaskMetric.taskId this;
            NetTaskMetric.task := NetTaskMetric.task this |},
         NetTask.serializePublicHeader
           (NetTask.set_payloadSize (NetTaskMetric.base this) (byteLength outerEnc))
         ++ outerEnc)).
Proof.
  intros Hlink Hpack Hid Hsize Henc HserE Henv HserV.
  unfold NetTaskMetric.serialize. rewrite Hlink, Hpack.
  unfold_writer. unfold_traced.
  rewrite (packCompound_of_ok _ _ Hid Hsize). cbv beta iota.
  rewrite Henc, HserE. rewrite <- app_assoc. rewrite Henv, HserV.
  reflexivity.
Qed.

Ltac invert_serialize Hres :=
  repeat match type of Hres with
         | context [match ?o with Some _ => _ | None => _ end] =>
             destruct o eqn:?; cbn beta iota in Hres
         end;
  try discriminate Hres.

Lemma PushSchemas_serialize_iff (this this' : NetTaskPushSchemas.t) (e : ECDHE)
    (calls : list CryptoCall) (out : Buffer) :
  NetTaskPushSchemas.ecdhe this = Some e ->
  NetTaskPushSchemas.serialize this = (calls, Ok (this', out))
  <-> exists pack,
        NetTaskPushSchemas.pack_of (NetTaskPushSchemas.spack this) = Some pack
        /\ byteLength pack < 2 ^ 32
        /\ NetTaskPushSchemas.spack this' = NetTaskPushSchemas.spack this
        /\ NetTaskPushSchemas.ecdhe this' = Some e
        /\ encrypted_layout e (NetTaskPushSchemas.base this)
             (writeUInt32BE (byteLength pack) ++ pack)
             calls (NetTaskPushSchemas.base this') out.
Proof.
  intros Hlink. unfold NetTaskPushSchemas.serialize. rewrite Hlink.
  destruct (NetTaskPushSchemas.pack_of (NetTaskPushSchemas.spack this)) as [pack|];
    unfold_writer; unfold_traced;
    [|split; [discriminate | intros (? & [=] & _)]].
  destruct (Buffer_writeUInt32BE (byteLength pack)) as [packLen|err] eqn:Hw.
  2: { apply Buffer_writeUInt32BE_err in Hw as [Hge _].
       split; [discriminate | intros (? & [= <-] & Hlt & _); lia]. }
  apply Buffer_writeUInt32BE_inv in Hw as [Hlt ->]. split.
  - intros Hres. invert_serialize Hres.
    rewrite <- app_assoc in *.
    injection Hres as <- <- <-.
    eexists. split; [reflexivity|]. split; [exact Hlt|]. cbn.
    repeat split. do 4 eexists. repeat split; eassumption || reflexivity.
  - intros (pack' & [= <-] & _ & Hsp & He & enc & env & innerEnc & outerEnc
            & -> & -> & Henv & HserV & -> & Hb & _ & ->).
    rewrite <- app_assoc, Henv, HserV. cbn.
    destruct this' as [b' sp' e']. cbn in Hsp, He, Hb. subst. reflexivity.
Qed.

Lemma Metric_serialize_iff (this this' : NetTaskMetric.t) (e : ECDHE)
    (calls : list CryptoCall) (out : Buffer) :
  NetTaskMetric.ecdhe this = Some e ->
  NetTaskMetric.serialize this = (calls, Ok (this', out))
  <-> exists pack,
        serializeTaskMetric (NetTaskMetric.spack this) (NetTaskMetric.task this) = Some pack
        /\ N.of_nat (length (NetTaskMetric.taskId this)) < 2 ^ 32
        /\ byteLength pack < 2 ^ 32
        /\ NetTaskMetric.spack this' = NetTaskMetric.spack this
        /\ NetTaskMetric.taskId this' = NetTaskMetric.taskId this
        /\ NetTaskMetric.task this' = NetTaskMetric.task this
        /\ NetTaskMetric.ecdhe this' = Some e
        /\ encrypted_layout e (NetTaskMetric.base this)
             (writeUInt32BE (N.of_nat (length (NetTaskMetric.taskId this)))
              ++ utf8_encode (NetTaskMetric.taskId this)
              ++ writeUInt32BE (byteLength pack) ++ pack)
             calls (NetTaskMetric.base this') out.
Proof.
  intros Hlink. unfold NetTaskMetric.serialize. rewrite Hlink.
  destruct (serializeTaskMetric (NetTaskMetric.spack this) (NetTaskMetric.task this))
    as [pack|];
    unfold_writer; unfold_traced;
    [|split; [discriminate | intros (? & [=] & _)]].
  destruct (NetTaskMetric.packCompound_of (NetTaskMetric.taskId this) pack)
    as [inner|err] eqn:Hw.
  2: { apply packCompound_of_err in Hw as [_ Hge].
       split; [discriminate | intros (? & [= <-] & Hid & Hlt & _); lia]. }
  apply packCompound_of_inv in Hw as (Hid & Hlt & ->). split.
  - intros Hres. invert_serialize Hres.
    rewrite <- app_assoc in *.
    injection Hres as <- <- <-.
    eexists. split; [reflexivity|]. split; [exact Hid|]. split; [exact Hlt|]. cbn.
    repeat split. do 4 eexists. repeat split; eassumption || reflexivity.
  - intros (pack' & [= <-] & _ & _ & Hsp & Hidf & Htk & He & enc & env & innerEnc & outerEnc
            & -> & -> & Henv & HserV & -> & Hb & _ & ->).
    rewrite <- app_assoc, Henv, HserV. cbn.
    destruct this' as [b' sp' e' id' tk']. cbn in Hsp, Hidf, Htk, He, Hb. subst.
    reflexivity.
Qed.

End EncryptedVariants.

(** ** What [serialize] leaves and returns, for every variant *)

Section EveryVariant.
Context `{ECDHE_API} `{SPACK_API}.

Lemma RegisterChallenge2_serialize_linked (this : NetTaskRegisterChallenge2.t) (e : ECDHE) :
  NetTaskRegisterChallenge2.ecdhe this = Some e ->
  NetTaskRegisterChallenge2.serialize this
  = ([], Ok ({| NetTaskRegisterChallenge2.base :=
                  NetTask.set_payloadSize (NetTaskRegisterChallenge2.base this)
                    (17 + byteLength (NetTaskRegisterChallenge2._challenge this) + 4);
                NetTaskRegisterChallenge2._challenge :=
                  NetTaskRegisterChallenge2._challenge this;
                NetTaskRegisterChallenge2.ecdhe := Some e |},
             NetTask.serializePublicHeader
               (NetTask.set_payloadSize (NetTaskRegisterChallenge2.base this)
                  (17 + byteLength (NetTaskRegisterChallenge2._challenge this) + 4))
             ++ NetTask.serializePrivateHeader (NetTaskRegisterChallenge2.base this)
             ++ writeUInt32BE (byteLength (NetTaskRegisterChallenge2._challenge this))
             ++ NetTaskRegisterChallenge2._challenge this)).
Proof.
  intros Hlink. unfold NetTaskRegisterChallenge2.serialize. rewrite Hlink.
  unfold_writer. unfold tret. rewrite <- !app_assoc. reflexivity.
Qed.

Lemma Rejected_serialize_bytes (d : NetTaskRejected.t) :
  NetTaskRejected.serialize d
  = ({| NetTaskRejected.base := NetTask.set_payloadSize (NetTaskRejected.base d) 17 |},
     NetTask.serializePublicHeader (NetTask.set_payloadSize (NetTaskRejected.base d) 17)
     ++ NetTask.serializePrivateHeader (NetTaskRejected.base d)).
Proof. reflexivity. Qed.

Lemma Register_serialize_bytes (d : NetTaskRegister.t) :
  NetTaskRegister.serialize d
  = ({| NetTaskRegister.base :=
          NetTask.set_payloadSize (NetTaskRegister.base d)
            (17 + 4 + byteLength (NetTaskRegister._publicKey d));
        NetTaskRegister._publicKey := NetTaskRegister._publicKey d |},
     NetTask.serializePublicHeader
       (NetTask.set_payloadSize (NetTaskRegister.base d)
          (17 + 4 + byteLength (NetTaskRegister._publicKey d)))
     ++ NetTask.serializePrivateHeader (NetTaskRegister.base d)
     ++ writeUInt32BE (byteLength (NetTaskRegister._publicKey d))
     ++ NetTaskRegister._publicKey d).
Proof.
  unfold NetTaskRegister.serialize. unfold_writer. now rewrite <- !app_assoc.
Qed.

Lemma RegisterChallenge_serialize_bytes (d : NetTaskRegisterChallenge.t) :
  NetTaskRegisterChallenge.serialize d
  = ({| NetTaskRegisterChallenge.base :=
          NetTask.set_payloadSize (NetTaskRegisterChallenge.base d)
            (17 + byteLength (NetTaskRegisterChallenge._publicKey d)
             + byteLength (NetTaskRegisterChallenge._challenge d)
             + byteLength (NetTaskRegisterChallenge._salt d) + 4 * 3);
        NetTaskRegisterChallenge._publicKey := NetTaskRegisterChallenge._publicKey d;
        NetTaskRegisterChallenge._challenge := NetTaskRegisterChallenge._challenge d;
        NetTaskRegisterChallenge._salt := NetTaskRegisterChallenge._salt d |},
     NetTask.serializePublicHeader
       (NetTask.set_payloadSize (NetTaskRegisterChallenge.base d)
          (17 + byteLength (NetTaskRegisterChallenge._publicKey d)
           + byteLength (NetTaskRegisterChallenge._challenge d)
           + byteLength (NetTaskRegisterChallenge._salt d) + 4 * 3))
     ++ NetTask.serializePrivateHeader (NetTaskRegisterChallenge.base d)
     ++ writeUInt32BE (byteLength (NetTaskRegisterChallenge._publicKey d))
     ++ NetTaskRegisterChallenge._publicKey d
     ++ writeUInt32BE (byteLength (NetTaskRegisterChallenge._challenge d))
     ++ NetTaskRegisterChallenge._challenge d
     ++ writeUInt32BE (byteLength (NetTaskRegisterChallenge._salt d))
     ++ NetTaskRegisterChallenge._salt d).
Proof.
  unfold NetTaskRegisterChallenge.serialize. unfold_writer. now rewrite <- !app_assoc.
Qed.

Lemma tret_inv {A B} (a : A) (b : B) calls (a' : A) (b' : B) :
  tret (a, b) = (calls, Ok (a', b')) -> calls = [] /\ a' = a /\ b' = b.
Proof. unfold tret. intros [= <- <- <-]. auto. Qed.

(** The body of a datagram: what [serialize] writes after the public
    header.  [serialize] changes the payload size and nothing else. *)
Lemma Datagram_serialize_body (d d' : Datagram) calls out :
  Datagram_serialize d = (calls, Ok (d', out)) ->
  exists body,
    out = NetTask.serializePublicHeader (Datagram_base d') ++ body
    /\ Datagram_base d' = NetTask.set_payloadSize (Datagram_base d) (byteLength body).
Proof.
  destruct d as [d|d|d|d|d|d]; cbn [Datagram_serialize].
  - rewrite Rejected_serialize_bytes.
    intros (-> & -> & ->)%tret_inv. eexists. split; reflexivity.
  - rewrite Register_serialize_bytes.
    intros (-> & -> & ->)%tret_inv. eexists. split; [reflexivity|].
    cbn [Datagram_base NetTaskRegister.base]. f_equal.
    rewrite !byteLength_app, byteLength_writeUInt32BE,
      byteLength_serializePrivateHeader. lia.
  - rewrite RegisterChallenge_serialize_bytes.
    intros (-> & -> & ->)%tret_inv. eexists. split; [reflexivity|].
    cbn [Datagram_base NetTaskRegisterChallenge.base]. f_equal.
    rewrite !byteLength_app, !byteLength_writeUInt32BE,
      byteLength_serializePrivateHeader. lia.
  - destruct (NetTaskRegisterChallenge2.ecdhe d) as [e|] eqn:Hlink.
    + rewrite (RegisterChallenge2_serialize_linked d e Hlink). unfold_traced.
      intros (-> & -> & ->)%(tret_inv (A:=Datagram)). eexists. split; [reflexivity|].
      cbn [Datagram_base NetTaskRegisterChallenge2.base]. f_equal.
      rewrite !byteLength_app, byteLength_writeUInt32BE,
        byteLength_serializePrivateHeader. lia.
    + unfold NetTaskRegisterChallenge2.serialize. rewrite Hlink. discriminate.
  - destruct (NetTaskPushSchemas.ecdhe d) as [e|] eqn:Hlink.
    + destruct (NetTaskPushSchemas.serialize d) as [calls0 [[d0 out0]|err]] eqn:Hs;
        unfold_traced; [|discriminate].
      rewrite app_nil_r. intros [= <- <- <-].
      apply (PushSchemas_serialize_iff d d0 e calls0 out0 Hlink) in Hs.
      destruct Hs as (pack & _ & _ & _ & _ & enc & env & innerEnc & outerEnc
                      & _ & _ & _ & _ & _ & Hb & _ & ->).
      exists outerEnc. split; [reflexivity | exact Hb].
    + unfold NetTaskPushSchemas.serialize. rewrite Hlink. discriminate.
  - destruct (NetTaskMetric.ecdhe d) as [e|] eqn:Hlink.
    + destruct (NetTaskMetric.serialize d) as [calls0 [[d0 out0]|err]] eqn:Hs;
        unfold_traced; [|discriminate].
      rewrite app_nil_r. intros [= <- <- <-].
      apply (Metric_serialize_iff d d0 e calls0 out0 Hlink) in Hs.
      destruct Hs as (pack & _ & _ & _ & _ & _ & _ & _ & enc & env & innerEnc & outerEnc
                      & _ & _ & _ & _ & _ & Hb & _ & ->).
      exists outerEnc. split; [reflexivity | exact Hb].
    + unfold NetTaskMetric.serialize. rewrite Hlink. discriminate.
Qed.

Lemma wire_payloadSize_header (b : NetTask.t) (body : Buffer) :
  valid_header b ->
  NetTask.payloadSize b < 2 ^ 32 ->
  wire_payloadSize (NetTask.serializePublicHeader b ++ body) = NetTask.payloadSize b.
Proof.
  intros [Hsid Hmark] Hsize. unfold wire_payloadSize.
  rewrite serializePublicHeader_bytes, <- !app_assoc.
  assert (Hlen : length (NET_TASK_SIGNATURE ++ NetTask.sessionId b ++ NetTask.cryptoMark b)
                 = N.to_nat (4 + HASH_LEN + 2)).
  { rewrite !length_app. unfold byteLength in Hsid.
    destruct Hmark as [-> | ->]; cbn [length NET_TASK_SIGNATURE NET_TASK_CRYPTO
                                        NET_TASK_NOCRYPTO]; lia. }
  rewrite <- Hlen.
  replace (NET_TASK_SIGNATURE ++ NetTask.sessionId b ++ NetTask.cryptoMark b
           ++ writeUInt32BE (NetTask.payloadSize b) ++ body)
    with ((NET_TASK_SIGNATURE ++ NetTask.sessionId b ++ NetTask.cryptoMark b)
          ++ writeUInt32BE (NetTask.payloadSize b) ++ body)
    by now rewrite <- !app_assoc.
  rewrite drop_app_length.
  rewrite (take_app_length' (writeUInt32BE _)) by reflexivity.
  now apply uintBE_writeUInt32BE.
Qed.

Lemma byteLength_serializePublicHeader (b : NetTask.t) :
  valid_header b ->
  byteLength (NetTask.serializePublicHeader b) = PUBLIC_HEADER_LEN.
Proof.
  intros [Hsid Hmark]. rewrite serializePublicHeader_bytes.
  rewrite !byteLength_app, Hsid, byteLength_writeUInt32BE. unfold PUBLIC_HEADER_LEN.
  change (byteLength NET_TASK_SIGNATURE) with 4.
  destruct Hmark as [-> | ->];
    [change (byteLength NET_TASK_CRYPTO) with 2
    |change (byteLength NET_TASK_NOCRYPTO) with 2]; lia.
Qed.

(** C2. After [serialize] returns, for every variant with a session id of
    [HASH_LEN] bytes and a payload that a 32-bit length can count: the
    bytes are the public header of the datagram as [serialize] left it
    followed by a body; the payload size of the datagram, which is the one
    written in that header, is the length of the body; and the 32-bit
    field at offset [4 + HASH_LEN + 2] of the bytes is the total length
    minus [4 + HASH_LEN + 2 + 4]. *)
Theorem payloadSize_is_body_length (d d' : Datagram) calls (out : Buffer) :
  valid_header (Datagram_base d) ->
  Datagram_serialize d = (calls, Ok (d', out)) ->
  byteLength out - PUBLIC_HEADER_LEN < 2 ^ 32 ->
  exists body,
    out = NetTask.serializePublicHeader (Datagram_base d') ++ body
    /\ NetTask.payloadSize (Datagram_base d') = byteLength body
    /\ PUBLIC_HEADER_LEN <= byteLength out
    /\ wire_payloadSize out = byteLength out - PUBLIC_HEADER_LEN.
Proof.
  intros Hvalid Hs Hfit.
  destruct (Datagram_serialize_body d d' calls out Hs) as (body & -> & Hb).
  assert (Hvalid' : valid_header (Datagram_base d')) by (rewrite Hb; exact Hvalid).
  assert (Hsize : NetTask.payloadSize (Datagram_base d') = byteLength body)
    by (rewrite Hb; reflexivity).
  rewrite byteLength_app, (byteLength_serializePublicHeader _ Hvalid') in Hfit |- *.
  exists body. repeat split; [exact Hsize | lia |].
  rewrite wire_payloadSize_header by (trivial; lia). lia.
Qed.

(** ** The crypto mark *)

(** Either an encrypted variant with mark "CC", or a handshake variant
    with mark "NC". *)
Lemma constructed_mark (d : Datagram) :
  constructed d ->
  (NetTask.cryptoMark (Datagram_base d) = NET_TASK_CRYPTO
   /\ (NetTask.type (Datagram_base d) = type_code PUSH_SCHEMAS
       \/ NetTask.type (Datagram_base d) = type_code SEND_METRICS))
  \/ (NetTask.cryptoMark (Datagram_base d) = NET_TASK_NOCRYPTO
      /\ (NetTask.type (Datagram_base d) = type_code REQUEST_REGISTER
          \/ NetTask.type (Datagram_base d) = type_code REGISTER_CHALLENGE
          \/ NetTask.type (Datagram_base d) = type_code REGISTER_CHALLENGE2
          \/ NetTask.type (Datagram_base d) = type_code CONNECTION_REJECTED)).
Proof.
  induction 1 as [ | | | | | | d e _ IH | d e _ IH | d e _ IH | d calls d' out _ IH Hs];
    try (cbn; tauto); try exact IH.
  destruct (Datagram_serialize_body d d' calls out Hs) as (body & _ & ->).
  exact IH.
Qed.

(** C4. For every datagram built by a variant constructor (and linked or
    serialized since), the crypto mark is "CC" if and only if the type is
    PUSH_SCHEMAS or SEND_METRICS; a datagram of one of the four handshake
    types carries "NC". *)
Theorem cryptoMark_discipline (d : Datagram) :
  constructed d ->
  (NetTask.cryptoMark (Datagram_base d) = NET_TASK_CRYPTO
   <-> NetTask.type (Datagram_base d) = type_code PUSH_SCHEMAS
       \/ NetTask.type (Datagram_base d) = type_code SEND_METRICS)
  /\ (NetTask.type (Datagram_base d) = type_code REQUEST_REGISTER
      \/ NetTask.type (Datagram_base d) = type_code REGISTER_CHALLENGE
      \/ NetTask.type (Datagram_base d) = type_code REGISTER_CHALLENGE2
      \/ NetTask.type (Datagram_base d) = type_code CONNECTION_REJECTED ->
      NetTask.cryptoMark (Datagram_base d) = NET_TASK_NOCRYPTO).
Proof.
  intros Hd. destruct (constructed_mark d Hd) as [[Hm Ht] | [Hm Ht]].
  - split; [tauto|]. intros Hh. exfalso.
    destruct Ht as [Ht|Ht]; rewrite Ht in Hh; cbn in Hh;
      intuition discriminate.
  - split.
    + rewrite Hm. split; [discriminate|]. intros Hh. exfalso.
      destruct Hh as [Hh|Hh]; rewrite Hh in Ht; cbn in Ht;
        intuition discriminate.
    + intros _. exact Hm.
Qed.

(** ** Serializing without a linked ECDHE *)

(** C8. An encrypted variant (PushSchemas, Metric) on which [link] was
    never called has no ECDHE instance, and its [serialize] throws the
    not-linked error: it makes no ECDHE call and returns no bytes. *)
Theorem encrypted_serialize_NotLinked :
  (forall this : NetTaskPushSchemas.t,
      NetTaskPushSchemas.ecdhe this = None ->
      NetTaskPushSchemas.serialize this = ([], Err NotLinked))
  /\ (forall this : NetTaskMetric.t,
      NetTaskMetric.ecdhe this = None ->
      NetTaskMetric.serialize this = ([], Err NotLinked))
  /\ (forall sid seq ack frag sp,
      NetTaskPushSchemas.ecdhe (NetTaskPushSchemas.new sid seq ack frag sp) = None)
  /\ (forall sid seq ack frag sp tid tk,
      NetTaskMetric.ecdhe (NetTaskMetric.new sid seq ack frag sp tid tk) = None).
Proof.
  split; [|split; [|split]].
  - intros this Hnone. unfold NetTaskPushSchemas.serialize. now rewrite Hnone.
  - intros this Hnone. unfold NetTaskMetric.serialize. now rewrite Hnone.
  - reflexivity.
  - reflexivity.
Qed.

End EveryVariant.

(** ** Strings and their UTF-8 form *)

Lemma length_utf8_of_code_point (cp : N) :
  (1 <= length (utf8_of_code_point cp))%nat
  /\ (length (utf8_of_code_point cp) = 1%nat -> cp < 0x80).
Proof.
  unfold utf8_of_code_point.
  destruct (N.ltb_spec cp 0x80); [cbn; split; [lia|trivial]|].
  destruct (N.ltb_spec cp 0x800); [cbn; split; [lia|discriminate]|].
  destruct (N.ltb_spec cp 0x10000); cbn; split; lia || discriminate.
Qed.

(** An encoded string has at least as many bytes as the string has code
    units, and as many only if every code unit is ASCII. *)
Lemma length_utf8_encode (n : nat) (s : JSString) :
  (length s <= n)%nat ->
  (length s <= length (utf8_encode s))%nat
  /\ (length (utf8_encode s) = length s -> ascii_only s).
Proof.
  revert s. induction n as [|n IH]; intros s Hn.
  - destruct s; [|cbn in Hn; lia]. split; [reflexivity | constructor].
  - destruct s as [|c rest]; [split; [reflexivity | constructor]|].
    cbn [length] in Hn.
    assert (Hrest : (length rest <= n)%nat) by lia.
    destruct (IH rest Hrest) as [IHle IHeq].
    cbn [utf8_encode].
    destruct (is_high_surrogate c).
    + destruct rest as [|lo rest'].
      * cbn. split; [lia | discriminate].
      * destruct (is_low_surrogate lo).
        -- destruct (IH rest' ltac:(cbn in Hrest; lia)) as [IHle' _].
           rewrite length_app.
           assert (length (utf8_of_code_point
                             (0x10000 + (c - 0xD800) * 0x400 + (lo - 0xDC00))) = 4%nat) as ->.
           { unfold utf8_of_code_point.
             destruct (N.ltb_spec (0x10000 + (c - 0xD800) * 0x400 + (lo - 0xDC00)) 0x80);
               [lia|].
             destruct (N.ltb_spec (0x10000 + (c - 0xD800) * 0x400 + (lo - 0xDC00)) 0x800);
               [lia|].
             destruct (N.ltb_spec (0x10000 + (c - 0xD800) * 0x400 + (lo - 0xDC00)) 0x10000);
               [lia|reflexivity]. }
           cbn [length]. split; lia.
        -- rewrite length_app.
           change (length (utf8_of_code_point REPLACEMENT)) with 3%nat.
           cbn [length] in *. split; lia.
    + destruct (is_low_surrogate c).
      * rewrite length_app.
        change (length (utf8_of_code_point REPLACEMENT)) with 3%nat.
        cbn [length]. split; lia.
      * rewrite length_app.
        destruct (length_utf8_of_code_point c) as [H1 H2].
        cbn [length]. split; [lia|].
        intros Heq. constructor; [apply H2; lia | apply IHeq; lia].
Qed.

Lemma utf8_encode_ascii (s : JSString) :
  ascii_only s -> utf8_encode s = map byte_of_N s.
Proof.
  induction 1 as [|c rest Hc _ IH]; [reflexivity|].
  cbn [utf8_encode map].
  assert (is_high_surrogate c = false) as ->.
  { unfold is_high_surrogate. destruct (N.leb_spec 0xD800 c); [lia | reflexivity]. }
  assert (is_low_surrogate c = false) as ->.
  { unfold is_low_surrogate. destruct (N.leb_spec 0xDC00 c); [lia | reflexivity]. }
  unfold utf8_of_code_point.
  destruct (N.ltb_spec c 0x80); [|lia].
  now rewrite IH.
Qed.

Lemma toString_utf8_ascii (s : JSString) :
  ascii_only s -> toString_utf8 (map byte_of_N s) = s.
Proof.
  unfold toString_utf8.
  induction 1 as [|c rest Hc _ IH]; [reflexivity|].
  cbn [map utf8_decode_from utf8_step].
  rewrite to_N_byte_of_N, N.mod_small by lia.
  unfold utf8_lead.
  destruct (N.leb_spec c 0x7F); [|lia].
  cbn [app flat_map]. rewrite IH.
  unfold utf16_of_code_point.
  destruct (N.ltb_spec c 0x10000); [reflexivity | lia].
Qed.

(** A string whose UTF-8 form has as many bytes as the string has code
    units is read back from that form. *)
Lemma toString_utf8_encode (s : JSString) :
  length (utf8_encode s) = length s -> toString_utf8 (utf8_encode s) = s.
Proof.
  intros Hlen.
  assert (Ha : ascii_only s) by (now apply (length_utf8_encode (length s) s)).
  rewrite utf8_encode_ascii by exact Ha. now apply toString_utf8_ascii.
Qed.

(** ** Deserialization of a Metric datagram *)

Lemma read_error (n : N) (r : Buffer) (e : NTError) :
  BufferReader.read n r = Err e -> e = TruncatedFrame.
Proof.
  unfold BufferReader.read. destruct (n <=? byteLength r); congruence.
Qed.

Lemma readUInt32_error (r : Buffer) (e : NTError) :
  BufferReader.readUInt32 r = Err e -> e = TruncatedFrame.
Proof.
  unfold BufferReader.readUInt32.
  destruct (BufferReader.read 4 r) as [[? ?]|e'] eqn:E; [discriminate|].
  intros [= <-]. exact (read_error _ _ _ E).
Qed.

(** ** Reading a property of an object *)

Lemma JSObject_get_own {T} (o : JSObject T) (k : JSString) (v : JSValue T) :
  own o !! k = Some v -> JSObject_get o k = v.
Proof. unfold JSObject_get. now intros ->. Qed.

Lemma JSObject_get_inherited {T} (o : JSObject T) (k : JSString) :
  own o !! k = None ->
  JSObject_get o k = match prototype_get (prototypes o) k with
                     | Some v => v
                     | None => JSUndefined
                     end.
Proof. unfold JSObject_get. now intros ->. Qed.

Lemma builtins_lookup {T} (names : list JSString) (k : JSString) :
  (list_to_map ((fun name => (name, JSBuiltin name)) <$> names)
     : gmap JSString (JSValue T)) !! k
  = if bool_decide (k ∈ names) then Some (JSBuiltin k) else None.
Proof.
  induction names as [|n names IH]; cbn [fmap list_fmap].
  - change (list_to_map []) with (∅ : gmap JSString (JSValue T)).
    rewrite lookup_empty. now rewrite bool_decide_eq_false_2 by apply not_elem_of_nil.
  - change (list_to_map (?x :: ?l)) with (<[x.1 := x.2]> (list_to_map l : gmap JSString (JSValue T))).
    cbn [fst snd].
    destruct (decide (n = k)) as [->|Hne].
    + rewrite lookup_insert_eq.
      now rewrite bool_decide_eq_true_2 by apply list_elem_of_here.
    + rewrite lookup_insert_ne by exact Hne. rewrite IH.
      destruct (decide (k ∈ names)) as [Hin|Hin].
      * rewrite !bool_decide_eq_true_2; [reflexivity | now apply list_elem_of_further | exact Hin].
      * rewrite !bool_decide_eq_false_2; [reflexivity | | exact Hin].
        intros [->|?]%elem_of_cons; [now apply Hne | now apply Hin].
Qed.

(** A read on an object literal: a key gives its task; any other name gives
    what [Object.prototype] holds under it, if it is one of its member
    names, and [undefined] if not. *)
Lemma object_literal_get {T} (props : gmap JSString T) (k : JSString) :
  JSObject_get (object_literal props) k
  = match props !! k with
    | Some t => JSTask t
    | None =>
        if bool_decide (k ∈ Object_prototype_names) then JSBuiltin k else JSUndefined
    end.
Proof.
  unfold JSObject_get, object_literal. cbn [own prototypes prototype_get].
  rewrite lookup_fmap.
  destruct (props !! k) as [t|]; cbn [fmap option_fmap option_map]; [reflexivity|].
  unfold Object_prototype. rewrite builtins_lookup.
  now destruct (bool_decide (k ∈ Object_prototype_names)).
Qed.

Section MetricDeserialize.
Context `{ECDHE_API} `{SPACK_API}.


(** The [try] block on a well-formed plaintext. *)
Lemma parse_metric_fields (configTasks : JSObject Task)
    (idBytes raw tail : Buffer) :
  byteLength idBytes < 2 ^ 32 ->
  byteLength raw < 2 ^ 32 ->
  NetTaskMetric.parse_metric configTasks
    (writeUInt32BE (byteLength idBytes) ++ idBytes
     ++ writeUInt32BE (byteLength raw) ++ raw ++ tail)
  = match deserializeTaskMetric raw
            (JSObject_get configTasks (toString_utf8 idBytes)) with
    | Some metrics => Ok ((toString_utf8 idBytes, metrics), tail)
    | None => Err MalformedPayload
    end.
Proof.
  intros Hid Hraw. unfold NetTaskMetric.parse_metric.
  rewrite (pbind_ok _ _ _ _ _ (readUInt32_write _ _ Hid)).
  rewrite (pbind_ok _ _ _ _ _ (read_app _ _)).
  rewrite (pbind_ok _ _ _ _ _ (readUInt32_write _ _ Hraw)).
  rewrite (pbind_ok _ _ _ _ _ (read_app _ _)).
  unfold pbind, plift, orThrow, pret.
  now destruct (deserializeTaskMetric raw _).
Qed.

(** [deserialize] once the encrypted record is read and decrypted. *)
Lemma Metric_deserialize_decrypted (e : ECDHE) (dg : NetTask.t)
    (configTasks : JSObject Task) (serEnc rest message : Buffer)
    (msg : EncryptedMessage) :
  NetTask.type dg = type_code SEND_METRICS ->
  byteLength serEnc < 2 ^ 32 ->
  deserializeEncryptedMessage serEnc = Some msg ->
  decrypt e msg = Some message ->
  NetTaskMetric.deserialize e dg configTasks
    (writeUInt32BE (byteLength serEnc) ++ serEnc ++ rest)
  = match NetTaskMetric.parse_metric configTasks message with
    | Ok ((taskId, metrics), _) =>
        Ok (NetTaskMetric.new (NetTask.sessionId dg) (NetTask.sequenceNumber dg)
              (NetTask.acknowledgementNumber dg) true metrics taskId
              (JSObject_get configTasks taskId), rest)
    | Err _ => Err MalformedPayload
    end.
Proof.
  intros Hty Hlen Hdes Hdec. unfold NetTaskMetric.deserialize, NetTask.getType.
  rewrite Hty. cbn [type_code N.eqb Pos.eqb negb].
  rewrite (pbind_ok _ _ _ _ _ (readUInt32_write _ _ Hlen)).
  rewrite (pbind_ok _ _ _ _ _ (read_app _ _)).
  unfold pbind, plift, orThrow, pret, BufferReader.new.
  rewrite Hdes. cbv beta iota. rewrite Hdec. cbv beta iota.
  destruct (NetTaskMetric.parse_metric configTasks message) as [[[taskId metrics] ?]|?];
    reflexivity.
Qed.

(** [deserialize] on a well-formed record: the descriptor is the property
    read, whatever it gives. *)
Lemma Metric_deserialize_fields (e : ECDHE) (dg : NetTask.t)
    (configTasks : JSObject Task) (serEnc rest idBytes raw tail : Buffer)
    (msg : EncryptedMessage) :
  NetTask.type dg = type_code SEND_METRICS ->
  byteLength serEnc < 2 ^ 32 ->
  byteLength idBytes < 2 ^ 32 ->
  byteLength raw < 2 ^ 32 ->
  deserializeEncryptedMessage serEnc = Some msg ->
  decrypt e msg = Some (writeUInt32BE (byteLength idBytes) ++ idBytes
                        ++ writeUInt32BE (byteLength raw) ++ raw ++ tail) ->
  NetTaskMetric.deserialize e dg configTasks
    (writeUInt32BE (byteLength serEnc) ++ serEnc ++ rest)
  = match deserializeTaskMetric raw
            (JSObject_get configTasks (toString_utf8 idBytes)) with
    | Some metrics =>
        Ok (NetTaskMetric.new (NetTask.sessionId dg) (NetTask.sequenceNumber dg)
              (NetTask.acknowledgementNumber dg) true metrics
              (toString_utf8 idBytes)
              (JSObject_get configTasks (toString_utf8 idBytes)), rest)
    | None => Err MalformedPayload
    end.
Proof.
  intros Hty Hlen Hid Hraw Hdes Hdec.
  rewrite (Metric_deserialize_decrypted e dg configTasks serEnc rest _ msg
             Hty Hlen Hdes Hdec).
  rewrite parse_metric_fields by assumption.
  now destruct (deserializeTaskMetric raw _).
Qed.

(** The errors that [deserialize] can throw. *)
Lemma Metric_deserialize_errors (e : ECDHE) (dg : NetTask.t)
    (configTasks : JSObject Task) (r : BufferReader.t) (err : NTError) :
  NetTaskMetric.deserialize e dg configTasks r = Err err ->
  err = WrongType \/ err = TruncatedFrame \/ err = CryptoFailure
  \/ err = MalformedPayload.
Proof.
  unfold NetTaskMetric.deserialize.
  destruct (negb _); [unfold pthrow; intros [= <-]; tauto|].
  unfold pbind at 1.
  destruct (BufferReader.readUInt32 r) as [[serEncLen r1]|e1] eqn:E1;
    [|intros [= <-]; rewrite (readUInt32_error _ _ E1); tauto].
  unfold pbind at 1.
  destruct (BufferReader.read serEncLen r1) as [[serEnc r2]|e2] eqn:E2;
    [|intros [= <-]; rewrite (read_error _ _ _ E2); tauto].
  unfold pbind, plift, orThrow, pret.
  destruct (deserializeEncryptedMessage serEnc); [|intros [= <-]; tauto].
  destruct (decrypt e _); [|intros [= <-]; tauto].
  destruct (NetTaskMetric.parse_metric _ _) as [[? ?]|?]; [discriminate|].
  intros [= <-]; tauto.
Qed.

(** C5, as the code has it. [NetTaskMetric.deserialize] has no error of its
    own for an unknown task: it never throws [UnknownTask].  It reads
    [configTasks[taskId]] and hands the result, unchecked, to
    [deserializeTaskMetric]; if that call throws, the error is the
    malformed-payload error of every other failure of the inner parse, and
    if it returns, [deserialize] returns a Metric datagram that carries the
    result of the read as its task.  For a task id that is not an own
    property of the configuration, the read gives what the prototype chain
    holds under that name, and [undefined] only if it holds nothing: when
    the configuration is an object literal and the task id is not one of its
    keys, the descriptor is the member of [Object.prototype] of that name
    (["constructor"], ["toString"], ...) if there is one, and [undefined]
    otherwise. *)
Theorem Metric_deserialize_unknown_task (e : ECDHE) (dg : NetTask.t)
    (configTasks : JSObject Task) :
  (forall r, NetTaskMetric.deserialize e dg configTasks r <> Err UnknownTask)
  /\ (forall (serEnc rest idBytes raw tail : Buffer) (msg : EncryptedMessage),
      NetTask.type dg = type_code SEND_METRICS ->
      byteLength serEnc < 2 ^ 32 ->
      byteLength idBytes < 2 ^ 32 ->
      byteLength raw < 2 ^ 32 ->
      deserializeEncryptedMessage serEnc = Some msg ->
      decrypt e msg = Some (writeUInt32BE (byteLength idBytes) ++ idBytes
                            ++ writeUInt32BE (byteLength raw) ++ raw ++ tail) ->
      own configTasks !! toString_utf8 idBytes = None ->
      let descriptor :=
        match prototype_get (prototypes configTasks) (toString_utf8 idBytes) with
        | Some inherited => inherited
        | None => JSUndefined
        end in
      NetTaskMetric.deserialize e dg configTasks
        (writeUInt32BE (byteLength serEnc) ++ serEnc ++ rest)
      = match deserializeTaskMetric raw descriptor with
        | Some metrics =>
            Ok (NetTaskMetric.new (NetTask.sessionId dg) (NetTask.sequenceNumber dg)
                  (NetTask.acknowledgementNumber dg) true metrics
                  (toString_utf8 idBytes) descriptor, rest)
        | None => Err MalformedPayload
        end)
  /\ (forall (tasks : gmap JSString Task)
             (serEnc rest idBytes raw tail : Buffer) (msg : EncryptedMessage),
      NetTask.type dg = type_code SEND_METRICS ->
      byteLength serEnc < 2 ^ 32 ->
      byteLength idBytes < 2 ^ 32 ->
      byteLength raw < 2 ^ 32 ->
      deserializeEncryptedMessage serEnc = Some msg ->
      decrypt e msg = Some (writeUInt32BE (byteLength idBytes) ++ idBytes
                            ++ writeUInt32BE (byteLength raw) ++ raw ++ tail) ->
      tasks !! toString_utf8 idBytes = None ->
      let descriptor :=
        if bool_decide (toString_utf8 idBytes ∈ Object_prototype_names)
        then JSBuiltin (toString_utf8 idBytes)
        else JSUndefined in
      NetTaskMetric.deserialize e dg (object_literal tasks)
        (writeUInt32BE (byteLength serEnc) ++ serEnc ++ rest)
      = match deserializeTaskMetric raw descriptor with
        | Some metrics =>
            Ok (NetTaskMetric.new (NetTask.sessionId dg) (NetTask.sequenceNumber dg)
                  (NetTask.acknowledgementNumber dg) true metrics
                  (toString_utf8 idBytes) descriptor, rest)
        | None => Err MalformedPayload
        end).
Proof.
  split; [|split].
  - intros r Hr. apply Metric_deserialize_errors in Hr.
    destruct Hr as [Hr|[Hr|[Hr|Hr]]]; discriminate.
  - intros serEnc rest idBytes raw tail msg Hty Hlen Hid Hraw Hdes Hdec Hnone descriptor.
    rewrite (Metric_deserialize_fields e dg configTasks serEnc rest idBytes raw tail msg)
      by assumption.
    now rewrite (JSObject_get_inherited _ _ Hnone).
  - intros tasks serEnc rest idBytes raw tail msg Hty Hlen Hid Hraw Hdes Hdec Hnone
      descriptor.
    rewrite (Metric_deserialize_fields e dg _ serEnc rest idBytes raw tail msg)
      by assumption.
    now rewrite object_literal_get, Hnone.
Qed.
End MetricDeserialize.

(** ** Reading back what was written *)

(** One step of a parser whose outcome a lemma gives. *)
Ltac pstep lem :=
  erewrite pbind_ok by (apply lem; solve [reflexivity | assumption | lia]).

Lemma deserializePrivateHeader_serialize (ph : NetTaskPublicHeader.t) (b : NetTask.t)
    (r : Buffer) :
  NetTask.version b = NET_TASK_VERSION ->
  NetTask.sequenceNumber b < 2 ^ 32 ->
  NetTask.acknowledgementNumber b < 2 ^ 32 ->
  NetTask.type b < 2 ^ 32 ->
  NetTask.deserializePrivateHeader ph (NetTask.serializePrivateHeader b ++ r)
  = Ok (NetTask.new (NetTaskPublicHeader.sessionId ph) (NetTaskPublicHeader.cryptoMark ph)
          (NetTask.sequenceNumber b) (NetTask.acknowledgementNumber b)
          (NetTask.fragmented b) (NetTask.type b) (NetTaskPublicHeader.payloadSize ph),
        r).
Proof.
  intros Hv Hseq Hack Hty.
  rewrite serializePrivateHeader_bytes, <- !app_assoc, Hv.
  unfold NetTask.deserializePrivateHeader.
  pstep readUInt32_write.
  cbn [NET_TASK_VERSION N.eqb Pos.eqb negb].
  pstep readUInt32_write. pstep readUInt32_write.
  cbn [app].
  rewrite (pbind_ok _ _ _ _ _ (readInt8_flag _ _)).
  pstep readUInt32_write.
  unfold pret. now destruct (NetTask.fragmented b).
Qed.

Lemma verifySignature_signature (r : Buffer) :
  NetTask.verifySignature (NET_TASK_SIGNATURE ++ r) = Ok (true, r).
Proof.
  unfold NetTask.verifySignature.
  now rewrite (pbind_ok _ _ _ _ _ (read_app_len 4 NET_TASK_SIGNATURE r eq_refl)).
Qed.

Section ReadBack.
Context `{ECDHE_API} `{SPACK_API}.

Lemma receive_publicHeader_serialize (b : NetTask.t) (r : Buffer) :
  valid_header b ->
  NetTask.payloadSize b < 2 ^ 32 ->
  receive_publicHeader (NetTask.serializePublicHeader b ++ r)
  = Ok (NetTaskPublicHeader.mk (NetTask.cryptoMark b) (NetTask.sessionId b)
          (NetTask.payloadSize b), r).
Proof.
  intros [Hsid Hmark] Hsize.
  rewrite serializePublicHeader_bytes, <- !app_assoc.
  unfold receive_publicHeader.
  rewrite (pbind_ok _ _ _ _ _ (verifySignature_signature _)).
  unfold NetTask.deserializePublicHeader.
  rewrite (pbind_ok _ _ _ _ _ (read_app_len HASH_LEN _ _ Hsid)).
  assert (Hm2 : byteLength (NetTask.cryptoMark b) = byteLength NET_TASK_CRYPTO)
    by (destruct Hmark as [-> | ->]; reflexivity).
  rewrite (pbind_ok _ _ _ _ _ (read_app_len _ _ _ Hm2)).
  replace (negb (Buffer_equals NET_TASK_CRYPTO (NetTask.cryptoMark b))
           && negb (Buffer_equals NET_TASK_NOCRYPTO (NetTask.cryptoMark b))) with false
    by (destruct Hmark as [-> | ->]; reflexivity).
  rewrite (pbind_ok _ _ _ _ _ (readUInt32_write _ _ Hsize)).
  reflexivity.
Qed.

(** A Register datagram is read back as it was built. *)
Lemma Register_roundtrip (sid : Buffer) (seq ack : N) (frag : bool) (pk : Buffer) :
  byteLength sid = HASH_LEN ->
  seq < 2 ^ 32 -> ack < 2 ^ 32 ->
  17 + 4 + byteLength pk < 2 ^ 32 ->
  receive_cleartext NetTaskRegister.deserialize
    (snd (NetTaskRegister.serialize (NetTaskRegister.new sid seq ack frag pk)))
  = Ok (NetTaskRegister.new sid seq ack frag pk, []).
Proof.
  intros Hsid Hseq Hack Hsize.
  rewrite Register_serialize_bytes. cbn [snd].
  unfold receive_cleartext.
  erewrite pbind_ok
    by (apply receive_publicHeader_serialize; [split; [exact Hsid | now right] | exact Hsize]).
  erewrite pbind_ok
    by (apply deserializePrivateHeader_serialize; solve [reflexivity | assumption]).
  unfold NetTaskRegister.deserialize.
  cbn [NetTask.getType NetTask.type NetTask.new NetTaskRegister.new NetTaskRegister.base
       type_code N.eqb negb NetTaskRegister._publicKey].
  pstep readUInt32_write.
  rewrite (pbind_ok _ _ _ _ _ (read_all _)).
  reflexivity.
Qed.

(** A RegisterChallenge datagram is read back as it was built. *)
Lemma RegisterChallenge_roundtrip (sid : Buffer) (seq ack : N) (frag : bool)
    (pk ch salt : Buffer) :
  byteLength sid = HASH_LEN ->
  seq < 2 ^ 32 -> ack < 2 ^ 32 ->
  17 + byteLength pk + byteLength ch + byteLength salt + 4 * 3 < 2 ^ 32 ->
  receive_cleartext NetTaskRegisterChallenge.deserialize
    (snd (NetTaskRegisterChallenge.serialize
            (NetTaskRegisterChallenge.new sid seq ack frag pk ch salt)))
  = Ok (NetTaskRegisterChallenge.new sid seq ack frag pk ch salt, []).
Proof.
  intros Hsid Hseq Hack Hsize.
  rewrite RegisterChallenge_serialize_bytes. cbn [snd].
  unfold receive_cleartext.
  erewrite pbind_ok
    by (apply receive_publicHeader_serialize; [split; [exact Hsid | now right] | exact Hsize]).
  erewrite pbind_ok
    by (apply deserializePrivateHeader_serialize; solve [reflexivity | assumption]).
  unfold NetTaskRegisterChallenge.deserialize.
  cbn [NetTask.getType NetTask.type NetTask.new NetTaskRegisterChallenge.new
       NetTaskRegisterChallenge.base type_code N.eqb Pos.eqb negb
       NetTaskRegisterChallenge._publicKey NetTaskRegisterChallenge._challenge
       NetTaskRegisterChallenge._salt].
  pstep readUInt32_write.
  rewrite (pbind_ok _ _ _ _ _ (read_app _ _)).
  pstep readUInt32_write.
  rewrite (pbind_ok _ _ _ _ _ (read_app _ _)).
  pstep readUInt32_write.
  rewrite (pbind_ok _ _ _ _ _ (read_all _)).
  reflexivity.
Qed.

(** A linked RegisterChallenge2 datagram is read back as it was built,
    without its link. *)
Lemma RegisterChallenge2_roundtrip (sid : Buffer) (seq ack : N) (frag : bool)
    (ch : Buffer) (e : ECDHE) :
  byteLength sid = HASH_LEN ->
  seq < 2 ^ 32 -> ack < 2 ^ 32 ->
  17 + byteLength ch + 4 < 2 ^ 32 ->
  exists d' out,
    NetTaskRegisterChallenge2.serialize
      (NetTaskRegisterChallenge2.link (NetTaskRegisterChallenge2.new sid seq ack frag ch) e)
    = ([], Ok (d', out))
    /\ receive_cleartext NetTaskRegisterChallenge2.deserialize out
       = Ok (NetTaskRegisterChallenge2.new sid seq ack frag ch, []).
Proof.
  intros Hsid Hseq Hack Hsize.
  do 2 eexists. split.
  - apply RegisterChallenge2_serialize_linked. reflexivity.
  - cbn [NetTaskRegisterChallenge2.link NetTaskRegisterChallenge2.new
         NetTaskRegisterChallenge2.base NetTaskRegisterChallenge2._challenge].
    unfold receive_cleartext.
    erewrite pbind_ok
      by (apply receive_publicHeader_serialize; [split; [exact Hsid | now right] | exact Hsize]).
    erewrite pbind_ok
      by (apply deserializePrivateHeader_serialize; solve [reflexivity | assumption]).
    unfold NetTaskRegisterChallenge2.deserialize.
    cbn [NetTask.getType NetTask.type NetTask.new type_code N.eqb Pos.eqb negb].
    pstep readUInt32_write.
    rewrite (pbind_ok _ _ _ _ _ (read_all _)).
    reflexivity.
Qed.
End ReadBack.

Section ReadBackEncrypted.
Context `{ECDHE_API} `{SPACK_API} `{!ECDHE_Laws} `{!SPACK_Laws}.

(** The receiver of an encrypted datagram reaches the variant's
    [deserialize] with the base datagram of the sender and a reader on the
    inner record. *)
Lemma receive_encrypted_sealed {A} (e : ECDHE) (deserialize : NetTask.t -> Parser A)
    (b : NetTask.t) (env : EncryptedMessage) (innerEnc outerEnc : Buffer) :
  valid_header b ->
  valid_private b ->
  byteLength outerEnc < 2 ^ 32 ->
  envelope e (NetTask.serializePrivateHeader b
              ++ writeUInt32BE (byteLength innerEnc) ++ innerEnc) = Some env ->
  serializeEncryptedMessage env = Some outerEnc ->
  receive_encrypted e deserialize
    (NetTask.serializePublicHeader (NetTask.set_payloadSize b (byteLength outerEnc))
     ++ outerEnc)
  = match deserialize
            (NetTask.new (NetTask.sessionId b) (NetTask.cryptoMark b)
               (NetTask.sequenceNumber b) (NetTask.acknowledgementNumber b)
               (NetTask.fragmented b) (NetTask.type b) (byteLength outerEnc))
            (writeUInt32BE (byteLength innerEnc) ++ innerEnc) with
    | Ok (a, _) => Ok (a, [])
    | Err err => Err err
    end.
Proof.
  intros Hvalid (Hv & Hseq & Hack & Hty) Hsize Henv Hser.
  unfold receive_encrypted.
  erewrite pbind_ok
    by (apply receive_publicHeader_serialize; [exact Hvalid | exact Hsize]).
  cbn [NetTaskPublicHeader.payloadSize NetTask.set_payloadSize NetTask.payloadSize].
  rewrite (pbind_ok _ _ _ _ _ (read_all _)).
  rewrite (deserialize_serializeEncryptedMessage _ _ Hser).
  unfold pbind at 1, plift at 1, orThrow at 1.
  rewrite (openEnvelope_envelope _ _ _ Henv).
  unfold pbind at 1, plift at 1, orThrow at 1.
  unfold BufferReader.new.
  erewrite pbind_ok
    by (apply deserializePrivateHeader_serialize; assumption).
  unfold plift. cbn [NetTaskPublicHeader.sessionId NetTaskPublicHeader.cryptoMark
                     NetTaskPublicHeader.payloadSize NetTask.set_payloadSize
                     NetTask.sessionId NetTask.cryptoMark NetTask.payloadSize].
  now destruct (deserialize _ _) as [[? ?]|?].
Qed.

Lemma parse_schemas_pack (tasks : gmap JSString SPACKTask) (pack : Buffer) :
  byteLength pack < 2 ^ 32 ->
  NetTaskPushSchemas.pack_of (TaskCollection tasks) = Some pack ->
  exists tasks',
    NetTaskPushSchemas.parse_schemas (writeUInt32BE (byteLength pack) ++ pack)
    = Some tasks'
    /\ getUnpacked <$> tasks' = getUnpacked <$> tasks.
Proof.
  intros Hsize Hpack. cbn [NetTaskPushSchemas.pack_of] in Hpack.
  destruct (packTaskSchemas (getUnpacked <$> tasks)) as [p|] eqn:Hp; [|discriminate].
  destruct (unpack_packTaskSchemas tasks p Hp) as (tasks' & Hun & Heq).
  exists tasks'. split; [|exact Heq].
  unfold NetTaskPushSchemas.parse_schemas, Buffer_readUInt32BE.
  rewrite length_app, length_writeUInt32BE. cbn [Nat.leb Nat.add].
  rewrite (take_app_length' (writeUInt32BE _)) by reflexivity.
  rewrite uintBE_writeUInt32BE by exact Hsize.
  unfold Buffer_subarray.
  rewrite byteLength_app, byteLength_writeUInt32BE.
  rewrite !N.min_l by lia.
  replace (N.to_nat (byteLength pack + 4 - 4)) with (length pack)
    by (unfold byteLength; lia).
  replace (N.to_nat 4) with (length (writeUInt32BE (byteLength pack))) by reflexivity.
  rewrite drop_app_length, firstn_all.
  now rewrite (deserialize_serializeSPACK _ _ Hpack), Hun.
Qed.

(** What a PushSchemas datagram built from a task collection is read back
    as: the session id and the schemas of the sender, under the sequence
    and acknowledgement numbers 123123 and the fragmented flag [true]. *)
Lemma PushSchemas_read_back (sid : Buffer) (seq ack : N) (frag : bool)
    (tasks : gmap JSString SPACKTask) (e : ECDHE)
    (pack innerEnc outerEnc : Buffer) (enc env : EncryptedMessage) :
  byteLength sid = HASH_LEN ->
  seq < 2 ^ 32 -> ack < 2 ^ 32 ->
  byteLength pack < 2 ^ 32 ->
  byteLength innerEnc < 2 ^ 32 ->
  byteLength outerEnc < 2 ^ 32 ->
  NetTaskPushSchemas.pack_of (TaskCollection tasks) = Some pack ->
  encrypt e (writeUInt32BE (byteLength pack) ++ pack) = Some enc ->
  serializeEncryptedMessage enc = Some innerEnc ->
  envelope e (NetTask.serializePrivateHeader
                (NetTask.new sid NET_TASK_CRYPTO seq ack frag (type_code PUSH_SCHEMAS) 0)
              ++ writeUInt32BE (byteLength innerEnc) ++ innerEnc) = Some env ->
  serializeEncryptedMessage env = Some outerEnc ->
  exists calls this' out tasks',
    NetTaskPushSchemas.serialize
      (NetTaskPushSchemas.link
         (NetTaskPushSchemas.new sid seq ack frag (TaskCollection tasks)) e)
    = (calls, Ok (this', out))
    /\ receive_encrypted e (NetTaskPushSchemas.deserialize e) out
       = Ok (NetTaskPushSchemas.new sid 123123 123123 true (TaskCollection tasks'), [])
    /\ getUnpacked <$> tasks' = getUnpacked <$> tasks.
Proof.
  intros Hsid Hseq Hack Hpk Hin Hout Hpack Henc HserE Henv HserV.
  destruct (parse_schemas_pack tasks pack Hpk Hpack) as (tasks' & Hparse & Heq).
  do 3 eexists. exists tasks'. split; [|split; [|exact Heq]].
  - apply (PushSchemas_serialize_linked _ e pack enc env innerEnc outerEnc);
      solve [reflexivity | eassumption].
  - cbn [NetTaskPushSchemas.link NetTaskPushSchemas.new NetTaskPushSchemas.base].
    rewrite (receive_encrypted_sealed e _ _ env innerEnc outerEnc);
      [ | split; [exact Hsid | now left]
        | repeat split; solve [assumption | reflexivity]
        | exact Hout | exact Henv | exact HserV ].
    unfold NetTaskPushSchemas.deserialize.
    cbn [NetTask.getType NetTask.type NetTask.new type_code N.eqb Pos.eqb negb].
    pstep readUInt32_write.
    rewrite (pbind_ok _ _ _ _ _ (read_all _)).
    rewrite (deserialize_serializeEncryptedMessage _ _ HserE).
    unfold pbind at 1, plift at 1, orThrow at 1.
    rewrite (decrypt_encrypt _ _ _ Henc).
    unfold pbind at 1, plift at 1, orThrow at 1.
    rewrite Hparse. reflexivity.
Qed.

Lemma parse_metric_packCompound (configTasks : JSObject Task)
    (taskId : JSString) (pack : Buffer) :
  length (utf8_encode taskId) = length taskId ->
  N.of_nat (length taskId) < 2 ^ 32 ->
  byteLength pack < 2 ^ 32 ->
  NetTaskMetric.parse_metric configTasks
    (writeUInt32BE (N.of_nat (length taskId)) ++ utf8_encode taskId
     ++ writeUInt32BE (byteLength pack) ++ pack)
  = match deserializeTaskMetric pack (JSObject_get configTasks taskId) with
    | Some metrics => Ok ((taskId, metrics), [])
    | None => Err MalformedPayload
    end.
Proof.
  intros Hlen Hid Hpack.
  replace (N.of_nat (length taskId)) with (byteLength (utf8_encode taskId))
    by (unfold byteLength; now rewrite Hlen).
  rewrite <- (app_nil_r pack) at 2.
  rewrite parse_metric_fields
    by (trivial; unfold byteLength; rewrite Hlen; exact Hid).
  now rewrite (toString_utf8_encode taskId Hlen).
Qed.

(** What a Metric datagram with an ASCII task id is read back as: the
    fields of the sender, under the fragmented flag [true]. *)
Lemma Metric_read_back (sid : Buffer) (seq ack : N) (frag : bool)
    (spack : SPACKTaskMetric) (taskId : JSString) (tk : Task)
    (configTasks : JSObject Task) (e : ECDHE)
    (pack innerEnc outerEnc : Buffer) (enc env : EncryptedMessage) :
  byteLength sid = HASH_LEN ->
  seq < 2 ^ 32 -> ack < 2 ^ 32 ->
  length (utf8_encode taskId) = length taskId ->
  N.of_nat (length taskId) < 2 ^ 32 ->
  byteLength pack < 2 ^ 32 ->
  byteLength innerEnc < 2 ^ 32 ->
  byteLength outerEnc < 2 ^ 32 ->
  JSObject_get configTasks taskId = JSTask tk ->
  serializeTaskMetric spack (JSTask tk) = Some pack ->
  encrypt e (writeUInt32BE (N.of_nat (length taskId)) ++ utf8_encode taskId
             ++ writeUInt32BE (byteLength pack) ++ pack) = Some enc ->
  serializeEncryptedMessage enc = Some innerEnc ->
  envelope e (NetTask.serializePrivateHeader
                (NetTask.new sid NET_TASK_CRYPTO seq ack frag (type_code SEND_METRICS) 0)
              ++ writeUInt32BE (byteLength innerEnc) ++ innerEnc) = Some env ->
  serializeEncryptedMessage env = Some outerEnc ->
  exists calls this' out,
    NetTaskMetric.serialize
      (NetTaskMetric.link (NetTaskMetric.new sid seq ack frag spack taskId (JSTask tk)) e)
    = (calls, Ok (this', out))
    /\ receive_encrypted e (fun dg => NetTaskMetric.deserialize e dg configTasks) out
       = Ok (NetTaskMetric.new sid seq ack true spack taskId (JSTask tk), []).
Proof.
  intros Hsid Hseq Hack Hlen Hid Hpk Hin Hout Hcfg Hpack Henc HserE Henv HserV.
  do 3 eexists. split.
  - apply (Metric_serialize_linked _ e pack enc env innerEnc outerEnc);
      solve [reflexivity | eassumption].
  - cbn [NetTaskMetric.link NetTaskMetric.new NetTaskMetric.base].
    rewrite (receive_encrypted_sealed e _ _ env innerEnc outerEnc);
      [ | split; [exact Hsid | now left]
        | repeat split; solve [assumption | reflexivity]
        | exact Hout | exact Henv | exact HserV ].
    rewrite <- (app_nil_r innerEnc) at 2.
    erewrite (Metric_deserialize_decrypted e _ configTasks innerEnc []);
      [ | reflexivity | exact Hin
        | exact (deserialize_serializeEncryptedMessage _ _ HserE)
        | exact (decrypt_encrypt _ _ _ Henc) ].
    rewrite parse_metric_packCompound by assumption.
    rewrite Hcfg, (deserialize_serializeTaskMetric _ _ _ Hpack).
    now rewrite Hcfg.
Qed.


End ReadBackEncrypted.

(** * Further properties of the module *)

(** ** Taking a parser apart *)

Lemma pbind_inv_ok {A B} (p : Parser A) (f : A -> Parser B) r b r2 :
  pbind p f r = Ok (b, r2) ->
  exists a r1, p r = Ok (a, r1) /\ f a r1 = Ok (b, r2).
Proof.
  unfold pbind. destruct (p r) as [[a r1]|e]; [|discriminate].
  intros Hf. now exists a, r1.
Qed.

Lemma pbind_inv_err {A B} (p : Parser A) (f : A -> Parser B) r e :
  pbind p f r = Err e ->
  p r = Err e \/ exists a r1, p r = Ok (a, r1) /\ f a r1 = Err e.
Proof.
  unfold pbind. destruct (p r) as [[a r1]|e']; [|intros [= <-]; now left].
  intros Hf. right. now exists a, r1.
Qed.

Lemma read_ok_inv (n : N) (r b r' : Buffer) :
  BufferReader.read n r = Ok (b, r') ->
  n <= byteLength r /\ b = firstn (N.to_nat n) r /\ r' = skipn (N.to_nat n) r.
Proof.
  unfold BufferReader.read. destruct (N.leb_spec n (byteLength r)); [|discriminate].
  intros [= <- <-]. auto.
Qed.

Lemma readInt8_error (r : Buffer) (e : NTError) :
  BufferReader.readInt8 r = Err e -> e = TruncatedFrame.
Proof.
  unfold BufferReader.readInt8.
  destruct (BufferReader.read 1 r) as [[? ?]|e'] eqn:E; [discriminate|].
  intros [= <-]. exact (read_error _ _ _ E).
Qed.

Ltac solve_read_error H :=
  first [ exact (readUInt32_error _ _ H)
        | exact (read_error _ _ _ H)
        | exact (readInt8_error _ _ H)
        | discriminate H ].

Ltac parser_error H :=
  lazymatch type of H with
  | pbind _ _ _ = Err _ =>
      apply pbind_inv_err in H as [H | (? & ? & _ & H)];
      [solve_read_error H | parser_error H]
  | _ => solve_read_error H
  end.

Lemma deserializePublicHeader_serialize `{ECDHE_API} (b : NetTask.t) (r : Buffer) :
  valid_header b ->
  NetTask.payloadSize b < 2 ^ 32 ->
  NetTask.deserializePublicHeader
    (NetTask.sessionId b ++ NetTask.cryptoMark b
     ++ writeUInt32BE (NetTask.payloadSize b) ++ r)
  = Ok (NetTaskPublicHeader.mk (NetTask.cryptoMark b) (NetTask.sessionId b)
          (NetTask.payloadSize b), r).
Proof.
  intros [Hsid Hmark] Hsize.
  unfold NetTask.deserializePublicHeader.
  rewrite (pbind_ok _ _ _ _ _ (read_app_len HASH_LEN _ _ Hsid)).
  assert (Hm2 : byteLength (NetTask.cryptoMark b) = byteLength NET_TASK_CRYPTO)
    by (destruct Hmark as [-> | ->]; reflexivity).
  rewrite (pbind_ok _ _ _ _ _ (read_app_len _ _ _ Hm2)).
  replace (negb (Buffer_equals NET_TASK_CRYPTO (NetTask.cryptoMark b))
           && negb (Buffer_equals NET_TASK_NOCRYPTO (NetTask.cryptoMark b))) with false
    by (destruct Hmark as [-> | ->]; reflexivity).
  rewrite (pbind_ok _ _ _ _ _ (readUInt32_write _ _ Hsize)).
  reflexivity.
Qed.

Section HeadersReadBack.
Context `{ECDHE_API} `{SPACK_API}.

(** X1. The two headers of any datagram are read back to the very same base
    datagram: on the public header followed by the private header and any
    further bytes, [verifySignature] answers true, [deserializePublicHeader]
    returns the session id, the mark and the payload size, and
    [deserializePrivateHeader] returns the base datagram that was written,
    leaving the further bytes. *)
Theorem headers_read_back (b : NetTask.t) (rest : Buffer) :
  valid_header b ->
  valid_private b ->
  NetTask.payloadSize b < 2 ^ 32 ->
  exists r1 r2 ph,
    NetTask.verifySignature
      (NetTask.serializePublicHeader b ++ NetTask.serializePrivateHeader b ++ rest)
    = Ok (true, r1)
    /\ NetTask.deserializePublicHeader r1 = Ok (ph, r2)
    /\ NetTaskPublicHeader.sessionId ph = NetTask.sessionId b
    /\ NetTaskPublicHeader.cryptoMark ph = NetTask.cryptoMark b
    /\ NetTaskPublicHeader.payloadSize ph = NetTask.payloadSize b
    /\ NetTask.deserializePrivateHeader ph r2 = Ok (b, rest).
Proof.
  intros Hvalid (Hv & Hseq & Hack & Hty) Hsize.
  rewrite serializePublicHeader_bytes, <- !app_assoc.
  do 3 eexists. split; [apply verifySignature_signature|].
  split; [apply deserializePublicHeader_serialize; assumption|].
  cbn [NetTaskPublicHeader.sessionId NetTaskPublicHeader.cryptoMark
       NetTaskPublicHeader.payloadSize].
  repeat (split; [reflexivity|]).
  rewrite deserializePrivateHeader_serialize by assumption.
  cbn [NetTaskPublicHeader.sessionId NetTaskPublicHeader.cryptoMark
       NetTaskPublicHeader.payloadSize].
  destruct b as [sid mark v seq frag ack ty ps]. cbn in Hv. subst v. reflexivity.
Qed.
End HeadersReadBack.

(** ** What the deserializers return and refuse *)

Lemma Register_deserialize_ok (dg : NetTask.t) (r : Buffer) d r' :
  NetTaskRegister.deserialize dg r = Ok (d, r') ->
  NetTask.type dg = type_code REQUEST_REGISTER
  /\ exists pk,
       d = NetTaskRegister.new (NetTask.sessionId dg) (NetTask.sequenceNumber dg)
             (NetTask.acknowledgementNumber dg) (NetTask.fragmented dg) pk.
Proof.
  unfold NetTaskRegister.deserialize, NetTask.getType.
  destruct (N.eqb_spec (NetTask.type dg) (type_code REQUEST_REGISTER)) as [Hty|Hty];
    cbn [negb]; [|discriminate].
  intros (len & r1 & _ & (pk & r2 & _ & [= <- _])%pbind_inv_ok)%pbind_inv_ok.
  split; [exact Hty | now exists pk].
Qed.

Lemma RegisterChallenge_deserialize_ok (dg : NetTask.t) (r : Buffer) d r' :
  NetTaskRegisterChallenge.deserialize dg r = Ok (d, r') ->
  NetTask.type dg = type_code REGISTER_CHALLENGE
  /\ exists pk ch salt,
       d = NetTaskRegisterChallenge.new (NetTask.sessionId dg) (NetTask.sequenceNumber dg)
             (NetTask.acknowledgementNumber dg) (NetTask.fragmented dg) pk ch salt.
Proof.
  unfold NetTaskRegisterChallenge.deserialize, NetTask.getType.
  destruct (N.eqb_spec (NetTask.type dg) (type_code REGISTER_CHALLENGE)) as [Hty|Hty];
    cbn [negb]; [|discriminate].
  intros (? & ? & _ & (pk & ? & _ & (? & ? & _ & (ch & ? & _ & (? & ? & _ &
            (salt & ? & _ & [= <- _])%pbind_inv_ok)%pbind_inv_ok)%pbind_inv_ok
          )%pbind_inv_ok)%pbind_inv_ok)%pbind_inv_ok.
  split; [exact Hty | now exists pk, ch, salt].
Qed.

Section Deserializers.
Context `{ECDHE_API} `{SPACK_API}.

Lemma RegisterChallenge2_deserialize_ok (dg : NetTask.t) (r : Buffer) d r' :
  NetTaskRegisterChallenge2.deserialize dg r = Ok (d, r') ->
  NetTask.type dg = type_code REGISTER_CHALLENGE2
  /\ exists ch,
       d = NetTaskRegisterChallenge2.new (NetTask.sessionId dg) (NetTask.sequenceNumber dg)
             (NetTask.acknowledgementNumber dg) (NetTask.fragmented dg) ch.
Proof.
  unfold NetTaskRegisterChallenge2.deserialize, NetTask.getType.
  destruct (N.eqb_spec (NetTask.type dg) (type_code REGISTER_CHALLENGE2)) as [Hty|Hty];
    cbn [negb]; [|discriminate].
  intros (len & r1 & _ & (ch & r2 & _ & [= <- _])%pbind_inv_ok)%pbind_inv_ok.
  split; [exact Hty | now exists ch].
Qed.

Lemma PushSchemas_deserialize_ok (e : ECDHE) (dg : NetTask.t) (r : Buffer) d r' :
  NetTaskPushSchemas.deserialize e dg r = Ok (d, r') ->
  NetTask.type dg = type_code PUSH_SCHEMAS
  /\ exists tasks,
       d = NetTaskPushSchemas.new (NetTask.sessionId dg) 123123 123123 true
             (TaskCollection tasks).
Proof.
  unfold NetTaskPushSchemas.deserialize, NetTask.getType.
  destruct (N.eqb_spec (NetTask.type dg) (type_code PUSH_SCHEMAS)) as [Hty|Hty];
    cbn [negb]; [|discriminate].
  intros (? & ? & _ & (? & ? & _ & (? & ? & _ & (? & ? & _ & (tasks & ? & _ &
            [= <- _])%pbind_inv_ok)%pbind_inv_ok)%pbind_inv_ok)%pbind_inv_ok)%pbind_inv_ok.
  split; [exact Hty | now exists tasks].
Qed.

Lemma Metric_deserialize_ok (e : ECDHE) (dg : NetTask.t)
    (configTasks : JSObject Task) (r : Buffer) d r' :
  NetTaskMetric.deserialize e dg configTasks r = Ok (d, r') ->
  NetTask.type dg = type_code SEND_METRICS
  /\ exists taskId metrics,
       d = NetTaskMetric.new (NetTask.sessionId dg) (NetTask.sequenceNumber dg)
             (NetTask.acknowledgementNumber dg) true metrics taskId
             (JSObject_get configTasks taskId).
Proof.
  unfold NetTaskMetric.deserialize, NetTask.getType.
  destruct (N.eqb_spec (NetTask.type dg) (type_code SEND_METRICS)) as [Hty|Hty];
    cbn [negb]; [|discriminate].
  intros (? & ? & _ & (? & ? & _ & (? & ? & _ & (? & ? & _ & ([taskId metrics] & ? & _ &
            [= <- _])%pbind_inv_ok)%pbind_inv_ok)%pbind_inv_ok)%pbind_inv_ok)%pbind_inv_ok.
  split; [exact Hty | now exists taskId, metrics].
Qed.

Lemma PushSchemas_deserialize_errors (e : ECDHE) (dg : NetTask.t) (r : BufferReader.t)
    (err : NTError) :
  NetTask.type dg = type_code PUSH_SCHEMAS ->
  NetTaskPushSchemas.deserialize e dg r = Err err ->
  err = TruncatedFrame \/ err = CryptoFailure \/ err = MalformedPayload.
Proof.
  intros Hty. unfold NetTaskPushSchemas.deserialize, NetTask.getType. rewrite Hty.
  cbn [type_code N.eqb Pos.eqb negb].
  unfold pbind at 1.
  destruct (BufferReader.readUInt32 r) as [[serEncLen r1]|e1] eqn:E1;
    [|intros [= <-]; rewrite (readUInt32_error _ _ E1); tauto].
  unfold pbind at 1.
  destruct (BufferReader.read serEncLen r1) as [[serEnc r2]|e2] eqn:E2;
    [|intros [= <-]; rewrite (read_error _ _ _ E2); tauto].
  unfold pbind, plift, orThrow, pret.
  destruct (deserializeEncryptedMessage serEnc); [|intros [= <-]; tauto].
  destruct (decrypt e _); [|intros [= <-]; tauto].
  destruct (NetTaskPushSchemas.parse_schemas _); [discriminate|].
  intros [= <-]; tauto.
Qed.

Lemma Metric_deserialize_errors_typed (e : ECDHE) (dg : NetTask.t)
    (configTasks : JSObject Task) (r : BufferReader.t) (err : NTError) :
  NetTask.type dg = type_code SEND_METRICS ->
  NetTaskMetric.deserialize e dg configTasks r = Err err ->
  err = TruncatedFrame \/ err = CryptoFailure \/ err = MalformedPayload.
Proof.
  intros Hty. unfold NetTaskMetric.deserialize, NetTask.getType. rewrite Hty.
  cbn [type_code N.eqb Pos.eqb negb].
  unfold pbind at 1.
  destruct (BufferReader.readUInt32 r) as [[serEncLen r1]|e1] eqn:E1;
    [|intros [= <-]; rewrite (readUInt32_error _ _ E1); tauto].
  unfold pbind at 1.
  destruct (BufferReader.read serEncLen r1) as [[serEnc r2]|e2] eqn:E2;
    [|intros [= <-]; rewrite (read_error _ _ _ E2); tauto].
  unfold pbind, plift, orThrow, pret.
  destruct (deserializeEncryptedMessage serEnc); [|intros [= <-]; tauto].
  destruct (decrypt e _); [|intros [= <-]; tauto].
  destruct (NetTaskMetric.parse_metric _ _) as [[? ?]|?]; [discriminate|].
  intros [= <-]; tauto.
Qed.

(** X2. Each of the three cleartext deserializers (Register,
    RegisterChallenge, RegisterChallenge2) refuses a base datagram of another
    type with the wrong-type error, whatever the reader holds and before
    reading from it; on a base datagram of its own type the only error it
    can end in is the reader running out of bytes. *)
Theorem cleartext_deserialize_errors (dg : NetTask.t) :
  (NetTask.type dg <> type_code REQUEST_REGISTER ->
   forall r, NetTaskRegister.deserialize dg r = Err WrongType)
  /\ (NetTask.type dg <> type_code REGISTER_CHALLENGE ->
      forall r, NetTaskRegisterChallenge.deserialize dg r = Err WrongType)
  /\ (NetTask.type dg <> type_code REGISTER_CHALLENGE2 ->
      forall r, NetTaskRegisterChallenge2.deserialize dg r = Err WrongType)
  /\ (NetTask.type dg = type_code REQUEST_REGISTER ->
      forall r e, NetTaskRegister.deserialize dg r = Err e -> e = TruncatedFrame)
  /\ (NetTask.type dg = type_code REGISTER_CHALLENGE ->
      forall r e, NetTaskRegisterChallenge.deserialize dg r = Err e -> e = TruncatedFrame)
  /\ (NetTask.type dg = type_code REGISTER_CHALLENGE2 ->
      forall r e, NetTaskRegisterChallenge2.deserialize dg r = Err e -> e = TruncatedFrame).
Proof.
  repeat apply conj.
  - intros Hty r. unfold NetTaskRegister.deserialize, NetTask.getType.
    now destruct (N.eqb_spec (NetTask.type dg) (type_code REQUEST_REGISTER)).
  - intros Hty r. unfold NetTaskRegisterChallenge.deserialize, NetTask.getType.
    now destruct (N.eqb_spec (NetTask.type dg) (type_code REGISTER_CHALLENGE)).
  - intros Hty r. unfold NetTaskRegisterChallenge2.deserialize, NetTask.getType.
    now destruct (N.eqb_spec (NetTask.type dg) (type_code REGISTER_CHALLENGE2)).
  - intros Hty r e. unfold NetTaskRegister.deserialize, NetTask.getType.
    rewrite Hty. cbn [type_code N.eqb negb]. intros Hr. parser_error Hr.
  - intros Hty r e. unfold NetTaskRegisterChallenge.deserialize, NetTask.getType.
    rewrite Hty. cbn [type_code N.eqb Pos.eqb negb]. intros Hr. parser_error Hr.
  - intros Hty r e. unfold NetTaskRegisterChallenge2.deserialize, NetTask.getType.
    rewrite Hty. cbn [type_code N.eqb Pos.eqb negb]. intros Hr. parser_error Hr.
Qed.

(** X3. The two encrypted deserializers (PushSchemas, Metric) refuse a base
    datagram of another type with the wrong-type error before reading or
    decrypting anything; on a base datagram of their own type they end in no
    other error than the reader running out of bytes, a failure of the ECDHE
    session, or the malformed-payload error. *)
Theorem encrypted_deserialize_errors (e : ECDHE) (dg : NetTask.t)
    (configTasks : JSObject Task) :
  (NetTask.type dg <> type_code PUSH_SCHEMAS ->
   forall r, NetTaskPushSchemas.deserialize e dg r = Err WrongType)
  /\ (NetTask.type dg <> type_code SEND_METRICS ->
      forall r, NetTaskMetric.deserialize e dg configTasks r = Err WrongType)
  /\ (NetTask.type dg = type_code PUSH_SCHEMAS ->
      forall r err, NetTaskPushSchemas.deserialize e dg r = Err err ->
      err = TruncatedFrame \/ err = CryptoFailure \/ err = MalformedPayload)
  /\ (NetTask.type dg = type_code SEND_METRICS ->
      forall r err, NetTaskMetric.deserialize e dg configTasks r = Err err ->
      err = TruncatedFrame \/ err = CryptoFailure \/ err = MalformedPayload).
Proof.
  repeat apply conj.
  - intros Hty r. unfold NetTaskPushSchemas.deserialize, NetTask.getType.
    now destruct (N.eqb_spec (NetTask.type dg) (type_code PUSH_SCHEMAS)).
  - intros Hty r. unfold NetTaskMetric.deserialize, NetTask.getType.
    now destruct (N.eqb_spec (NetTask.type dg) (type_code SEND_METRICS)).
  - intros Hty r err. now apply PushSchemas_deserialize_errors.
  - intros Hty r err. now apply Metric_deserialize_errors_typed.
Qed.

(** X4. What a deserializer returns is a datagram fresh from the constructor
    of its variant.  Its session id comes from the base datagram; for the
    three cleartext variants so do the sequence number, the acknowledgement
    number and the fragmented flag, while PushSchemas puts 123123, 123123 and
    [true] and Metric puts [true] for the flag.  The crypto mark is the one of
    the variant and the payload size is 0, whatever the base datagram (hence
    the public header on the wire) carried.  A Metric carries, as its task,
    what the property read [configTasks[taskId]] gave for its task id: an own
    property of the configuration, or one found along its prototype chain,
    or [undefined]. *)
Theorem deserialized_is_fresh (e : ECDHE) (dg : NetTask.t)
    (configTasks : JSObject Task) (r r' : BufferReader.t) :
  (forall d, NetTaskRegister.deserialize dg r = Ok (d, r') ->
     constructed (DRegister d)
     /\ NetTaskRegister.base d
        = NetTask.new (NetTask.sessionId dg) NET_TASK_NOCRYPTO (NetTask.sequenceNumber dg)
            (NetTask.acknowledgementNumber dg) (NetTask.fragmented dg)
            (type_code REQUEST_REGISTER) 0)
  /\ (forall d, NetTaskRegisterChallenge.deserialize dg r = Ok (d, r') ->
     constructed (DRegisterChallenge d)
     /\ NetTaskRegisterChallenge.base d
        = NetTask.new (NetTask.sessionId dg) NET_TASK_NOCRYPTO (NetTask.sequenceNumber dg)
            (NetTask.acknowledgementNumber dg) (NetTask.fragmented dg)
            (type_code REGISTER_CHALLENGE) 0)
  /\ (forall d, NetTaskRegisterChallenge2.deserialize dg r = Ok (d, r') ->
     constructed (DRegisterChallenge2 d)
     /\ NetTaskRegisterChallenge2.base d
        = NetTask.new (NetTask.sessionId dg) NET_TASK_NOCRYPTO (NetTask.sequenceNumber dg)
            (NetTask.acknowledgementNumber dg) (NetTask.fragmented dg)
            (type_code REGISTER_CHALLENGE2) 0)
  /\ (forall d, NetTaskPushSchemas.deserialize e dg r = Ok (d, r') ->
     constructed (DPushSchemas d)
     /\ NetTaskPushSchemas.base d
        = NetTask.new (NetTask.sessionId dg) NET_TASK_CRYPTO 123123 123123 true
            (type_code PUSH_SCHEMAS) 0)
  /\ (forall d, NetTaskMetric.deserialize e dg configTasks r = Ok (d, r') ->
     constructed (DMetric d)
     /\ NetTaskMetric.base d
        = NetTask.new (NetTask.sessionId dg) NET_TASK_CRYPTO (NetTask.sequenceNumber dg)
            (NetTask.acknowledgementNumber dg) true (type_code SEND_METRICS) 0
     /\ NetTaskMetric.task d = JSObject_get configTasks (NetTaskMetric.taskId d)
     /\ (forall v, own configTasks !! NetTaskMetric.taskId d = Some v ->
          NetTaskMetric.task d = v)
     /\ (own configTasks !! NetTaskMetric.taskId d = None ->
         NetTaskMetric.task d
         = match prototype_get (prototypes configTasks) (NetTaskMetric.taskId d) with
           | Some inherited => inherited
           | None => JSUndefined
           end)).
Proof.
  repeat apply conj.
  - intros d (_ & pk & ->)%Register_deserialize_ok.
    split; [apply new_Register | reflexivity].
  - intros d (_ & pk & ch & salt & ->)%RegisterChallenge_deserialize_ok.
    split; [apply new_RegisterChallenge | reflexivity].
  - intros d (_ & ch & ->)%RegisterChallenge2_deserialize_ok.
    split; [apply new_RegisterChallenge2 | reflexivity].
  - intros d (_ & tasks & ->)%PushSchemas_deserialize_ok.
    split; [apply new_PushSchemas | reflexivity].
  - intros d (_ & taskId & metrics & ->)%Metric_deserialize_ok.
    split; [apply new_Metric|]. split; [reflexivity|]. split; [reflexivity|].
    cbn [NetTaskMetric.new NetTaskMetric.task NetTaskMetric.taskId]. split.
    + intros v Hv. exact (JSObject_get_own _ _ _ Hv).
    + intros Hnone. exact (JSObject_get_inherited _ _ Hnone).
Qed.

(** X5. A datagram that came out of [deserialize] is not linked to the ECDHE
    session that decrypted it: serializing a received RegisterChallenge2,
    PushSchemas or Metric datagram again, without linking it first, throws
    the not-linked error and makes no ECDHE call. *)
Theorem deserialized_needs_link (e : ECDHE) (dg : NetTask.t)
    (configTasks : JSObject Task) (r r' : BufferReader.t) :
  (forall d, NetTaskRegisterChallenge2.deserialize dg r = Ok (d, r') ->
     NetTaskRegisterChallenge2.serialize d = ([], Err NotLinked))
  /\ (forall d, NetTaskPushSchemas.deserialize e dg r = Ok (d, r') ->
     NetTaskPushSchemas.serialize d = ([], Err NotLinked))
  /\ (forall d, NetTaskMetric.deserialize e dg configTasks r = Ok (d, r') ->
     NetTaskMetric.serialize d = ([], Err NotLinked)).
Proof.
  repeat apply conj.
  - now intros d (_ & ch & ->)%RegisterChallenge2_deserialize_ok.
  - now intros d (_ & tasks & ->)%PushSchemas_deserialize_ok.
  - now intros d (_ & taskId & metrics & ->)%Metric_deserialize_ok.
Qed.
End Deserializers.

(** ** Round trips of the variants *)

Section VariantRoundTrips.
Context `{ECDHE_API} `{SPACK_API}.

(** X6. A Register datagram is read back, by the full receiving pipeline, as
    the datagram that was built.  [NetTaskRegister.deserialize] itself reads
    the length and the public key, leaves whatever follows in the reader, and
    does not look at the payload size of the base datagram. *)
Theorem Register_wire_roundtrip (sid : Buffer) (seq ack : N) (frag : bool) (pk : Buffer) :
  byteLength sid = HASH_LEN ->
  seq < 2 ^ 32 -> ack < 2 ^ 32 ->
  17 + 4 + byteLength pk < 2 ^ 32 ->
  receive_cleartext NetTaskRegister.deserialize
    (snd (NetTaskRegister.serialize (NetTaskRegister.new sid seq ack frag pk)))
  = Ok (NetTaskRegister.new sid seq ack frag pk, [])
  /\ forall (dg : NetTask.t) (rest : Buffer),
       NetTask.type dg = type_code REQUEST_REGISTER ->
       NetTaskRegister.deserialize dg (writeUInt32BE (byteLength pk) ++ pk ++ rest)
       = Ok (NetTaskRegister.new (NetTask.sessionId dg) (NetTask.sequenceNumber dg)
               (NetTask.acknowledgementNumber dg) (NetTask.fragmented dg) pk, rest).
Proof.
  intros Hsid Hseq Hack Hsize. split; [now apply Register_roundtrip|].
  intros dg rest Hty. unfold NetTaskRegister.deserialize, NetTask.getType.
  rewrite Hty. cbn [type_code N.eqb negb].
  pstep readUInt32_write.
  now rewrite (pbind_ok _ _ _ _ _ (read_app _ _)).
Qed.

(** X7. A RegisterChallenge datagram is read back, by the full receiving
    pipeline, as the datagram that was built: public key, challenge and salt
    come back in that order, each under its own length.
    [NetTaskRegisterChallenge.deserialize] leaves whatever follows the salt
    in the reader. *)
Theorem RegisterChallenge_wire_roundtrip (sid : Buffer) (seq ack : N) (frag : bool)
    (pk ch salt : Buffer) :
  byteLength sid = HASH_LEN ->
  seq < 2 ^ 32 -> ack < 2 ^ 32 ->
  17 + byteLength pk + byteLength ch + byteLength salt + 4 * 3 < 2 ^ 32 ->
  receive_cleartext NetTaskRegisterChallenge.deserialize
    (snd (NetTaskRegisterChallenge.serialize
            (NetTaskRegisterChallenge.new sid seq ack frag pk ch salt)))
  = Ok (NetTaskRegisterChallenge.new sid seq ack frag pk ch salt, [])
  /\ forall (dg : NetTask.t) (rest : Buffer),
       NetTask.type dg = type_code REGISTER_CHALLENGE ->
       NetTaskRegisterChallenge.deserialize dg
         (writeUInt32BE (byteLength pk) ++ pk
          ++ writeUInt32BE (byteLength ch) ++ ch
          ++ writeUInt32BE (byteLength salt) ++ salt ++ rest)
       = Ok (NetTaskRegisterChallenge.new (NetTask.sessionId dg)
               (NetTask.sequenceNumber dg) (NetTask.acknowledgementNumber dg)
               (NetTask.fragmented dg) pk ch salt, rest).
Proof.
  intros Hsid Hseq Hack Hsize. split; [now apply RegisterChallenge_roundtrip|].
  intros dg rest Hty. unfold NetTaskRegisterChallenge.deserialize, NetTask.getType.
  rewrite Hty. cbn [type_code N.eqb Pos.eqb negb].
  pstep readUInt32_write.
  rewrite (pbind_ok _ _ _ _ _ (read_app _ _)).
  pstep readUInt32_write.
  rewrite (pbind_ok _ _ _ _ _ (read_app _ _)).
  pstep readUInt32_write.
  now rewrite (pbind_ok _ _ _ _ _ (read_app _ _)).
Qed.

(** X8. A RegisterChallenge2 datagram, linked and serialized, is read back by
    the full receiving pipeline as the datagram that was built, without its
    link.  [NetTaskRegisterChallenge2.deserialize] leaves whatever follows
    the challenge in the reader. *)
Theorem RegisterChallenge2_wire_roundtrip (sid : Buffer) (seq ack : N) (frag : bool)
    (ch : Buffer) (e : ECDHE) :
  byteLength sid = HASH_LEN ->
  seq < 2 ^ 32 -> ack < 2 ^ 32 ->
  17 + byteLength ch + 4 < 2 ^ 32 ->
  (exists d' out,
      NetTaskRegisterChallenge2.serialize
        (NetTaskRegisterChallenge2.link (NetTaskRegisterChallenge2.new sid seq ack frag ch) e)
      = ([], Ok (d', out))
      /\ receive_cleartext NetTaskRegisterChallenge2.deserialize out
         = Ok (NetTaskRegisterChallenge2.new sid seq ack frag ch, []))
  /\ forall (dg : NetTask.t) (rest : Buffer),
       NetTask.type dg = type_code REGISTER_CHALLENGE2 ->
       NetTaskRegisterChallenge2.deserialize dg (writeUInt32BE (byteLength ch) ++ ch ++ rest)
       = Ok (NetTaskRegisterChallenge2.new (NetTask.sessionId dg)
               (NetTask.sequenceNumber dg) (NetTask.acknowledgementNumber dg)
               (NetTask.fragmented dg) ch, rest).
Proof.
  intros Hsid Hseq Hack Hsize. split; [now apply RegisterChallenge2_roundtrip|].
  intros dg rest Hty. unfold NetTaskRegisterChallenge2.deserialize, NetTask.getType.
  rewrite Hty. cbn [type_code N.eqb Pos.eqb negb].
  pstep readUInt32_write.
  now rewrite (pbind_ok _ _ _ _ _ (read_app _ _)).
Qed.

(** X9. A Rejected datagram is its two headers and nothing else: seventeen
    bytes of payload, the mark "NC" and the type CONNECTION_REJECTED.  The
    header parsers read it back to the base datagram that [serialize] left,
    with an empty reader, and no variant deserializer accepts that base
    datagram. *)
Theorem Rejected_wire_roundtrip (sid : Buffer) (seq ack : N) (e : ECDHE)
    (configTasks : JSObject Task) :
  byteLength sid = HASH_LEN ->
  seq < 2 ^ 32 -> ack < 2 ^ 32 ->
  let sent := NetTaskRejected.serialize (NetTaskRejected.new sid seq ack) in
  let dg := NetTask.new sid NET_TASK_NOCRYPTO seq ack false (type_code CONNECTION_REJECTED) 17 in
  NetTaskRejected.base (fst sent) = dg
  /\ byteLength (snd sent) = PUBLIC_HEADER_LEN + 17
  /\ receive_cleartext pret (snd sent) = Ok (dg, [])
  /\ (forall r, NetTaskRegister.deserialize dg r = Err WrongType)
  /\ (forall r, NetTaskRegisterChallenge.deserialize dg r = Err WrongType)
  /\ (forall r, NetTaskRegisterChallenge2.deserialize dg r = Err WrongType)
  /\ (forall r, NetTaskPushSchemas.deserialize e dg r = Err WrongType)
  /\ (forall r, NetTaskMetric.deserialize e dg configTasks r = Err WrongType).
Proof.
  intros Hsid Hseq Hack sent dg. subst sent.
  rewrite Rejected_serialize_bytes. cbn [fst snd NetTaskRejected.base].
  split; [reflexivity|]. split.
  - rewrite byteLength_app, byteLength_serializePrivateHeader.
    rewrite byteLength_serializePublicHeader; [reflexivity|].
    split; [exact Hsid | now right].
  - split.
    + unfold receive_cleartext.
      erewrite pbind_ok
        by (apply receive_publicHeader_serialize;
            [split; [exact Hsid | now right] | reflexivity]).
      rewrite <- (app_nil_r (NetTask.serializePrivateHeader _)).
      erewrite pbind_ok
        by (apply deserializePrivateHeader_serialize; solve [reflexivity | assumption]).
      reflexivity.
    + repeat apply conj; intros r; reflexivity.
Qed.
End VariantRoundTrips.

Section EncryptedRoundTrips.
Context `{ECDHE_API} `{SPACK_API} `{!ECDHE_Laws} `{!SPACK_Laws}.

Lemma pack_of_packed_of (s : Schemas) :
  NetTaskPushSchemas.pack_of s
  = match packed_of s with
    | Some p => serializeSPACK p
    | None => None
    end.
Proof. now destruct s. Qed.

(** The [try] block of [NetTaskPushSchemas.deserialize] takes the first
    [spackLen] bytes behind the length, or all of them if there are fewer. *)
Lemma parse_schemas_prefix (n : N) (raw : Buffer) :
  n < 2 ^ 32 ->
  NetTaskPushSchemas.parse_schemas (writeUInt32BE n ++ raw)
  = match deserializeSPACK (firstn (N.to_nat n) raw) with
    | Some spack => unpackTaskSchemas spack
    | None => None
    end.
Proof.
  intros Hn. unfold NetTaskPushSchemas.parse_schemas, Buffer_readUInt32BE.
  rewrite length_app, length_writeUInt32BE. cbn [Nat.leb Nat.add].
  rewrite (take_app_length' (writeUInt32BE _)) by reflexivity.
  rewrite uintBE_writeUInt32BE by exact Hn.
  unfold Buffer_subarray.
  rewrite byteLength_app, byteLength_writeUInt32BE.
  rewrite (N.min_l 4) by lia.
  replace (N.to_nat 4) with (length (writeUInt32BE n)) by reflexivity.
  rewrite drop_app_length.
  destruct (N.le_ge_cases (n + 4) (4 + byteLength raw)) as [Hle|Hge].
  - rewrite N.min_l by exact Hle.
    now replace (N.to_nat (n + 4 - 4)) with (N.to_nat n) by lia.
  - rewrite N.min_r by exact Hge.
    rewrite !firstn_all2; [reflexivity | unfold byteLength in *; lia
                          | unfold byteLength in *; lia].
Qed.

(** X10. A linked PushSchemas datagram, whether built from a packed object or
    from a task collection, is received as follows: the pipeline reaches the
    packed object that was serialized and unpacks it; the datagram returned
    carries the unpacked tasks and the session id, under the sequence and
    acknowledgement numbers 123123 and the fragmented flag [true]; if the
    packed object does not unpack, the error is the malformed-payload one. *)
Theorem PushSchemas_wire_read_back (sid : Buffer) (seq ack : N) (frag : bool)
    (s : Schemas) (p : SPACKPacked) (e : ECDHE)
    (pack innerEnc outerEnc : Buffer) (enc env : EncryptedMessage) :
  byteLength sid = HASH_LEN ->
  seq < 2 ^ 32 -> ack < 2 ^ 32 ->
  byteLength pack < 2 ^ 32 ->
  byteLength innerEnc < 2 ^ 32 ->
  byteLength outerEnc < 2 ^ 32 ->
  packed_of s = Some p ->
  serializeSPACK p = Some pack ->
  encrypt e (writeUInt32BE (byteLength pack) ++ pack) = Some enc ->
  serializeEncryptedMessage enc = Some innerEnc ->
  envelope e (NetTask.serializePrivateHeader
                (NetTask.new sid NET_TASK_CRYPTO seq ack frag (type_code PUSH_SCHEMAS) 0)
              ++ writeUInt32BE (byteLength innerEnc) ++ innerEnc) = Some env ->
  serializeEncryptedMessage env = Some outerEnc ->
  exists calls this' out,
    NetTaskPushSchemas.serialize
      (NetTaskPushSchemas.link (NetTaskPushSchemas.new sid seq ack frag s) e)
    = (calls, Ok (this', out))
    /\ receive_encrypted e (NetTaskPushSchemas.deserialize e) out
       = match unpackTaskSchemas p with
         | Some tasks =>
             Ok (NetTaskPushSchemas.new sid 123123 123123 true (TaskCollection tasks), [])
         | None => Err MalformedPayload
         end.
Proof.
  intros Hsid Hseq Hack Hpk Hin Hout Hpacked Hpack Henc HserE Henv HserV.
  do 3 eexists. split.
  - apply (PushSchemas_serialize_linked _ e pack enc env innerEnc outerEnc);
      try solve [reflexivity | eassumption].
    cbn [NetTaskPushSchemas.link NetTaskPushSchemas.new NetTaskPushSchemas.spack].
    now rewrite pack_of_packed_of, Hpacked.
  - cbn [NetTaskPushSchemas.link NetTaskPushSchemas.new NetTaskPushSchemas.base].
    rewrite (receive_encrypted_sealed e _ _ env innerEnc outerEnc);
      [ | split; [exact Hsid | now left]
        | repeat split; solve [assumption | reflexivity]
        | exact Hout | exact Henv | exact HserV ].
    unfold NetTaskPushSchemas.deserialize.
    cbn [NetTask.getType NetTask.type NetTask.new type_code N.eqb Pos.eqb negb].
    pstep readUInt32_write.
    rewrite (pbind_ok _ _ _ _ _ (read_all _)).
    rewrite (deserialize_serializeEncryptedMessage _ _ HserE).
    unfold pbind at 1, plift at 1, orThrow at 1.
    rewrite (decrypt_encrypt _ _ _ Henc).
    unfold pbind at 1, plift at 1, orThrow at 1.
    rewrite parse_schemas_prefix by exact Hpk.
    replace (N.to_nat (byteLength pack)) with (length pack) by (unfold byteLength; lia).
    rewrite firstn_all, (deserialize_serializeSPACK _ _ Hpack).
    now destruct (unpackTaskSchemas p).
Qed.

(** X11. A linked Metric datagram whose task id is ASCII is received as
    follows, whatever the configuration object of the receiver: the pack is
    decoded under what the property read [configTasks[taskId]] gives on that
    object (an own property, one found along its prototype chain, or
    [undefined]); the datagram returned carries the decoded metrics, the
    task id, that value as its task, and the header of the sender except for
    the fragmented flag, which is [true]; if the pack does not decode, the
    error is the malformed-payload one.  On a configuration written as an
    object literal the value is the task under a key, the member of
    [Object.prototype] under one of its member names, and [undefined] under
    any other name. *)
Theorem Metric_wire_read_back (sid : Buffer) (seq ack : N) (frag : bool)
    (spack : SPACKTaskMetric) (taskId : JSString) (task : JSValue Task)
    (configTasks : JSObject Task) (e : ECDHE)
    (pack innerEnc outerEnc : Buffer) (enc env : EncryptedMessage) :
  byteLength sid = HASH_LEN ->
  seq < 2 ^ 32 -> ack < 2 ^ 32 ->
  length (utf8_encode taskId) = length taskId ->
  N.of_nat (length taskId) < 2 ^ 32 ->
  byteLength pack < 2 ^ 32 ->
  byteLength innerEnc < 2 ^ 32 ->
  byteLength outerEnc < 2 ^ 32 ->
  serializeTaskMetric spack task = Some pack ->
  encrypt e (writeUInt32BE (N.of_nat (length taskId)) ++ utf8_encode taskId
             ++ writeUInt32BE (byteLength pack) ++ pack) = Some enc ->
  serializeEncryptedMessage enc = Some innerEnc ->
  envelope e (NetTask.serializePrivateHeader
                (NetTask.new sid NET_TASK_CRYPTO seq ack frag (type_code SEND_METRICS) 0)
              ++ writeUInt32BE (byteLength innerEnc) ++ innerEnc) = Some env ->
  serializeEncryptedMessage env = Some outerEnc ->
  (exists calls this' out,
      NetTaskMetric.serialize
        (NetTaskMetric.link (NetTaskMetric.new sid seq ack frag spack taskId task) e)
      = (calls, Ok (this', out))
      /\ receive_encrypted e (fun dg => NetTaskMetric.deserialize e dg configTasks) out
         = match deserializeTaskMetric pack (JSObject_get configTasks taskId) with
           | Some metrics =>
               Ok (NetTaskMetric.new sid seq ack true metrics taskId
                     (JSObject_get configTasks taskId), [])
           | None => Err MalformedPayload
           end)
  /\ (forall tasks : gmap JSString Task,
        configTasks = object_literal tasks ->
        JSObject_get configTasks taskId
        = match tasks !! taskId with
          | Some tk => JSTask tk
          | None =>
              if bool_decide (taskId ∈ Object_prototype_names)
              then JSBuiltin taskId
              else JSUndefined
          end).
Proof.
  intros Hsid Hseq Hack Hlen Hid Hpk Hin Hout Hpack Henc HserE Henv HserV.
  split; [|intros tasks ->; apply object_literal_get].
  do 3 eexists. split.
  - apply (Metric_serialize_linked _ e pack enc env innerEnc outerEnc);
      solve [reflexivity | eassumption].
  - cbn [NetTaskMetric.link NetTaskMetric.new NetTaskMetric.base].
    rewrite (receive_encrypted_sealed e _ _ env innerEnc outerEnc);
      [ | split; [exact Hsid | now left]
        | repeat split; solve [assumption | reflexivity]
        | exact Hout | exact Henv | exact HserV ].
    rewrite <- (app_nil_r innerEnc) at 2.
    erewrite (Metric_deserialize_decrypted e _ configTasks innerEnc []);
      [ | reflexivity | exact Hin
        | exact (deserialize_serializeEncryptedMessage _ _ HserE)
        | exact (decrypt_encrypt _ _ _ Henc) ].
    rewrite parse_metric_packCompound by assumption.
    now destruct (deserializeTaskMetric pack (JSObject_get configTasks taskId)).
Qed.
End EncryptedRoundTrips.

(** ** Lengths inside the encrypted payload *)

Section InnerLengths.
Context `{ECDHE_API} `{SPACK_API}.

Lemma PushSchemas_deserialize_decrypted (e : ECDHE) (dg : NetTask.t)
    (serEnc rest message : Buffer) (msg : EncryptedMessage) :
  NetTask.type dg = type_code PUSH_SCHEMAS ->
  byteLength serEnc < 2 ^ 32 ->
  deserializeEncryptedMessage serEnc = Some msg ->
  decrypt e msg = Some message ->
  NetTaskPushSchemas.deserialize e dg
    (writeUInt32BE (byteLength serEnc) ++ serEnc ++ rest)
  = match NetTaskPushSchemas.parse_schemas message with
    | Some tasks =>
        Ok (NetTaskPushSchemas.new (NetTask.sessionId dg) 123123 123123 true
              (TaskCollection tasks), rest)
    | None => Err MalformedPayload
    end.
Proof.
  intros Hty Hlen Hdes Hdec. unfold NetTaskPushSchemas.deserialize, NetTask.getType.
  rewrite Hty. cbn [type_code N.eqb Pos.eqb negb].
  rewrite (pbind_ok _ _ _ _ _ (readUInt32_write _ _ Hlen)).
  rewrite (pbind_ok _ _ _ _ _ (read_app _ _)).
  unfold pbind, plift, orThrow, pret.
  rewrite Hdes. cbv beta iota. rewrite Hdec. cbv beta iota.
  now destruct (NetTaskPushSchemas.parse_schemas message).
Qed.

(** X12. [NetTaskPushSchemas.deserialize] does not check the length written
    before the schemas against the bytes that are there: it decodes the first
    [spackLen] bytes behind the length, and all of them when [spackLen] is
    larger than what follows; bytes behind the schemas are dropped.  Only a
    decrypted message of fewer than four bytes, or schemas that do not
    decode or unpack, are malformed. *)
Theorem PushSchemas_length_not_checked (e : ECDHE) (dg : NetTask.t)
    (serEnc rest message : Buffer) (msg : EncryptedMessage) :
  NetTask.type dg = type_code PUSH_SCHEMAS ->
  byteLength serEnc < 2 ^ 32 ->
  deserializeEncryptedMessage serEnc = Some msg ->
  decrypt e msg = Some message ->
  (byteLength message < 4 ->
   NetTaskPushSchemas.deserialize e dg (writeUInt32BE (byteLength serEnc) ++ serEnc ++ rest)
   = Err MalformedPayload)
  /\ (forall (spackLen : N) (raw : Buffer),
        message = writeUInt32BE spackLen ++ raw ->
        spackLen < 2 ^ 32 ->
        NetTaskPushSchemas.deserialize e dg
          (writeUInt32BE (byteLength serEnc) ++ serEnc ++ rest)
        = match deserializeSPACK (firstn (N.to_nat spackLen) raw) with
          | Some spack =>
              match unpackTaskSchemas spack with
              | Some tasks =>
                  Ok (NetTaskPushSchemas.new (NetTask.sessionId dg) 123123 123123 true
                        (TaskCollection tasks), rest)
              | None => Err MalformedPayload
              end
          | None => Err MalformedPayload
          end)
  /\ (forall (spackLen : N) (raw : Buffer),
        message = writeUInt32BE spackLen ++ raw ->
        spackLen < 2 ^ 32 ->
        byteLength raw <= spackLen ->
        NetTaskPushSchemas.deserialize e dg
          (writeUInt32BE (byteLength serEnc) ++ serEnc ++ rest)
        = match deserializeSPACK raw with
          | Some spack =>
              match unpackTaskSchemas spack with
              | Some tasks =>
                  Ok (NetTaskPushSchemas.new (NetTask.sessionId dg) 123123 123123 true
                        (TaskCollection tasks), rest)
              | None => Err MalformedPayload
              end
          | None => Err MalformedPayload
          end).
Proof.
  intros Hty Hlen Hdes Hdec.
  rewrite (PushSchemas_deserialize_decrypted e dg serEnc rest message msg Hty Hlen Hdes Hdec).
  split; [|split].
  - intros Hshort. unfold NetTaskPushSchemas.parse_schemas, Buffer_readUInt32BE.
    destruct (Nat.leb_spec 4 (length message)) as [Hle|_]; [|reflexivity].
    unfold byteLength in Hshort. lia.
  - intros spackLen raw -> Hn. rewrite parse_schemas_prefix by exact Hn.
    destruct (deserializeSPACK _) as [spack|]; [|reflexivity].
    now destruct (unpackTaskSchemas spack).
  - intros spackLen raw -> Hn Hle. rewrite parse_schemas_prefix by exact Hn.
    rewrite firstn_all2 by (unfold byteLength in Hle; lia).
    destruct (deserializeSPACK _) as [spack|]; [|reflexivity].
    now destruct (unpackTaskSchemas spack).
Qed.

(** X13. [NetTaskMetric.deserialize] does check the two lengths of the
    decrypted message against the bytes that are there: a pack length larger
    than what follows is the malformed-payload error.  Bytes behind the pack
    are dropped, the task id is the UTF-8 reading of the bytes under the
    first length, whatever they are, and the pack is decoded under what the
    property read [configTasks[taskId]] gives for that task id, own or
    inherited. *)
Theorem Metric_lengths_checked (e : ECDHE) (dg : NetTask.t)
    (configTasks : JSObject Task)
    (serEnc rest idBytes raw : Buffer) (msg : EncryptedMessage) :
  NetTask.type dg = type_code SEND_METRICS ->
  byteLength serEnc < 2 ^ 32 ->
  byteLength idBytes < 2 ^ 32 ->
  deserializeEncryptedMessage serEnc = Some msg ->
  (forall spackLen,
      byteLength raw < spackLen -> spackLen < 2 ^ 32 ->
      decrypt e msg = Some (writeUInt32BE (byteLength idBytes) ++ idBytes
                            ++ writeUInt32BE spackLen ++ raw) ->
      NetTaskMetric.deserialize e dg configTasks
        (writeUInt32BE (byteLength serEnc) ++ serEnc ++ rest)
      = Err MalformedPayload)
  /\ (forall tail,
        byteLength raw < 2 ^ 32 ->
        decrypt e msg = Some (writeUInt32BE (byteLength idBytes) ++ idBytes
                              ++ writeUInt32BE (byteLength raw) ++ raw ++ tail) ->
        NetTaskMetric.deserialize e dg configTasks
          (writeUInt32BE (byteLength serEnc) ++ serEnc ++ rest)
        = match deserializeTaskMetric raw
                  (JSObject_get configTasks (toString_utf8 idBytes)) with
          | Some metrics =>
              Ok (NetTaskMetric.new (NetTask.sessionId dg) (NetTask.sequenceNumber dg)
                    (NetTask.acknowledgementNumber dg) true metrics
                    (toString_utf8 idBytes)
                    (JSObject_get configTasks (toString_utf8 idBytes)), rest)
          | None => Err MalformedPayload
          end).
Proof.
  intros Hty Hlen Hid Hdes. split.
  - intros spackLen Hshort Hn Hdec.
    rewrite (Metric_deserialize_decrypted e dg configTasks serEnc rest _ msg
               Hty Hlen Hdes Hdec).
    unfold NetTaskMetric.parse_metric.
    rewrite (pbind_ok _ _ _ _ _ (readUInt32_write _ _ Hid)).
    rewrite (pbind_ok _ _ _ _ _ (read_app _ _)).
    rewrite (pbind_ok _ _ _ _ _ (readUInt32_write _ _ Hn)).
    now rewrite (pbind_err _ _ _ _ (read_short _ _ Hshort)).
  - intros tail Hraw Hdec.
    exact (Metric_deserialize_fields e dg configTasks serEnc rest idBytes raw tail msg
             Hty Hlen Hid Hraw Hdes Hdec).
Qed.
End InnerLengths.

(** ** Headers cut short *)

Lemma readUInt32_ok_inv (r : Buffer) v r' :
  BufferReader.readUInt32 r = Ok (v, r') -> 4 <= byteLength r /\ r' = skipn 4 r.
Proof.
  unfold BufferReader.readUInt32.
  destruct (BufferReader.read 4 r) as [[b r1]|] eqn:E; [|discriminate].
  intros [= _ <-]. apply read_ok_inv in E as (Hle & _ & ->). auto.
Qed.

Lemma readInt8_ok_inv (r : Buffer) v r' :
  BufferReader.readInt8 r = Ok (v, r') -> 1 <= byteLength r /\ r' = skipn 1 r.
Proof.
  unfold BufferReader.readInt8.
  destruct (BufferReader.read 1 r) as [[b r1]|] eqn:E; [|discriminate].
  intros [= _ <-]. apply read_ok_inv in E as (Hle & _ & ->). auto.
Qed.

(** A private header that is read has its seventeen bytes. *)
Lemma deserializePrivateHeader_ok_length (ph : NetTaskPublicHeader.t) (r : Buffer) dg r' :
  NetTask.deserializePrivateHeader ph r = Ok (dg, r') -> 17 <= byteLength r.
Proof.
  unfold NetTask.deserializePrivateHeader.
  intros (v & r1 & (H1 & ->)%readUInt32_ok_inv & Hrest)%pbind_inv_ok.
  destruct (negb (v =? NET_TASK_VERSION)); [discriminate|].
  apply pbind_inv_ok in Hrest as (? & r2 & (H2 & ->)%readUInt32_ok_inv & Hrest).
  apply pbind_inv_ok in Hrest as (? & r3 & (H3 & ->)%readUInt32_ok_inv & Hrest).
  apply pbind_inv_ok in Hrest as (? & r4 & (H4 & ->)%readInt8_ok_inv & Hrest).
  apply pbind_inv_ok in Hrest as (? & r5 & (H5 & ->)%readUInt32_ok_inv & _).
  rewrite !byteLength_skipn in *. lia.
Qed.

Section Truncation.
Context `{ECDHE_API}.

(** X14. Headers cut short.  On fewer than four bytes [verifySignature]
    fails on the reader.  [deserializePrivateHeader] on fewer than seventeen
    bytes never returns: a version other than 1 is reported as such as soon
    as its four bytes are there, and otherwise the reader runs out.
    [deserializePublicHeader] checks the mark before it reads the payload
    size: with the mark there and the payload size cut, a bad mark is the
    invalid-crypto-mark error and a good one runs the reader out. *)
Theorem truncated_headers (ph : NetTaskPublicHeader.t) (r : BufferReader.t) :
  (byteLength r < 4 -> NetTask.verifySignature r = Err TruncatedFrame)
  /\ (byteLength r < 4 -> NetTask.deserializePrivateHeader ph r = Err TruncatedFrame)
  /\ (4 <= byteLength r -> byteLength r < 17 ->
      NetTask.deserializePrivateHeader ph r
      = if uintBE (firstn 4 r) =? 1 then Err TruncatedFrame else Err InvalidVersion)
  /\ (byteLength r < HASH_LEN + 2 ->
      NetTask.deserializePublicHeader r = Err TruncatedFrame)
  /\ (HASH_LEN + 2 <= byteLength r -> byteLength r < HASH_LEN + 2 + 4 ->
      NetTask.deserializePublicHeader r
      = if Buffer_equals NET_TASK_CRYPTO (mark_in r)
           || Buffer_equals NET_TASK_NOCRYPTO (mark_in r)
        then Err TruncatedFrame else Err InvalidCryptoMark).
Proof.
  repeat apply conj.
  - intros Hr. unfold NetTask.verifySignature.
    now rewrite (pbind_err _ _ _ _ (read_short 4 r Hr)).
  - intros Hr. unfold NetTask.deserializePrivateHeader.
    now rewrite (pbind_err _ _ _ _ (readUInt32_short r Hr)).
  - intros Hlo Hhi.
    destruct (NetTask.deserializePrivateHeader ph r) as [[dg r']|e] eqn:Hres.
    + apply deserializePrivateHeader_ok_length in Hres. lia.
    + revert Hres. unfold NetTask.deserializePrivateHeader.
      rewrite (pbind_ok _ _ _ _ _ (readUInt32_enough r Hlo)).
      unfold NET_TASK_VERSION.
      destruct (uintBE (firstn 4 r) =? 1); cbn [negb].
      * intros Hres. f_equal. parser_error Hres.
      * now intros [= <-].
  - intros Hr. unfold NetTask.deserializePublicHeader.
    destruct (N.lt_ge_cases (byteLength r) HASH_LEN) as [Hlt|Hge].
    + now rewrite (pbind_err _ _ _ _ (read_short _ r Hlt)).
    + rewrite (pbind_ok _ _ _ _ _ (read_enough _ r Hge)).
      rewrite (pbind_err _ _ _ TruncatedFrame); [reflexivity|].
      apply read_short. rewrite byteLength_skipn.
      change (byteLength NET_TASK_CRYPTO) with 2. lia.
  - intros Hlo Hhi. rewrite deserializePublicHeader_mark by exact Hlo.
    rewrite readUInt32_short by (rewrite byteLength_skipn; lia).
    now destruct (Buffer_equals NET_TASK_CRYPTO (mark_in r)),
                 (Buffer_equals NET_TASK_NOCRYPTO (mark_in r)).
Qed.
End Truncation.

(** ** The class of a datagram and its header *)

Section ClassAndHeader.
Context `{ECDHE_API} `{SPACK_API}.

Lemma Datagram_serialize_class (d d' : Datagram) calls out :
  Datagram_serialize d = (calls, Ok (d', out)) ->
  Datagram_type d' = Datagram_type d.
Proof.
  destruct d as [d|d|d|d|d|d]; cbn [Datagram_serialize].
  - destruct (NetTaskRejected.serialize d) as [d0 out0].
    now intros (_ & -> & _)%tret_inv.
  - destruct (NetTaskRegister.serialize d) as [d0 out0].
    now intros (_ & -> & _)%tret_inv.
  - destruct (NetTaskRegisterChallenge.serialize d) as [d0 out0].
    now intros (_ & -> & _)%tret_inv.
  - destruct (NetTaskRegisterChallenge2.serialize d) as [calls0 [[d0 out0]|err]];
      unfold_traced; [|discriminate]. now intros [= _ <- _].
  - destruct (NetTaskPushSchemas.serialize d) as [calls0 [[d0 out0]|err]];
      unfold_traced; [|discriminate]. now intros [= _ <- _].
  - destruct (NetTaskMetric.serialize d) as [calls0 [[d0 out0]|err]];
      unfold_traced; [|discriminate]. now intros [= _ <- _].
Qed.

Lemma constructed_class (d : Datagram) :
  constructed d ->
  NetTask.type (Datagram_base d) = type_code (Datagram_type d)
  /\ NetTask.version (Datagram_base d) = NET_TASK_VERSION
  /\ NetTask.cryptoMark (Datagram_base d)
     = (if Datagram_is_encrypted d then NET_TASK_CRYPTO else NET_TASK_NOCRYPTO).
Proof.
  induction 1 as [ | | | | | | d e _ IH | d e _ IH | d e _ IH
                 | d calls d' out _ IH Hs];
    try (repeat split; reflexivity); try exact IH.
  destruct (Datagram_serialize_body d d' calls out Hs) as (body & _ & ->).
  pose proof (Datagram_serialize_class d d' calls out Hs) as Hclass.
  assert (Henc : Datagram_is_encrypted d' = Datagram_is_encrypted d)
    by (destruct d, d'; try discriminate Hclass; reflexivity).
  rewrite Hclass, Henc. exact IH.
Qed.

(** X15. The type field tells the class.  For every datagram built by a
    constructor, and linked or serialized since, the type is the member of
    the enumeration that belongs to its class, the version is 1, and the
    mark is "CC" for the two encrypted classes and "NC" for the others;
    [serialize] never changes the class, the type, the version, the mark or
    the session id. *)
Theorem type_identifies_class (d : Datagram) :
  constructed d ->
  NetTask.type (Datagram_base d) = type_code (Datagram_type d)
  /\ NetTask.version (Datagram_base d) = NET_TASK_VERSION
  /\ NetTask.cryptoMark (Datagram_base d)
     = (if Datagram_is_encrypted d then NET_TASK_CRYPTO else NET_TASK_NOCRYPTO)
  /\ NetTask.isEncrypted (Datagram_base d) = Datagram_is_encrypted d
  /\ forall calls d' out,
       Datagram_serialize d = (calls, Ok (d', out)) ->
       Datagram_type d' = Datagram_type d
       /\ NetTask.type (Datagram_base d') = NetTask.type (Datagram_base d)
       /\ NetTask.version (Datagram_base d') = NetTask.version (Datagram_base d)
       /\ NetTask.cryptoMark (Datagram_base d') = NetTask.cryptoMark (Datagram_base d)
       /\ NetTask.sessionId (Datagram_base d') = NetTask.sessionId (Datagram_base d).
Proof.
  intros Hd. destruct (constructed_class d Hd) as (Hty & Hv & Hmark).
  split; [exact Hty|]. split; [exact Hv|]. split; [exact Hmark|]. split.
  - unfold NetTask.isEncrypted. rewrite Hmark.
    now destruct (Datagram_is_encrypted d).
  - intros calls d' out Hs.
    split; [exact (Datagram_serialize_class d d' calls out Hs)|].
    destruct (Datagram_serialize_body d d' calls out Hs) as (body & _ & ->).
    repeat split; reflexivity.
Qed.

(** X16. What a receiver learns from the public header of a serialized
    datagram.  The bytes pass [verifySignature]; [deserializePublicHeader]
    then returns the session id of the datagram and, as payload size, the
    number of bytes that are left in the reader; and [isEncrypted] on that
    header is true exactly for a PushSchemas or a Metric datagram, so that
    the header alone tells whether an envelope has to be opened. *)
Theorem public_header_of_serialized (d d' : Datagram) calls (out : Buffer) :
  constructed d ->
  byteLength (NetTask.sessionId (Datagram_base d)) = HASH_LEN ->
  Datagram_serialize d = (calls, Ok (d', out)) ->
  byteLength out - PUBLIC_HEADER_LEN < 2 ^ 32 ->
  exists ph body,
    NetTask.verifySignature out = Ok (true, skipn 4 out)
    /\ NetTask.deserializePublicHeader (skipn 4 out) = Ok (ph, body)
    /\ NetTaskPublicHeader.sessionId ph = NetTask.sessionId (Datagram_base d)
    /\ NetTaskPublicHeader.payloadSize ph = byteLength body
    /\ isEncrypted_header ph = Datagram_is_encrypted d.
Proof.
  intros Hd Hsid Hs Hfit.
  destruct (constructed_class d Hd) as (_ & _ & Hmark).
  destruct (Datagram_serialize_body d d' calls out Hs) as (body & -> & Hb).
  assert (Hvalid : valid_header (Datagram_base d')).
  { rewrite Hb. split; [exact Hsid|]. cbn [NetTask.set_payloadSize NetTask.cryptoMark].
    rewrite Hmark. destruct (Datagram_is_encrypted d); auto. }
  rewrite byteLength_app, (byteLength_serializePublicHeader _ Hvalid) in Hfit.
  assert (Hsize : NetTask.payloadSize (Datagram_base d') < 2 ^ 32)
    by (rewrite Hb; cbn [NetTask.set_payloadSize NetTask.payloadSize]; lia).
  rewrite serializePublicHeader_bytes, <- !app_assoc.
  change (skipn 4 (NET_TASK_SIGNATURE ++ ?l)) with l.
  eexists. exists body.
  split; [apply verifySignature_signature|].
  split; [apply deserializePublicHeader_serialize; assumption|].
  rewrite Hb. cbn [NetTaskPublicHeader.sessionId NetTaskPublicHeader.payloadSize
                   NetTask.set_payloadSize NetTask.sessionId NetTask.payloadSize].
  repeat split.
  unfold isEncrypted_header.
  cbn [NetTaskPublicHeader.cryptoMark NetTask.cryptoMark NetTask.set_payloadSize].
  rewrite Hmark. now destruct (Datagram_is_encrypted d).
Qed.

(** X17. Serializing twice.  For the four classes that do not encrypt,
    serializing the datagram that [serialize] left returns the same bytes
    and leaves the same datagram: the payload size stored by the first call
    does not leak into the second. *)
Theorem serialize_again (d d' : Datagram) calls (out : Buffer) :
  Datagram_is_encrypted d = false ->
  Datagram_serialize d = (calls, Ok (d', out)) ->
  Datagram_serialize d' = (calls, Ok (d', out)).
Proof.
  intros Hclear.
  destruct d as [d|d|d|d|d|d]; try discriminate Hclear; cbn [Datagram_serialize].
  - rewrite Rejected_serialize_bytes. intros (-> & -> & ->)%tret_inv. reflexivity.
  - rewrite Register_serialize_bytes. intros (-> & -> & ->)%tret_inv.
    cbn [Datagram_serialize]. rewrite Register_serialize_bytes. reflexivity.
  - rewrite RegisterChallenge_serialize_bytes. intros (-> & -> & ->)%tret_inv.
    cbn [Datagram_serialize]. rewrite RegisterChallenge_serialize_bytes. reflexivity.
  - destruct (NetTaskRegisterChallenge2.ecdhe d) as [e|] eqn:Hlink.
    + rewrite (RegisterChallenge2_serialize_linked d e Hlink). unfold_traced.
      intros (-> & -> & ->)%(tret_inv (A:=Datagram)).
      cbn [Datagram_serialize].
      erewrite RegisterChallenge2_serialize_linked by reflexivity.
      reflexivity.
    + unfold NetTaskRegisterChallenge2.serialize. rewrite Hlink. discriminate.
Qed.
End ClassAndHeader.

(** ** How far a failing [serialize] gets *)

Section SerializeErrors.
Context `{ECDHE_API} `{SPACK_API}.

(** X18. When [serialize] of an encrypted variant throws, it is for one of
    four reasons, and the calls made to the ECDHE session tell how far it
    got: not linked, with no call; the SPACK serializer threw, with no call
    (nothing is encrypted before the payload is packed); a length that
    [Buffer.writeUInt32BE] is to write does not fit 32 bits, with no call
    either; or the ECDHE session failed, after [encrypt] alone or after
    [encrypt] and [envelope] in that order, [encrypt] having been handed the
    length of the pack and the pack (preceded, for a Metric, by the length
    of the task id and the task id).  A pack of [2^32] bytes or more always
    ends in the range error. *)
Theorem encrypted_serialize_errors :
  (forall (this : NetTaskPushSchemas.t) calls err,
      NetTaskPushSchemas.serialize this = (calls, Err err) ->
      (err = NotLinked /\ calls = [] /\ NetTaskPushSchemas.ecdhe this = None)
      \/ (err = SPACKFailure /\ calls = []
          /\ (packed_of (NetTaskPushSchemas.spack this) = None
              \/ exists p, packed_of (NetTaskPushSchemas.spack this) = Some p
                           /\ serializeSPACK p = None))
      \/ (err = OutOfRange /\ calls = []
          /\ exists p pack,
               packed_of (NetTaskPushSchemas.spack this) = Some p
               /\ serializeSPACK p = Some pack
               /\ 2 ^ 32 <= byteLength pack)
      \/ (err = CryptoFailure
          /\ exists p pack,
               packed_of (NetTaskPushSchemas.spack this) = Some p
               /\ serializeSPACK p = Some pack
               /\ byteLength pack < 2 ^ 32
               /\ (calls = [CallEncrypt (writeUInt32BE (byteLength pack) ++ pack)]
                   \/ exists payload,
                        calls = [CallEncrypt (writeUInt32BE (byteLength pack) ++ pack);
                                 CallEnvelope payload])))
  /\ (forall (this : NetTaskMetric.t) calls err,
      NetTaskMetric.serialize this = (calls, Err err) ->
      (err = NotLinked /\ calls = [] /\ NetTaskMetric.ecdhe this = None)
      \/ (err = SPACKFailure /\ calls = []
          /\ serializeTaskMetric (NetTaskMetric.spack this) (NetTaskMetric.task this) = None)
      \/ (err = OutOfRange /\ calls = []
          /\ exists pack,
               serializeTaskMetric (NetTaskMetric.spack this) (NetTaskMetric.task this)
               = Some pack
               /\ (2 ^ 32 <= N.of_nat (length (NetTaskMetric.taskId this))
                   \/ 2 ^ 32 <= byteLength pack))
      \/ (err = CryptoFailure
          /\ exists pack,
               serializeTaskMetric (NetTaskMetric.spack this) (NetTaskMetric.task this)
               = Some pack
               /\ N.of_nat (length (NetTaskMetric.taskId this)) < 2 ^ 32
               /\ byteLength pack < 2 ^ 32
               /\ (calls = [CallEncrypt
                              (writeUInt32BE (N.of_nat (length (NetTaskMetric.taskId this)))
                               ++ utf8_encode (NetTaskMetric.taskId this)
                               ++ writeUInt32BE (byteLength pack) ++ pack)]
                   \/ exists payload,
                        calls = [CallEncrypt
                                   (writeUInt32BE
                                      (N.of_nat (length (NetTaskMetric.taskId this)))
                                    ++ utf8_encode (NetTaskMetric.taskId this)
                                    ++ writeUInt32BE (byteLength pack) ++ pack);
                                 CallEnvelope payload])))
  /\ (forall (this : NetTaskPushSchemas.t) e p pack,
      NetTaskPushSchemas.ecdhe this = Some e ->
      packed_of (NetTaskPushSchemas.spack this) = Some p ->
      serializeSPACK p = Some pack ->
      2 ^ 32 <= byteLength pack ->
      NetTaskPushSchemas.serialize this = ([], Err OutOfRange))
  /\ (forall (this : NetTaskMetric.t) e pack,
      NetTaskMetric.ecdhe this = Some e ->
      serializeTaskMetric (NetTaskMetric.spack this) (NetTaskMetric.task this) = Some pack ->
      2 ^ 32 <= byteLength pack ->
      NetTaskMetric.serialize this = ([], Err OutOfRange)).
Proof.
  split; [|split; [|split]].
  - intros this calls err. unfold NetTaskPushSchemas.serialize.
    destruct (NetTaskPushSchemas.ecdhe this) as [e|];
      [|intros [= <- <-]; left; auto].
    rewrite pack_of_packed_of.
    destruct (packed_of (NetTaskPushSchemas.spack this)) as [p|];
      [|unfold_traced; intros [= <- <-]; right; left; auto].
    destruct (serializeSPACK p) as [pack|] eqn:Hser; unfold_writer; unfold_traced;
      [|intros [= <- <-]; right; left; repeat split; right; now exists p].
    destruct (Buffer_writeUInt32BE (byteLength pack)) as [packLen|err'] eqn:Hw.
    2: { apply Buffer_writeUInt32BE_err in Hw as [Hge ->].
         intros [= <- <-]. right; right; left. repeat split. now exists p, pack. }
    apply Buffer_writeUInt32BE_inv in Hw as [Hlt ->].
    destruct (encrypt e _) as [enc|];
      [|intros [= <- <-]; right; right; right; split; [reflexivity|];
        exists p, pack; auto].
    destruct (serializeEncryptedMessage enc) as [innerEnc|];
      [|intros [= <- <-]; right; right; right; split; [reflexivity|];
        exists p, pack; auto].
    destruct (envelope e _) as [env|].
    + destruct (serializeEncryptedMessage env) as [outerEnc|]; [discriminate|].
      intros [= <- <-]. right; right; right. split; [reflexivity|]. exists p, pack.
      repeat (split; [trivial|]). right. eexists. reflexivity.
    + intros [= <- <-]. right; right; right. split; [reflexivity|]. exists p, pack.
      repeat (split; [trivial|]). right. eexists. reflexivity.
  - intros this calls err. unfold NetTaskMetric.serialize.
    destruct (NetTaskMetric.ecdhe this) as [e|];
      [|intros [= <- <-]; left; auto].
    destruct (serializeTaskMetric _ _) as [pack|]; unfold_writer; unfold_traced;
      [|intros [= <- <-]; right; left; auto].
    destruct (NetTaskMetric.packCompound_of (NetTaskMetric.taskId this) pack)
      as [inner|err'] eqn:Hw.
    2: { apply packCompound_of_err in Hw as [-> Hge].
         intros [= <- <-]. right; right; left. repeat split. now exists pack. }
    apply packCompound_of_inv in Hw as (Hid & Hlt & ->).
    destruct (encrypt e _) as [enc|];
      [|intros [= <- <-]; right; right; right; split; [reflexivity|];
        exists pack; auto].
    destruct (serializeEncryptedMessage enc) as [innerEnc|];
      [|intros [= <- <-]; right; right; right; split; [reflexivity|];
        exists pack; auto].
    destruct (envelope e _) as [env|].
    + destruct (serializeEncryptedMessage env) as [outerEnc|]; [discriminate|].
      intros [= <- <-]. right; right; right. split; [reflexivity|]. exists pack.
      repeat (split; [trivial|]). right. eexists. reflexivity.
    + intros [= <- <-]. right; right; right. split; [reflexivity|]. exists pack.
      repeat (split; [trivial|]). right. eexists. reflexivity.
  - intros this e p pack Hlink Hp Hser Hge.
    unfold NetTaskPushSchemas.serialize. rewrite Hlink, pack_of_packed_of, Hp, Hser.
    unfold_traced. unfold Buffer_writeUInt32BE.
    destruct (N.ltb_spec (byteLength pack) (2 ^ 32)); [lia | reflexivity].
  - intros this e pack Hlink Hpack Hge.
    unfold NetTaskMetric.serialize. rewrite Hlink, Hpack.
    unfold_traced. unfold NetTaskMetric.packCompound_of, Buffer_writeUInt32BE.
    destruct (N.ltb_spec (byteLength pack) (2 ^ 32)); [lia|].
    now destruct (N.of_nat (length (NetTaskMetric.taskId this)) <? 2 ^ 32).
Qed.
End SerializeErrors.
(** ** The small instance keeps the promises of the collaborators *)

Import Small.

#[global] Instance Small_ecdhe_laws : @ECDHE_Laws Small.ecdhe_api.
Proof.
  split.
  - intros e plain msg [= <-]. cbn. now rewrite rev_involutive.
  - intros e plain msg [= <-]. reflexivity.
  - intros msg b [= <-]. reflexivity.
Qed.

#[global] Instance Small_spack_laws : @SPACK_Laws Small.spack_api.
Proof.
  split.
  - intros p b [= <-]. reflexivity.
  - intros tasks p. cbn. unfold Small.pack_empty.
    case_bool_decide as Hempty; [|discriminate].
    intros [= <-]. exists ∅. split; [reflexivity|].
    now rewrite Hempty, fmap_empty.
  - intros m tk b [= <-]. reflexivity.
Qed.

(** ** The definitions at work on concrete datagrams *)

(** C1, where the code departs from it.  A PushSchemas datagram sent with
    sequence number 1, acknowledgement number 0 and the fragmented flag off
    is read back, by the full pipeline and under the same session, with
    sequence and acknowledgement numbers 123123 and the flag on; a Metric
    datagram sent with the flag off is read back with the flag on; and a
    Metric datagram for the task "é" is not read back at all, although the
    receiver knows the task. *)
Theorem roundtrip_loses_private_header :
  (exists received,
      receive_encrypted tt (NetTaskPushSchemas.deserialize tt)
        (bytes_of (NetTaskPushSchemas.serialize a_push))
      = Ok (received, [])
      /\ NetTask.sequenceNumber (NetTaskPushSchemas.base a_push) = 1
      /\ NetTask.sequenceNumber (NetTaskPushSchemas.base received) = 123123
      /\ NetTask.acknowledgementNumber (NetTaskPushSchemas.base a_push) = 0
      /\ NetTask.acknowledgementNumber (NetTaskPushSchemas.base received) = 123123
      /\ NetTask.fragmented (NetTaskPushSchemas.base a_push) = false
      /\ NetTask.fragmented (NetTaskPushSchemas.base received) = true)
  /\ (exists received,
      receive_encrypted tt (fun dg => NetTaskMetric.deserialize tt dg config)
        (bytes_of (NetTaskMetric.serialize (a_metric cpu)))
      = Ok (received, [])
      /\ NetTaskMetric.taskId received = cpu
      /\ NetTask.sequenceNumber (NetTaskMetric.base received) = 1
      /\ NetTask.fragmented (NetTaskMetric.base (a_metric cpu)) = false
      /\ NetTask.fragmented (NetTaskMetric.base received) = true)
  /\ (JSObject_get config_e e_acute = JSTask 7
      /\ receive_encrypted tt (fun dg => NetTaskMetric.deserialize tt dg config_e)
           (bytes_of (NetTaskMetric.serialize (a_metric e_acute)))
         = Err MalformedPayload).
Proof.
  split; [|split].
  - exists a_push_read.
    split; [vm_compute; reflexivity|]. repeat (split; [reflexivity|]). reflexivity.
  - exists (a_metric_read cpu).
    split; [vm_compute; reflexivity|]. repeat (split; [reflexivity|]). reflexivity.
  - split; vm_compute; reflexivity.
Qed.

(** C5 as stated fails.  The configuration of the receiver is the object
    literal [{ cpu: 7 }].  A Metric datagram names the task "mem", which is
    not a key of it: [deserialize] throws the malformed-payload error, not
    an unknown-task error.  Another names the task "constructor", which is
    not a key of it either: the read finds [Object.prototype.constructor],
    and [deserialize] returns a datagram that carries it as its task. *)
Lemma Metric_unknown_task_not_reported :
  (own Small.config !! Small.mem = None
   /\ NetTaskMetric.deserialize tt (Small.received_base Small.mem) Small.config
        (Small.received_body Small.mem)
      = Err MalformedPayload
   /\ NetTaskMetric.deserialize tt (Small.received_base Small.mem) Small.config
        (Small.received_body Small.mem)
      <> Err UnknownTask)
  /\ (own Small.config !! Small.constructor_name = None
      /\ NetTaskMetric.deserialize tt (Small.received_base Small.constructor_name)
           Small.config (Small.received_body Small.constructor_name)
         = Ok (NetTaskMetric.new Small.zero_session 1 0 true [x2a] Small.constructor_name
                 (JSBuiltin Small.constructor_name), [])).
Proof.
  split.
  - split; [vm_compute; reflexivity|].
    assert (Hres : NetTaskMetric.deserialize tt (Small.received_base Small.mem) Small.config
                     (Small.received_body Small.mem) = Err MalformedPayload)
      by (vm_compute; reflexivity).
    split; [exact Hres|]. rewrite Hres. discriminate.
  - split; vm_compute; reflexivity.
Qed.

(** The payload size of a serialized Metric datagram, read from its bytes. *)
Lemma payloadSize_is_body_length_witness :
  wire_payloadSize (bytes_of (NetTaskMetric.serialize (a_metric cpu)))
  = byteLength (bytes_of (NetTaskMetric.serialize (a_metric cpu))) - PUBLIC_HEADER_LEN.
Proof.
  destruct (payloadSize_is_body_length
              (DMetric (a_metric cpu))
              (DMetric (left_by (a_metric cpu) (NetTaskMetric.serialize (a_metric cpu))))
              (fst (NetTaskMetric.serialize (a_metric cpu)))
              (bytes_of (NetTaskMetric.serialize (a_metric cpu))))
    as (body & _ & _ & _ & Hwire).
  - split; [reflexivity | left; reflexivity].
  - vm_compute. reflexivity.
  - vm_compute. reflexivity.
  - exact Hwire.
Defined.


(** The mark of a linked PushSchemas datagram. *)
Lemma cryptoMark_discipline_witness :
  NetTask.cryptoMark (NetTaskPushSchemas.base a_push) = NET_TASK_CRYPTO
  <-> NetTask.type (NetTaskPushSchemas.base a_push) = type_code PUSH_SCHEMAS
      \/ NetTask.type (NetTaskPushSchemas.base a_push) = type_code SEND_METRICS.
Proof.
  apply (cryptoMark_discipline (DPushSchemas a_push)).
  apply link_PushSchemas, new_PushSchemas.
Defined.

(** Metric datagrams for the unknown tasks "mem" and "constructor", at a
    receiver whose configuration is [{ cpu: 7 }]. *)
Lemma Metric_deserialize_unknown_task_witness :
  NetTaskMetric.deserialize tt (received_base mem) (object_literal {[ cpu := 7 ]})
    (writeUInt32BE (byteLength (rev (plaintext_of mem))) ++ rev (plaintext_of mem) ++ [])
  = Err MalformedPayload
  /\ NetTaskMetric.deserialize tt (received_base constructor_name)
       (object_literal {[ cpu := 7 ]})
       (writeUInt32BE (byteLength (rev (plaintext_of constructor_name)))
        ++ rev (plaintext_of constructor_name) ++ [])
     = Ok (NetTaskMetric.new zero_session 1 0 true [x2a] constructor_name
             (JSBuiltin constructor_name), []).
Proof.
  split.
  - apply (proj2 (proj2 (@Metric_deserialize_unknown_task ecdhe_api spack_api tt
                           (received_base mem) config))
             {[ cpu := 7 ]} (rev (plaintext_of mem)) [] (utf8_encode mem) [x2a] []
             (rev (plaintext_of mem)));
      exact eq_refl.
  - apply (proj2 (proj2 (@Metric_deserialize_unknown_task ecdhe_api spack_api tt
                           (received_base constructor_name) config))
             {[ cpu := 7 ]} (rev (plaintext_of constructor_name)) []
             (utf8_encode constructor_name) [x2a] []
             (rev (plaintext_of constructor_name)));
      exact eq_refl.
Defined.

(** The private header of a datagram, followed by one more byte. *)
Lemma deserializePrivateHeader_version_witness :
  let ph := NetTaskPublicHeader.mk NET_TASK_CRYPTO zero_session 26 in
  let r := NetTask.serializePrivateHeader (NetTaskPushSchemas.base a_push) ++ [x07] in
  (NetTask.deserializePrivateHeader ph r = Err InvalidVersion <-> uintBE (firstn 4 r) <> 1)
  /\ exists dg,
       NetTask.deserializePrivateHeader ph r = Ok (dg, skipn 17 r)
       /\ NetTask.sessionId dg = zero_session
       /\ NetTask.sequenceNumber dg = uintBE (firstn 4 (skipn 4 r)).
Proof.
  intros ph r.
  destruct (deserializePrivateHeader_version ph r) as [Hreject Haccept].
  split.
  - apply Hreject. vm_compute. discriminate.
  - destruct Haccept as (dg & Hdg & Hsid & _ & _ & _ & Hseq & _).
    + vm_compute. discriminate.
    + vm_compute. reflexivity.
    + exists dg. split; [exact Hdg | split; [exact Hsid | exact Hseq]].
Defined.

(** A serialized datagram, behind its signature. *)
Lemma deserializePublicHeader_cryptoMark_witness :
  let r := skipn 4 (bytes_of (NetTaskPushSchemas.serialize a_push)) in
  (NetTask.deserializePublicHeader r = Err InvalidCryptoMark
   <-> mark_in r <> NET_TASK_CRYPTO /\ mark_in r <> NET_TASK_NOCRYPTO)
  /\ NetTask.deserializePublicHeader r
     = Ok ({| NetTaskPublicHeader.sessionId := firstn (N.to_nat HASH_LEN) r;
              NetTaskPublicHeader.cryptoMark := mark_in r;
              NetTaskPublicHeader.payloadSize :=
                uintBE (firstn 4 (skipn (N.to_nat (HASH_LEN + 2)) r)) |},
           skipn (N.to_nat (HASH_LEN + 2 + 4)) r).
Proof.
  intros r.
  destruct (deserializePublicHeader_cryptoMark r) as [Hreject Haccept].
  split.
  - apply Hreject. vm_compute. discriminate.
  - apply Haccept.
    + vm_compute. discriminate.
    + left. vm_compute. reflexivity.
Defined.

(** A PushSchemas datagram fresh from its constructor. *)
Lemma encrypted_serialize_NotLinked_witness :
  NetTaskPushSchemas.serialize
    (NetTaskPushSchemas.new zero_session 1 0 false (TaskCollection ∅))
  = ([], Err NotLinked).
Proof.
  apply (proj1 encrypted_serialize_NotLinked). reflexivity.
Defined.



(** ** The further properties on concrete datagrams *)

(** The headers of the PushSchemas datagram, followed by one byte. *)
Lemma headers_read_back_witness :
  exists r1 r2 ph,
    NetTask.verifySignature
      (NetTask.serializePublicHeader (NetTaskPushSchemas.base a_push)
       ++ NetTask.serializePrivateHeader (NetTaskPushSchemas.base a_push) ++ [x07])
    = Ok (true, r1)
    /\ NetTask.deserializePublicHeader r1 = Ok (ph, r2)
    /\ NetTaskPublicHeader.sessionId ph = zero_session
    /\ NetTaskPublicHeader.cryptoMark ph = NET_TASK_CRYPTO
    /\ NetTaskPublicHeader.payloadSize ph = 0
    /\ NetTask.deserializePrivateHeader ph r2 = Ok (NetTaskPushSchemas.base a_push, [x07]).
Proof.
  apply (@headers_read_back ecdhe_api (NetTaskPushSchemas.base a_push) [x07]).
  - split; [reflexivity | left; reflexivity].
  - repeat (split; [reflexivity|]). reflexivity.
  - reflexivity.
Defined.

(** A PushSchemas base datagram handed to the Register deserializer, and a
    Register base datagram on a reader of one byte. *)
Lemma cleartext_deserialize_errors_witness :
  NetTaskRegister.deserialize (NetTaskPushSchemas.base a_push) [] = Err WrongType
  /\ NetTaskRegister.deserialize
       (NetTaskRegister.base (NetTaskRegister.new zero_session 5 6 true [x01])) [x00]
     = Err TruncatedFrame
  /\ TruncatedFrame = TruncatedFrame.
Proof.
  split; [|split].
  - apply (proj1 (cleartext_deserialize_errors (NetTaskPushSchemas.base a_push))).
    discriminate.
  - vm_compute. reflexivity.
  - apply (proj1 (proj2 (proj2 (proj2
             (cleartext_deserialize_errors
                (NetTaskRegister.base (NetTaskRegister.new zero_session 5 6 true [x01]))))))
             eq_refl [x00] TruncatedFrame).
    vm_compute. reflexivity.
Defined.

(** A Register base datagram handed to the Metric deserializer, and a Metric
    base datagram on an empty reader. *)
Lemma encrypted_deserialize_errors_witness :
  NetTaskMetric.deserialize tt
    (NetTaskRegister.base (NetTaskRegister.new zero_session 5 6 true [x01])) config []
  = Err WrongType
  /\ NetTaskMetric.deserialize tt (received_base cpu) config [] = Err TruncatedFrame
  /\ (TruncatedFrame = TruncatedFrame \/ TruncatedFrame = CryptoFailure
      \/ TruncatedFrame = MalformedPayload).
Proof.
  split; [|split; [vm_compute; reflexivity|]].
  - apply (proj1 (proj2 (@encrypted_deserialize_errors ecdhe_api spack_api tt
             (NetTaskRegister.base (NetTaskRegister.new zero_session 5 6 true [x01]))
             config))).
    discriminate.
  - apply (proj2 (proj2 (proj2 (@encrypted_deserialize_errors ecdhe_api spack_api tt
             (received_base cpu) config))) eq_refl [] TruncatedFrame).
    vm_compute. reflexivity.
Defined.

(** The Metric datagram for "cpu", as [deserialize] returns it. *)
Lemma deserialized_is_fresh_witness :
  constructed (DMetric (a_metric_read cpu))
  /\ NetTaskMetric.base (a_metric_read cpu)
     = NetTask.new zero_session NET_TASK_CRYPTO 1 0 true (type_code SEND_METRICS) 0
  /\ NetTaskMetric.task (a_metric_read cpu) = JSObject_get config cpu.
Proof.
  destruct (proj2 (proj2 (proj2 (proj2
              (@deserialized_is_fresh ecdhe_api spack_api tt (received_base cpu) config
                 (received_body cpu) [])))) (a_metric_read cpu))
    as (Hnew & Hbase & Htask & _).
  - vm_compute. reflexivity.
  - split; [exact Hnew | split; [exact Hbase | exact Htask]].
Defined.

(** The same datagram, serialized again as it is. *)
Lemma deserialized_needs_link_witness :
  NetTaskMetric.serialize (a_metric_read cpu) = ([], Err NotLinked).
Proof.
  apply (proj2 (proj2
           (@deserialized_needs_link ecdhe_api spack_api tt (received_base cpu) config
              (received_body cpu) []))).
  vm_compute. reflexivity.
Defined.

(** A Register datagram with a public key of two bytes. *)
Lemma Register_wire_roundtrip_witness :
  receive_cleartext NetTaskRegister.deserialize
    (snd (NetTaskRegister.serialize (NetTaskRegister.new zero_session 5 6 true [x01; x02])))
  = Ok (NetTaskRegister.new zero_session 5 6 true [x01; x02], []).
Proof.
  apply (proj1 (@Register_wire_roundtrip ecdhe_api zero_session 5 6 true [x01; x02]
                  eq_refl eq_refl eq_refl eq_refl)).
Defined.

(** A RegisterChallenge datagram with an empty salt. *)
Lemma RegisterChallenge_wire_roundtrip_witness :
  receive_cleartext NetTaskRegisterChallenge.deserialize
    (snd (NetTaskRegisterChallenge.serialize
            (NetTaskRegisterChallenge.new zero_session 5 6 false [x01; x02] [x03] [])))
  = Ok (NetTaskRegisterChallenge.new zero_session 5 6 false [x01; x02] [x03] [], []).
Proof.
  apply (proj1 (@RegisterChallenge_wire_roundtrip ecdhe_api zero_session 5 6 false
                  [x01; x02] [x03] [] eq_refl eq_refl eq_refl eq_refl)).
Defined.

(** A RegisterChallenge2 datagram, linked. *)
Lemma RegisterChallenge2_wire_roundtrip_witness :
  exists d' out,
    NetTaskRegisterChallenge2.serialize
      (NetTaskRegisterChallenge2.link
         (NetTaskRegisterChallenge2.new zero_session 5 6 false [x03]) tt)
    = ([], Ok (d', out))
    /\ receive_cleartext NetTaskRegisterChallenge2.deserialize out
       = Ok (NetTaskRegisterChallenge2.new zero_session 5 6 false [x03], []).
Proof.
  apply (proj1 (@RegisterChallenge2_wire_roundtrip ecdhe_api zero_session 5 6 false
                  [x03] tt eq_refl eq_refl eq_refl eq_refl)).
Defined.

(** A Rejected datagram. *)
Lemma Rejected_wire_roundtrip_witness :
  byteLength (snd (NetTaskRejected.serialize (NetTaskRejected.new zero_session 5 6)))
  = PUBLIC_HEADER_LEN + 17
  /\ receive_cleartext pret
       (snd (NetTaskRejected.serialize (NetTaskRejected.new zero_session 5 6)))
     = Ok (NetTask.new zero_session NET_TASK_NOCRYPTO 5 6 false
             (type_code CONNECTION_REJECTED) 17, []).
Proof.
  destruct (@Rejected_wire_roundtrip ecdhe_api spack_api zero_session 5 6 tt config
              eq_refl eq_refl eq_refl) as (_ & Hlen & Hread & _).
  split; [exact Hlen | exact Hread].
Defined.

(** The PushSchemas datagram with an empty task collection. *)
Lemma PushSchemas_wire_read_back_witness :
  exists calls this' out,
    NetTaskPushSchemas.serialize a_push = (calls, Ok (this', out))
    /\ receive_encrypted tt (NetTaskPushSchemas.deserialize tt) out
       = Ok (a_push_read, []).
Proof.
  pose (inner := rev (writeUInt32BE 0)).
  pose (outer := xee :: NetTask.serializePrivateHeader (NetTaskPushSchemas.base a_push)
                        ++ writeUInt32BE (byteLength inner) ++ inner).
  destruct (@PushSchemas_wire_read_back ecdhe_api spack_api _ _
              zero_session 1 0 false (TaskCollection ∅) [] tt [] inner outer inner outer)
    as (calls & this' & out & Hs & Hr); [ exact eq_refl .. | ].
  exists calls, this', out. split; [exact Hs | exact Hr].
Defined.

(** The Metric datagram for "constructor", received under the
    configuration [{ cpu: 7 }]. *)
Lemma Metric_wire_read_back_witness :
  (exists calls this' out,
      NetTaskMetric.serialize (a_metric constructor_name) = (calls, Ok (this', out))
      /\ receive_encrypted tt (fun dg => NetTaskMetric.deserialize tt dg config) out
         = Ok (NetTaskMetric.new zero_session 1 0 true [x2a] constructor_name
                 (JSBuiltin constructor_name), []))
  /\ JSObject_get config constructor_name = JSBuiltin constructor_name.
Proof.
  pose (inner := rev (plaintext_of constructor_name)).
  pose (outer := xee :: NetTask.serializePrivateHeader
                          (NetTaskMetric.base (a_metric constructor_name))
                        ++ writeUInt32BE (byteLength inner) ++ inner).
  destruct (@Metric_wire_read_back ecdhe_api spack_api _
              zero_session 1 0 false [x2a] constructor_name (JSTask 7) config tt
              [x2a] inner outer inner outer)
    as ((calls & this' & out & Hs & Hr) & Hget); [ exact eq_refl .. | ].
  split.
  - exists calls, this', out. split; [exact Hs | exact Hr].
  - exact (Hget {[ cpu := 7 ]} eq_refl).
Defined.

(** A PushSchemas message that announces nine bytes of schemas and has none. *)
Lemma PushSchemas_length_not_checked_witness :
  NetTaskPushSchemas.deserialize tt (NetTaskPushSchemas.base a_push)
    (writeUInt32BE (byteLength (rev (writeUInt32BE 9))) ++ rev (writeUInt32BE 9) ++ [])
  = Ok (a_push_read, []).
Proof.
  apply (proj2 (proj2
           (@PushSchemas_length_not_checked ecdhe_api spack_api tt
              (NetTaskPushSchemas.base a_push) (rev (writeUInt32BE 9)) []
              (writeUInt32BE 9) (rev (writeUInt32BE 9))
              eq_refl eq_refl eq_refl eq_refl)) 9 []);
    vm_compute; (reflexivity || discriminate).
Defined.

(** A Metric message that announces five bytes of pack and has one, and a
    Metric message for "constructor" with one byte behind its pack, both at a
    receiver whose configuration is [{ cpu: 7 }]. *)
Lemma Metric_lengths_checked_witness :
  NetTaskMetric.deserialize tt (received_base cpu) config
    (writeUInt32BE
       (byteLength
          (rev (writeUInt32BE 3 ++ utf8_encode cpu ++ writeUInt32BE 5 ++ [x2a])))
     ++ rev (writeUInt32BE 3 ++ utf8_encode cpu ++ writeUInt32BE 5 ++ [x2a]) ++ [])
  = Err MalformedPayload
  /\ NetTaskMetric.deserialize tt (received_base constructor_name) config
       (writeUInt32BE (byteLength (rev (plaintext_of constructor_name ++ [x00])))
        ++ rev (plaintext_of constructor_name ++ [x00]) ++ [])
     = Ok (NetTaskMetric.new zero_session 1 0 true [x2a] constructor_name
             (JSBuiltin constructor_name), []).
Proof.
  split.
  - apply (proj1
             (@Metric_lengths_checked ecdhe_api spack_api tt (received_base cpu) config
                (rev (writeUInt32BE 3 ++ utf8_encode cpu ++ writeUInt32BE 5 ++ [x2a])) []
                (utf8_encode cpu) [x2a]
                (rev (writeUInt32BE 3 ++ utf8_encode cpu ++ writeUInt32BE 5 ++ [x2a]))
                eq_refl eq_refl eq_refl eq_refl) 5);
      exact eq_refl.
  - apply (proj2
             (@Metric_lengths_checked ecdhe_api spack_api tt
                (received_base constructor_name) config
                (rev (plaintext_of constructor_name ++ [x00])) []
                (utf8_encode constructor_name) [x2a]
                (rev (plaintext_of constructor_name ++ [x00]))
                eq_refl eq_refl eq_refl eq_refl) [x00]);
      exact eq_refl.
Defined.

(** Five bytes that start a private header of version 2. *)
Lemma truncated_headers_witness :
  NetTask.deserializePrivateHeader
    (NetTaskPublicHeader.mk NET_TASK_CRYPTO zero_session 26)
    [x00; x00; x00; x02; x00]
  = Err InvalidVersion.
Proof.
  apply (proj1 (proj2 (proj2
           (@truncated_headers ecdhe_api
              (NetTaskPublicHeader.mk NET_TASK_CRYPTO zero_session 26)
              [x00; x00; x00; x02; x00]))));
    vm_compute; (reflexivity || discriminate).
Defined.

(** The linked PushSchemas datagram. *)
Lemma type_identifies_class_witness :
  NetTask.type (NetTaskPushSchemas.base a_push) = type_code PUSH_SCHEMAS
  /\ NetTask.version (NetTaskPushSchemas.base a_push) = NET_TASK_VERSION
  /\ NetTask.cryptoMark (NetTaskPushSchemas.base a_push) = NET_TASK_CRYPTO
  /\ NetTask.isEncrypted (NetTaskPushSchemas.base a_push) = true.
Proof.
  destruct (@type_identifies_class ecdhe_api spack_api (DPushSchemas a_push))
    as (Hty & Hv & Hmark & Henc & _).
  - apply link_PushSchemas, new_PushSchemas.
  - repeat split; assumption.
Defined.

(** The serialized Metric datagram for "cpu", at its receiver. *)
Lemma public_header_of_serialized_witness :
  exists ph body,
    NetTask.deserializePublicHeader
      (skipn 4 (bytes_of (NetTaskMetric.serialize (a_metric cpu)))) = Ok (ph, body)
    /\ NetTaskPublicHeader.sessionId ph = zero_session
    /\ NetTaskPublicHeader.payloadSize ph = byteLength body
    /\ isEncrypted_header ph = true.
Proof.
  destruct (@public_header_of_serialized ecdhe_api spack_api
              (DMetric (a_metric cpu))
              (DMetric (left_by (a_metric cpu) (NetTaskMetric.serialize (a_metric cpu))))
              (fst (NetTaskMetric.serialize (a_metric cpu)))
              (bytes_of (NetTaskMetric.serialize (a_metric cpu))))
    as (ph & body & _ & Hph & Hsid & Hsize & Henc).
  - apply link_Metric, new_Metric.
  - reflexivity.
  - vm_compute. reflexivity.
  - vm_compute. reflexivity.
  - exists ph, body. repeat split; assumption.
Defined.

(** A Register datagram, serialized twice. *)
Lemma serialize_again_witness :
  let d := NetTaskRegister.new zero_session 5 6 true [x01; x02] in
  Datagram_serialize (DRegister (fst (NetTaskRegister.serialize d)))
  = ([], Ok (DRegister (fst (NetTaskRegister.serialize d)),
             snd (NetTaskRegister.serialize d))).
Proof.
  intros d.
  apply (@serialize_again ecdhe_api spack_api (DRegister d)); reflexivity.
Defined.

(** A PushSchemas datagram whose task collection the codec cannot pack. *)
Lemma encrypted_serialize_errors_witness :
  let this := NetTaskPushSchemas.link
                (NetTaskPushSchemas.new zero_session 1 0 false
                   (TaskCollection {[ cpu := 7 ]})) tt in
  NetTaskPushSchemas.serialize this = ([], Err SPACKFailure)
  /\ (packed_of (NetTaskPushSchemas.spack this) = None
      \/ exists p, packed_of (NetTaskPushSchemas.spack this) = Some p
                   /\ serializeSPACK p = None).
Proof.
  intros this.
  assert (Hs : NetTaskPushSchemas.serialize this = ([], Err SPACKFailure))
    by (vm_compute; reflexivity).
  split; [exact Hs|].
  destruct (proj1 (@encrypted_serialize_errors ecdhe_api spack_api) this [] SPACKFailure Hs)
    as [(Herr & _) | [(_ & _ & Hpack) | [(Herr & _) | (Herr & _)]]];
    [discriminate Herr | exact Hpack | discriminate Herr | discriminate Herr].
Defined.
